(** * Stock service: movement ledger, level aggregate and circuit breaker

    A shallow embedding of the inventory core of the stock-management
    micro-services:

    - [services/stock/src/models/stockLevelModel.js]   (module [StockLevel])
    - [services/stock/src/models/stockMovementModel.js] (module [StockMovement])
    - [services/shared/utils/circuitBreaker.js]        (module [CircuitBreaker])
    - [services/stock/src/controllers/stockController.js], the version that
      goes through the circuit breaker                 (module [StockController])
    - the same handlers cut at their awaits, to let requests overlap
                                                       (module [Interleaved])

    Quantities and timestamps are JavaScript numbers holding integers (the
    Joi schema demands [integer().min(1)], dates are milliseconds); they are
    modelled as [Z].  Mongo collections are finite maps or lists, documents
    are records, and a handler is a state-passing function over the
    collections and the breaker that may throw.  A request reads the clock
    once.  The [opossum] breaker that [circuitBreaker.js] wraps is not part
    of the sources; its state machine follows the specification and is
    marked as such. *)

From Stdlib Require Import ZArith Lia Ascii String.
From stdpp Require Import gmap strings list fin_maps sorting.

Local Open Scope string_scope.
Local Open Scope Z_scope.

(* ===================================================================== *)
(** ** JavaScript values, as far as the controller looks at them *)
(* ===================================================================== *)

Module Js.

#[local] Unset Elimination Schemes.
(** The part of a JSON body the controller can observe. *)
Inductive JsVal : Type :=
| JUndefined
| JNull
| JBool (b : bool)
| JNum (z : Z)
| JStr (s : string)
| JObj (fields : list (string * JsVal)).
#[local] Set Elimination Schemes.

(** [ToBoolean]: what [!x], [x || y] and [x && y] branch on. *)
Definition truthy (v : JsVal) : bool :=
  match v with
  | JUndefined | JNull => false
  | JBool b => b
  | JNum z => negb (z =? 0)
  | JStr s => negb (String.eqb s "")
  | JObj _ => true
  end.

Fixpoint assoc (k : string) (fields : list (string * JsVal)) : JsVal :=
  match fields with
  | [] => JUndefined
  | (k', v) :: rest => if String.eqb k k' then v else assoc k rest
  end.

(** [v?.k]; on a truthy [v] also [v.k]. *)
Definition get (v : JsVal) (k : string) : JsVal :=
  match v with
  | JObj fields => assoc k fields
  | _ => JUndefined
  end.

(** [a || b] *)
Definition or (a b : JsVal) : JsVal := if truthy a then a else b.

(** [parseInt(s) || d]: [None] stands for [NaN]. *)
Definition intOr (n : option Z) (d : Z) : Z :=
  match n with
  | Some z => if z =? 0 then d else z
  | None => d
  end.

(** [String.prototype.trim] on ASCII text: the white space and line
    terminators of JavaScript below 128 are the characters 9 to 13 and
    32.  Beyond ASCII [trim] also strips U+00A0, U+FEFF, U+2028 and the
    like, which this function leaves in place; the properties that depend
    on what is trimmed are stated for ASCII text. *)
Definition isSpace (c : ascii) : bool :=
  let n := nat_of_ascii c in
  ((9 <=? n)%nat && (n <=? 13)%nat) || (n =? 32)%nat.

Fixpoint trimStartL (l : list ascii) : list ascii :=
  match l with
  | [] => []
  | c :: rest => if isSpace c then trimStartL rest else l
  end.

Definition trim (s : string) : string :=
  string_of_list_ascii
    (rev (trimStartL (rev (trimStartL (list_ascii_of_string s))))).

End Js.

(* ===================================================================== *)
(** ** Errors and results *)
(* ===================================================================== *)

Inductive Error : Type :=
| ValidationError (path : string) (message : string)   (* mongoose validator *)
| PlainError (message : string)                        (* [new Error(..)] *)
| CallError                                            (* the HTTP call failed *)
| TimeoutError                                         (* the call timed out *)
| DependencyUnavailableError.                          (* breaker open, no fallback *)

Inductive Result (A : Type) : Type :=
| Ok (a : A)
| Throw (e : Error).
Arguments Ok {A} a.
Arguments Throw {A} e.

(* ===================================================================== *)
(** ** stockLevelModel.js *)
(* ===================================================================== *)

Module StockLevel.

(** A document of the [StockLevel] collection. *)
Record Doc : Type := mkDoc {
  productId : string;
  currentQuantity : Z;
  lastUpdated : Z;
}.

(** The collection; [productId] carries a unique index. *)
Abbreviation Collection := (gmap string Doc).

(** Schema validators run by [create] and [save]:
    [productId] required, [currentQuantity] with [min: 0]. *)
Definition validate (d : Doc) : Result unit :=
  if String.eqb (productId d) "" then
    Throw (ValidationError "productId" "Product ID is required")
  else if currentQuantity d <? 0 then
    Throw (ValidationError "currentQuantity" "Quantity cannot be negative")
  else Ok tt.

(** [doc.save()]: validate, then write the document under its key. *)
Definition save (d : Doc) (db : Collection) : Result Doc * Collection :=
  match validate d with
  | Ok _ => (Ok d, <[productId d := d]> db)
  | Throw e => (Throw e, db)
  end.

(** What a call of [updateQuantity] leaves behind: the in-memory
    document [this], the value returned or thrown, and the collection. *)
Record Updated : Type := mkUpdated {
  this_after : Doc;
  returned : Result Doc;
  stored : Collection;
}.

(** [[
    stockLevelSchema.methods.updateQuantity = async function (delta) {
        this.currentQuantity += delta;
        if (this.currentQuantity < 0) throw new Error("Insufficient stock");
        this.lastUpdated = new Date();
        return await this.save();
    };
    ]]
    The sum is the exact one: [+=] on two integers gives it when it is a
    safe integer, and rounds it to a double beyond; the properties that
    depend on the value of the sum are stated within the safe range. *)
Definition updateQuantity (this : Doc) (delta now : Z) (db : Collection)
  : Updated :=
  let this1 := mkDoc (productId this) (currentQuantity this + delta)
                     (lastUpdated this) in
  if currentQuantity this1 <? 0 then
    mkUpdated this1 (Throw (PlainError "Insufficient stock")) db
  else
    let this2 := mkDoc (productId this1) (currentQuantity this1) now in
    let '(r, db') := save this2 db in
    mkUpdated this2 r db'.

(** [[
    getOrCreate = async function (productId) {
        let stockLevel = await this.findOne({ productId });
        if (!stockLevel)
            stockLevel = await this.create({ productId, currentQuantity: 0 });
        return stockLevel;
    };
    ]]
    [lastUpdated] takes its default, [Date.now]. *)
Definition getOrCreate (pid : string) (now : Z) (db : Collection)
  : Result Doc * Collection :=
  match db !! pid with
  | Some d => (Ok d, db)
  | None => save (mkDoc pid 0 now) db
  end.

(** Insertion into a list kept ascending by [currentQuantity]. *)
Fixpoint insertByQuantity (d : Doc) (l : list Doc) : list Doc :=
  match l with
  | [] => [d]
  | x :: rest =>
      if currentQuantity d <=? currentQuantity x then d :: l
      else x :: insertByQuantity d rest
  end.

Definition sortByQuantity (l : list Doc) : list Doc :=
  foldr insertByQuantity [] l.

Definition docs (db : Collection) : list Doc := (map_to_list db).*2.

(** [find({ currentQuantity: { $lte: threshold } }).sort({ currentQuantity: 1 })] *)
Definition getLowStock (threshold : Z) (db : Collection) : list Doc :=
  sortByQuantity
    (List.filter (fun d => currentQuantity d <=? threshold) (docs db)).

(** [countDocuments(filter)] *)
Definition countDocuments (p : Doc -> bool) (db : Collection) : nat :=
  length (List.filter p (docs db)).

(** [aggregate([{ $group: { _id: null, total: { $sum: "$currentQuantity" } } }])]:
    one group when there is a document, none otherwise. *)
Definition aggregateTotal (db : Collection) : list Z :=
  match docs db with
  | [] => []
  | ds => [foldr (fun d acc => currentQuantity d + acc) 0 ds]
  end.

(** The quantity an item stands at: a missing record counts as the
    zero record [getOrCreate] would make of it. *)
Definition quantityOf (db : Collection) (pid : string) : Z :=
  match db !! pid with
  | Some d => currentQuantity d
  | None => 0
  end.

End StockLevel.

(* ===================================================================== *)
(** ** stockMovementModel.js *)
(* ===================================================================== *)

Module StockMovement.

(** [MOVEMENT_TYPES] *)
Inductive MovementType : Type := ENTRY | EXIT.

Record Doc : Type := mkDoc {
  productId : string;
  type : MovementType;
  quantity : Z;
  reason : string;
  reference : option string;
  performedBy : string;
  timestamp : Z;
}.

(** The collection in insertion order: the ledger. *)
Abbreviation Collection := (list Doc).

(** [s.length] of ASCII text, where a character is one UTF-16 code
    unit. *)
Definition lengthZ (s : string) : Z := Z.of_nat (String.length s).

(** Schema validators of [create]; [reason] and [reference] are trimmed
    by their setters before they are checked. *)
Definition validate (d : Doc) : Result unit :=
  if String.eqb (productId d) "" then
    Throw (ValidationError "productId" "Product ID is required")
  else if quantity d <? 1 then
    Throw (ValidationError "quantity" "Quantity must be positive")
  else if String.eqb (reason d) "" then
    Throw (ValidationError "reason" "Reason is required")
  else if 200 <? lengthZ (reason d) then
    Throw (ValidationError "reason" "Reason cannot exceed 200 characters")
  else if 100 <? lengthZ (default "" (reference d)) then
    Throw (ValidationError "reference" "Reference cannot exceed 100 characters")
  else if String.eqb (performedBy d) "" then
    Throw (ValidationError "performedBy" "Path `performedBy` is required.")
  else Ok tt.

(** [StockMovement.create({ productId, type, quantity, reason, reference,
    performedBy })]; [timestamp] takes its default, [Date.now]. *)
Definition create (pid : string) (ty : MovementType) (qty : Z)
    (rsn : string) (ref : option string) (by_ : string) (now : Z)
    (db : Collection) : Result Doc * Collection :=
  let d := mkDoc pid ty qty (Js.trim rsn) (Js.trim <$> ref) by_ now in
  match validate d with
  | Ok _ => (Ok d, (db ++ [d])%list)
  | Throw e => (Throw e, db)
  end.

(** Insertion into a list kept descending by [timestamp]. *)
Fixpoint insertByTime (d : Doc) (l : list Doc) : list Doc :=
  match l with
  | [] => [d]
  | x :: rest =>
      if timestamp x <=? timestamp d then d :: l
      else x :: insertByTime d rest
  end.

(** [find({ productId }).sort({ timestamp: -1 }).limit(limit)]; a limit
    of 0 is no limit. *)
Definition getByProduct (pid : string) (limit : nat) (db : Collection)
  : list Doc :=
  let found :=
    foldr insertByTime []
      (List.filter (fun d => String.eqb (productId d) pid) db) in
  match limit with
  | O => found
  | _ => take limit found
  end.

(** [countDocuments(filter)] *)
Definition countDocuments (p : Doc -> bool) (db : Collection) : nat :=
  length (List.filter p db).

(** The signed quantity a movement contributes to its item. *)
Definition signed (d : Doc) : Z :=
  match type d with
  | ENTRY => quantity d
  | EXIT => - quantity d
  end.

(** Sum of ENTRY quantities minus sum of EXIT quantities recorded for
    an item. *)
Definition entries (pid : string) (db : Collection) : Z :=
  foldr Z.add 0
    (map quantity
       (List.filter (fun d => String.eqb (productId d) pid &&
                      match type d with ENTRY => true | EXIT => false end) db)).

Definition exits (pid : string) (db : Collection) : Z :=
  foldr Z.add 0
    (map quantity
       (List.filter (fun d => String.eqb (productId d) pid &&
                      match type d with ENTRY => false | EXIT => true end) db)).

Definition net (pid : string) (db : Collection) : Z :=
  entries pid db - exits pid db.

End StockMovement.

(* ===================================================================== *)
(** ** Process environment *)
(* ===================================================================== *)

(** [parseInt(process.env.DEFAULT_LOW_STOCK_THRESHOLD)]; [None] is [NaN]
    (variable unset or not a number). *)
Record Env : Type := mkEnv {
  DEFAULT_LOW_STOCK_THRESHOLD : option Z;
}.

(* ===================================================================== *)
(** ** circuitBreaker.js *)
(* ===================================================================== *)

Module CircuitBreaker.
Import Js.

(** *** Options *)

(** The [options] argument: any subset of the option fields. *)
Record Overrides : Type := mkOverrides {
  o_timeout : option Z;
  o_errorThresholdPercentage : option Z;
  o_resetTimeout : option Z;
  o_volumeThreshold : option Z;
  o_rollingCountTimeout : option Z;
  o_rollingCountBuckets : option Z;
}.

(** [{}] *)
Definition noOverrides : Overrides :=
  mkOverrides None None None None None None.

Record Options : Type := mkOptions {
  timeout : Z;
  errorThresholdPercentage : Z;
  resetTimeout : Z;
  volumeThreshold : Z;
  rollingCountTimeout : Z;
  rollingCountBuckets : Z;
  name : string;
}.

(** [DEFAULT_OPTIONS], which has no [name]. *)
Definition DEFAULT_OPTIONS (serviceName : string) : Options :=
  {| timeout := 5000;
     errorThresholdPercentage := 50;
     resetTimeout := 30000;
     volumeThreshold := 3;
     rollingCountTimeout := 10000;
     rollingCountBuckets := 10;
     name := serviceName |}.

(** [{ ...DEFAULT_OPTIONS, ...options, name: serviceName }] *)
Definition mergeOptions (options : Overrides) (serviceName : string)
  : Options :=
  let d := DEFAULT_OPTIONS serviceName in
  {| timeout := default (timeout d) (o_timeout options);
     errorThresholdPercentage :=
       default (errorThresholdPercentage d) (o_errorThresholdPercentage options);
     resetTimeout := default (resetTimeout d) (o_resetTimeout options);
     volumeThreshold := default (volumeThreshold d) (o_volumeThreshold options);
     rollingCountTimeout :=
       default (rollingCountTimeout d) (o_rollingCountTimeout options);
     rollingCountBuckets :=
       default (rollingCountBuckets d) (o_rollingCountBuckets options);
     name := serviceName |}.

(** *** The breaker object

    [circuitBreaker.js] builds on the [opossum] package, which is not
    part of the sources; its state machine is taken from sections 3 and
    4.2 of the specification. *)

(** Modelled from the spec: the three states of the breaker (section
    4.2); [opossum] itself is the missing part. *)
Inductive CircuitState : Type := CLOSED | HALF_OPEN | OPEN.

(** Modelled from the spec: the outcome of a completed call, as the
    rolling window of [opossum] records it (section 3). *)
Inductive Outcome : Type := Success | Failure | Timeout.

(** What the guarded call [httpRequest(config)] does when it is let
    through: [axios] answers, fails, or takes longer than [timeout]. *)
Inductive Call : Type :=
| Responds (data : JsVal)
| Fails
| TimesOut.

(** The [fallbackFn] argument: it receives the error and returns the
    substitute value. *)
Definition Fallback : Type := Error -> JsVal.

(** Modelled from the spec: the counters of the [opossum] breaker that
    [getStats] reads (section 3: fires, successes, failures, timeouts,
    rejections, fallback invocations). *)
Record Stats : Type := mkStats {
  fires : Z;
  successes : Z;
  failures : Z;
  timeouts : Z;
  rejects : Z;
  fallbacks : Z;
}.

(** Modelled from the spec: the per-dependency circuit state kept by the
    [opossum] breaker object (section 3, CircuitState): the state, a
    rolling window of call outcomes tagged with their bucket, the
    counters and the time of the last transition. *)
Record Breaker : Type := mkBreaker {
  options : Options;
  fallbackFn : option Fallback;
  state : CircuitState;
  window : list (Z * Outcome);
  stats : Stats;
  lastTransition : Z;
}.

(** Modelled from the spec: failures and timeouts both count towards the
    failure percentage of [opossum] (section 4.2). *)
Definition isFailure (o : Outcome) : bool :=
  match o with Success => false | Failure | Timeout => true end.

(** Modelled from the spec: the rolling window of [opossum] is cut into
    [rollingCountBuckets] buckets of equal duration; this is the bucket a
    time falls into. *)
Definition bucketOf (o : Options) (t : Z) : Z :=
  t / (rollingCountTimeout o / rollingCountBuckets o).

(** Modelled from the spec: the outcomes still inside the rolling window
    of [opossum] at time [now]. *)
Definition live (o : Options) (now : Z) (w : list (Z * Outcome))
  : list (Z * Outcome) :=
  List.filter (fun e => bucketOf o now - rollingCountBuckets o <? fst e) w.

(** Modelled from the spec: the number of completed calls in a window of
    [opossum]. *)
Definition completed (w : list (Z * Outcome)) : Z :=
  Z.of_nat (length w).

(** Modelled from the spec: the failure streak of [opossum], failures and
    timeouts in the window. *)
Definition failed (w : list (Z * Outcome)) : Z :=
  Z.of_nat (length (List.filter (fun e => isFailure (snd e)) w)).

(** Modelled from the spec: the CLOSED -> OPEN condition of [opossum]
    (section 4.2): the completed calls in the window reach the volume
    threshold and the failure percentage meets or exceeds the error
    threshold. *)
Definition tripped (o : Options) (w : list (Z * Outcome)) : bool :=
  (volumeThreshold o <=? completed w) &&
  (errorThresholdPercentage o * completed w <=? 100 * failed w).

(** Modelled from the spec: the state of [opossum] at time [now]; OPEN
    turns into HALF_OPEN by itself once the reset duration has elapsed
    since the breaker opened (sections 4.2 and 9: checked against the clock
    at the next look). *)
Definition stateAt (b : Breaker) (now : Z) : CircuitState :=
  match state b with
  | OPEN =>
      if resetTimeout (options b) <=? now - lastTransition b
      then HALF_OPEN else OPEN
  | s => s
  end.

(** Modelled from the spec: how [opossum] counts a completed call, a
    rejection and a fallback invocation. *)
Definition count (o : Outcome) (s : Stats) : Stats :=
  match o with
  | Success => mkStats (fires s + 1) (successes s + 1) (failures s)
                       (timeouts s) (rejects s) (fallbacks s)
  | Failure => mkStats (fires s + 1) (successes s) (failures s + 1)
                       (timeouts s) (rejects s) (fallbacks s)
  | Timeout => mkStats (fires s + 1) (successes s) (failures s)
                       (timeouts s + 1) (rejects s) (fallbacks s)
  end.

(** Modelled from the spec: see [count]; [opossum] counts the rejection
    of a call by the open breaker. *)
Definition countReject (s : Stats) : Stats :=
  mkStats (fires s + 1) (successes s) (failures s) (timeouts s)
          (rejects s + 1) (fallbacks s).

(** Modelled from the spec: see [count]; [opossum] counts a fallback
    invocation. *)
Definition countFallback (s : Stats) : Stats :=
  mkStats (fires s) (successes s) (failures s) (timeouts s)
          (rejects s) (fallbacks s + 1).

(** Modelled from the spec: the outcome [opossum] records for a call that
    was let through. *)
Definition outcomeOf (c : Call) : Outcome :=
  match c with Responds _ => Success | Fails => Failure | TimesOut => Timeout end.

(** Modelled from the spec: the error [opossum] passes to the fallback or
    to the caller. *)
Definition errorOf (c : Call) : Error :=
  match c with TimesOut => TimeoutError | _ => CallError end.

(** Modelled from the spec: a call to [opossum] that cannot be completed
    returns the fallback value when a fallback is configured and
    propagates the error otherwise (section 4.2, contract of [execute]). *)
Definition orFallback (b : Breaker) (e : Error) : Result JsVal * Breaker :=
  match fallbackFn b with
  | Some f =>
      (Ok (f e),
       mkBreaker (options b) (fallbackFn b) (state b) (window b)
                 (countFallback (stats b)) (lastTransition b))
  | None => (Throw e, b)
  end.

(** Modelled from the spec: [fire] of [opossum], the contract of [execute]
    in section 4.2, one call at a time.
    - OPEN: the call is not attempted; a rejection is counted and the
      fallback value returned (or [DependencyUnavailableError]).
    - HALF_OPEN: the call is the probe; success closes the breaker and
      clears the failure streak, failure or timeout opens it again and
      restarts the reset timer.
    - CLOSED: the call is attempted and its outcome recorded in the
      window; the breaker opens when the window trips. *)
Definition fire (b : Breaker) (now : Z) (c : Call) : Result JsVal * Breaker :=
  let o := options b in
  let entry := (bucketOf o now, outcomeOf c) in
  match stateAt b now with
  | OPEN =>
      orFallback
        (mkBreaker o (fallbackFn b) OPEN (window b)
                   (countReject (stats b)) (lastTransition b))
        DependencyUnavailableError
  | HALF_OPEN =>
      match c with
      | Responds data =>
          (Ok data,
           mkBreaker o (fallbackFn b) CLOSED [entry]
                     (count Success (stats b)) now)
      | _ =>
          orFallback
            (mkBreaker o (fallbackFn b) OPEN (live o now (window b) ++ [entry])%list
                       (count (outcomeOf c) (stats b)) now)
            (errorOf c)
      end
  | CLOSED =>
      let w := (live o now (window b) ++ [entry])%list in
      let b' :=
        if tripped o w
        then mkBreaker o (fallbackFn b) OPEN w (count (outcomeOf c) (stats b)) now
        else mkBreaker o (fallbackFn b) CLOSED w (count (outcomeOf c) (stats b))
                       (lastTransition b) in
      match c with
      | Responds data => (Ok data, b')
      | _ => orFallback b' (errorOf c)
      end
  end.

(** Modelled from the spec: [close] of [opossum], the manual reset that
    forces CLOSED. *)
Definition close (b : Breaker) (now : Z) : Breaker :=
  mkBreaker (options b) (fallbackFn b) CLOSED [] (stats b) now.

(** Modelled from the spec: [new CircuitBreaker(..)] of [opossum]; a new
    breaker object starts CLOSED with an empty window and zero counters. *)
Definition newBreaker (o : Options) : Breaker :=
  mkBreaker o None CLOSED [] (mkStats 0 0 0 0 0 0) 0.

(** [breaker.fallback(fallbackFn)] *)
Definition setFallback (f : Fallback) (b : Breaker) : Breaker :=
  mkBreaker (options b) (Some f) (state b) (window b) (stats b)
            (lastTransition b).

(** *** The factory and the public API (from the source) *)

(** [[
    export function createCircuitBreaker(serviceName, options = {}, fallbackFn = null) {
        const breaker = new CircuitBreaker(httpRequest,
            { ...DEFAULT_OPTIONS, ...options, name: serviceName });
        if (fallbackFn) breaker.fallback(fallbackFn);
        ...
    ]] *)
Definition createCircuitBreaker (serviceName : string) (opts : Overrides)
    (fallback : option Fallback) : Breaker :=
  let breaker := newBreaker (mergeOptions opts serviceName) in
  match fallback with
  | Some f => setFallback f breaker
  | None => breaker
  end.

(** [execute: (config) => breaker.fire(config)] *)
Definition execute (b : Breaker) (now : Z) (c : Call) : Result JsVal * Breaker :=
  fire b now c.






(** [resetBreaker: () => breaker.close()] *)
Definition resetBreaker (b : Breaker) (now : Z) : Breaker := close b now.

(** *** The singleton registry *)

(** Breaker objects live in [instances] and are referred to by their
    index; [registry] is the module-level [Map] from service name to
    object. *)
Record Registry : Type := mkRegistry {
  instances : list Breaker;
  registry : gmap string nat;
}.

Definition emptyRegistry : Registry := mkRegistry [] ∅.

(** [[
    export function getCircuitBreaker(serviceName, options = {}, fallbackFn = null) {
        if (!registry.has(serviceName)) {
            registry.set(serviceName,
                createCircuitBreaker(serviceName, options, fallbackFn));
        }
        return registry.get(serviceName);
    }
    ]] *)
Definition getCircuitBreaker (serviceName : string) (opts : Overrides)
    (fallback : option Fallback) (r : Registry) : nat * Registry :=
  match registry r !! serviceName with
  | Some ref => (ref, r)
  | None =>
      let ref := length (instances r) in
      (ref,
       mkRegistry
         (instances r ++ [createCircuitBreaker serviceName opts fallback])%list
         (<[serviceName := ref]> (registry r)))
  end.

(** Dereferencing a breaker reference. *)
Definition deref (r : Registry) (ref : nat) : option Breaker :=
  instances r !! ref.

(** [breaker.execute(config)] through a reference: the object is updated
    in place, whoever holds the reference. *)
Definition executeRef (ref : nat) (now : Z) (c : Call) (r : Registry)
  : option (Result JsVal) * Registry :=
  match instances r !! ref with
  | Some b =>
      let '(res, b') := execute b now c in
      (Some res, mkRegistry (<[ref := b']> (instances r)) (registry r))
  | None => (None, r)
  end.

(** *** Vocabulary for the registry properties *)

(** The configuration of a breaker object: what [createCircuitBreaker]
    fixes. *)
Definition config (b : Breaker) : Options * option Fallback :=
  (options b, fallbackFn b).

(** The part of a breaker object the state machine runs on. *)
Definition core (b : Breaker)
  : Options * CircuitState * list (Z * Outcome) * Z :=
  (options b, state b, window b, lastTransition b).

(** A call that counts as a failure: it fails or times out. *)
Definition failing (c : Call) : bool := isFailure (outcomeOf c).

(** What happens to a registry between two calls of
    [getCircuitBreaker]: other lookups, and calls through any
    reference. *)
Inductive RegistryOp : Type :=
| Lookup (serviceName : string) (o : Overrides) (f : option Fallback)
| Execute (ref : nat) (now : Z) (c : Call).

Definition apply (op : RegistryOp) (r : Registry) : Registry :=
  match op with
  | Lookup n o f => snd (getCircuitBreaker n o f r)
  | Execute ref now c => snd (executeRef ref now c r)
  end.

Definition applyAll (ops : list RegistryOp) (r : Registry) : Registry :=
  foldl (fun r op => apply op r) r ops.

(** [name] is registered to the object [ref], configured as [cfg]. *)
Definition registered (r : Registry) (name : string) (ref : nat)
    (cfg : Options * option Fallback) : Prop :=
  registry r !! name = Some ref
  /\ exists b, instances r !! ref = Some b /\ config b = cfg.

(** The registry only points at objects that exist. *)
Definition sound (r : Registry) : Prop :=
  forall name ref, registry r !! name = Some ref ->
                   is_Some (instances r !! ref).


End CircuitBreaker.

(* ===================================================================== *)
(** ** stockController.js *)
(* ===================================================================== *)

Module StockController.
Import Js.
Export CircuitBreaker.

(** *** State, requests and responses *)

(** What the service keeps between requests: the two collections and the
    module-level breaker object. *)
Record World : Type := mkWorld {
  levels : StockLevel.Collection;
  movements : StockMovement.Collection;
  productsBreaker : Breaker;
}.

(** What surrounds one request: the environment, the clock and what the
    products service would answer to [GET /api/products/:id] if asked. *)
Record Ctx : Type := mkCtx {
  env : Env;
  now : Z;
  productsService : string -> Call;
}.

(** [req.body] of the entry and exit routes, and [req.user.id]. *)
Record Request : Type := mkRequest {
  productId : string;
  quantity : Z;
  reason : string;
  reference : option string;
  userId : string;
}.

Record Alert : Type := mkAlert {
  a_productId : string;
  a_productName : JsVal;
  a_sku : JsVal;
  a_currentQuantity : Z;
  a_threshold : JsVal;
  a_lastUpdated : Z;
  a_productAvailable : bool;
}.

Record Summary : Type := mkSummary {
  totalProducts : nat;
  totalQuantity : Z;
  lowStockCount : nat;
  recentMovementsCount : nat;
}.

Inductive Response : Type :=
(** [404 { success: false, message: "Product not found" }] *)
| ProductNotFound
(** [400 { success: false, message: "Insufficient stock", available, requested }] *)
| InsufficientStock (available requested : Z)
(** [201 { success: true, message, movement, currentStock, warning? }] *)
| Recorded (message : string) (movement : StockMovement.Doc)
           (currentStock : Z) (warning : option string)
(** [200 { productId, currentQuantity, lastUpdated, recentMovements }] *)
| Level (pid : string) (currentQuantity lastUpdated : Z)
        (recentMovements : list StockMovement.Doc)
(** [200 { count, threshold, alerts, warning? }]; the warning reads
    "[n] item(s) could not be fully resolved". *)
| Alerts (count : nat) (threshold : Z) (alerts : list Alert)
         (unresolved : option nat)
(** [200 { summary }] *)
| Stats (summary : Summary)
(** the error handed to [next] *)
| Failed (e : Error).

(** *** Handlers as state-passing computations that may throw *)

Definition M (A : Type) : Type := World -> Result A * World.

Definition ret {A} (a : A) : M A := fun w => (Ok a, w).

Definition bind {A B} (m : M A) (k : A -> M B) : M B :=
  fun w =>
    match m w with
    | (Ok a, w') => k a w'
    | (Throw e, w') => (Throw e, w')
    end.

Notation "x <- m ;; k" := (bind m (fun x => k))
  (at level 100, m at next level, right associativity).

(** A [StockLevel] operation run against the collection of the world. *)
Definition onLevels {A}
    (f : StockLevel.Collection -> Result A * StockLevel.Collection) : M A :=
  fun w =>
    let '(r, db) := f (levels w) in
    (r, mkWorld db (movements w) (productsBreaker w)).

(** A [StockMovement] operation run against the collection of the world. *)
Definition onMovements {A}
    (f : StockMovement.Collection -> Result A * StockMovement.Collection)
  : M A :=
  fun w =>
    let '(r, db) := f (movements w) in
    (r, mkWorld (levels w) db (productsBreaker w)).

(** [await stockLevel.updateQuantity(delta)]: the handler goes on with
    the mutated document. *)
Definition updateQuantity (stockLevel : StockLevel.Doc) (delta now : Z)
  : M StockLevel.Doc :=
  fun w =>
    let u := StockLevel.updateQuantity stockLevel delta now (levels w) in
    (match StockLevel.returned u with
     | Ok _ => Ok (StockLevel.this_after u)
     | Throw e => Throw e
     end,
     mkWorld (StockLevel.stored u) (movements w) (productsBreaker w)).

(** [asyncHandler(fn)]: a rejection goes to [next]. *)
Definition asyncHandler (fn : M Response) (w : World) : Response * World :=
  match fn w with
  | (Ok res, w') => (res, w')
  | (Throw e, w') => (Failed e, w')
  end.

(** *** The products breaker *)

(** The fallback given to [getCircuitBreaker] at module level. *)
Definition productsFallback (e : Env) : Fallback :=
  fun _ =>
    JObj [("_isFallback", JBool true);
          ("name", JStr "Unknown (products-service unavailable)");
          ("sku", JStr "N/A");
          ("lowStockThreshold",
           JNum (intOr (DEFAULT_LOW_STOCK_THRESHOLD e) 10))].

Definition productsOptions : Overrides :=
  {| o_timeout := Some 5000;
     o_errorThresholdPercentage := Some 50;
     o_resetTimeout := Some 30000;
     o_volumeThreshold := Some 3;
     o_rollingCountTimeout := None;
     o_rollingCountBuckets := None |}.

(** [const productsBreaker = getCircuitBreaker("products-service", {..}, () => ({..}))],
    evaluated when the module is loaded. *)
Definition loadProductsBreaker (e : Env) (r : Registry) : nat * Registry :=
  getCircuitBreaker "products-service" productsOptions
                    (Some (productsFallback e)) r.

(** The service at start: empty collections, and the breaker object the
    module gets from an empty registry. *)
Definition initialWorld (e : Env) : World :=
  mkWorld ∅ []
    (createCircuitBreaker "products-service" productsOptions
                          (Some (productsFallback e))).

(** [[
    async function getProductInfo(productId, token) {
        try {
            const data = await productsBreaker.execute({ .. });
            return data?.data || data?.product || null;
        } catch (error) {
            logger.error(..);
            return null;
        }
    }
    ]] *)
Definition getProductInfo (ctx : Ctx) (pid : string) : M JsVal :=
  fun w =>
    let '(r, b) :=
      execute (productsBreaker w) (now ctx) (productsService ctx pid) in
    let w' := mkWorld (levels w) (movements w) b in
    match r with
    | Ok data => (Ok (or (or (get data "data") (get data "product")) JNull), w')
    | Throw _ => (Ok JNull, w')
    end.

(** The value [getProductInfo] resolves to (it never rejects). *)
Definition lookedUp (ctx : Ctx) (pid : string) (w : World) : JsVal :=
  match fst (getProductInfo ctx pid w) with
  | Ok product => product
  | Throw _ => JNull
  end.

(** [...(product._isFallback && { warning: ".." })] *)
Definition fallbackWarning (product : JsVal) : option string :=
  if truthy (get product "_isFallback")
  then Some "Product details unavailable — products service is down"
  else None.

(** *** Controllers *)

(** [addStockEntry], lines 335-382. *)
Definition addStockEntry (ctx : Ctx) (req : Request) : M Response :=
  product <- getProductInfo ctx (productId req) ;;
  if negb (truthy product) then ret ProductNotFound
  else
    stockLevel <- onLevels (StockLevel.getOrCreate (productId req) (now ctx)) ;;
    movement <- onMovements
      (StockMovement.create (productId req) StockMovement.ENTRY (quantity req)
         (reason req) (reference req) (userId req) (now ctx)) ;;
    stockLevel' <- updateQuantity stockLevel (quantity req) (now ctx) ;;
    ret (Recorded "Stock entry recorded successfully" movement
           (StockLevel.currentQuantity stockLevel') (fallbackWarning product)).

(** [removeStockExit], lines 387-441. *)
Definition removeStockExit (ctx : Ctx) (req : Request) : M Response :=
  product <- getProductInfo ctx (productId req) ;;
  if negb (truthy product) then ret ProductNotFound
  else
    stockLevel <- onLevels (StockLevel.getOrCreate (productId req) (now ctx)) ;;
    if StockLevel.currentQuantity stockLevel <? quantity req then
      ret (InsufficientStock (StockLevel.currentQuantity stockLevel)
                             (quantity req))
    else
      movement <- onMovements
        (StockMovement.create (productId req) StockMovement.EXIT (quantity req)
           (reason req) (reference req) (userId req) (now ctx)) ;;
      stockLevel' <- updateQuantity stockLevel (- quantity req) (now ctx) ;;
      ret (Recorded "Stock exit recorded successfully" movement
             (StockLevel.currentQuantity stockLevel') (fallbackWarning product)).

(** [getProductStockLevel], lines 446-459. *)
Definition getProductStockLevel (ctx : Ctx) (id : string) : M Response :=
  stockLevel <- onLevels (StockLevel.getOrCreate id (now ctx)) ;;
  fun w =>
    let recentMovements := StockMovement.getByProduct id 10 (movements w) in
    (Ok (Level id (StockLevel.currentQuantity stockLevel)
               (StockLevel.lastUpdated stockLevel) recentMovements), w).

(** The mapper of [getLowStockAlerts]. *)
Definition alertFor (ctx : Ctx) (threshold : Z) (item : StockLevel.Doc)
  : M Alert :=
  product <- getProductInfo ctx (StockLevel.productId item) ;;
  ret {| a_productId := StockLevel.productId item;
         a_productName := or (get product "name") (JStr "Unknown");
         a_sku := or (get product "sku") (JStr "N/A");
         a_currentQuantity := StockLevel.currentQuantity item;
         a_threshold := or (get product "lowStockThreshold") (JNum threshold);
         a_lastUpdated := StockLevel.lastUpdated item;
         a_productAvailable := negb (truthy (get product "_isFallback")) |}.

(** [Promise.allSettled(items.map(f))]: every computation is run, a
    rejection is kept as a result and does not stop the others.  The
    lookups are taken in list order. *)
Fixpoint allSettled {A} (ms : list (M A)) : M (list (Result A)) :=
  match ms with
  | [] => ret []
  | m :: rest =>
      fun w =>
        let '(r, w1) := m w in
        match allSettled rest w1 with
        | (Ok rs, w2) => (Ok (r :: rs), w2)
        | (Throw e, w2) => (Throw e, w2)
        end
  end.

(** [settled.filter((r) => r.status === "fulfilled").map((r) => r.value)] *)
Fixpoint fulfilled {A} (settled : list (Result A)) : list A :=
  match settled with
  | [] => []
  | Ok a :: rest => a :: fulfilled rest
  | Throw _ :: rest => fulfilled rest
  end.

(** [getLowStockAlerts], lines 496-533; [queryThreshold] is
    [parseInt(req.query.threshold)]. *)
Definition getLowStockAlerts (ctx : Ctx) (queryThreshold : option Z)
  : M Response :=
  let threshold :=
    intOr queryThreshold (intOr (DEFAULT_LOW_STOCK_THRESHOLD (env ctx)) 10) in
  fun w =>
    let lowStockItems := StockLevel.getLowStock threshold (levels w) in
    (settled <- allSettled (map (alertFor ctx threshold) lowStockItems) ;;
     let alerts := fulfilled settled in
     let failedCount := (length settled - length alerts)%nat in
     ret (Alerts (length alerts) threshold alerts
                 (if (0 <? failedCount)%nat then Some failedCount else None))) w.

(** [getStockSummary], lines 538-561. *)
Definition getStockSummary (ctx : Ctx) : M Response :=
  let threshold := intOr (DEFAULT_LOW_STOCK_THRESHOLD (env ctx)) 10 in
  let yesterday := now ctx - 24 * 60 * 60 * 1000 in
  fun w =>
    let totalProducts := StockLevel.countDocuments (fun _ => true) (levels w) in
    let totalQuantityAgg := StockLevel.aggregateTotal (levels w) in
    let lowStockCount :=
      StockLevel.countDocuments
        (fun d => StockLevel.currentQuantity d <=? threshold) (levels w) in
    let recentMovementsCount :=
      StockMovement.countDocuments
        (fun m => yesterday <=? StockMovement.timestamp m) (movements w) in
    (Ok (Stats {| totalProducts := totalProducts;
                  totalQuantity := intOr (head totalQuantityAgg) 0;
                  lowStockCount := lowStockCount;
                  recentMovementsCount := recentMovementsCount |}), w).

(** *** The service, one request after the other *)

Inductive Op : Type :=
| AddEntry (req : Request)
| RemoveExit (req : Request)
| GetLevel (id : string)
| GetAlerts (queryThreshold : option Z)
| GetSummary.

Definition handle (ctx : Ctx) (op : Op) : World -> Response * World :=
  asyncHandler
    match op with
    | AddEntry req => addStockEntry ctx req
    | RemoveExit req => removeStockExit ctx req
    | GetLevel id => getProductStockLevel ctx id
    | GetAlerts q => getLowStockAlerts ctx q
    | GetSummary => getStockSummary ctx
    end.

(** The world after a sequence of requests, each handled to completion
    before the next starts. *)
Fixpoint serve (ops : list (Ctx * Op)) (w : World) : World :=
  match ops with
  | [] => w
  | (ctx, op) :: rest => serve rest (snd (handle ctx op w))
  end.

(** Exit requests handled one after the other, each with its answer. *)
Fixpoint serveExits (reqs : list (Ctx * Request)) (w : World)
  : list (Request * Response) * World :=
  match reqs with
  | [] => ([], w)
  | (ctx, req) :: rest =>
      let '(res, w1) := handle ctx (RemoveExit req) w in
      let '(out, w2) := serveExits rest w1 in
      ((req, res) :: out, w2)
  end.

Definition isRecorded (res : Response) : bool :=
  match res with Recorded _ _ _ _ => true | _ => false end.

Definition isInsufficient (res : Response) : bool :=
  match res with InsufficientStock _ _ => true | _ => false end.

(** The quantity taken out by the exits that were recorded. *)
Definition sold (out : list (Request * Response)) : Z :=
  foldr (fun rr acc => if isRecorded rr.2 then quantity rr.1 + acc else acc)
        0 out.

(** The collections of a world; the invariants below do not look at
    the breaker. *)
Definition dataOf (w : World)
  : StockLevel.Collection * StockMovement.Collection :=
  (levels w, movements w).

(** Every level document is stored under its own [productId] (the
    unique index of the collection). *)
Definition keyed (w : World) : Prop :=
  forall pid d, levels w !! pid = Some d -> StockLevel.productId d = pid.

(** The ledger invariant: every item stands at entries minus exits of
    its movements, and not below zero. *)
Definition consistent (w : World) : Prop :=
  forall pid,
    StockLevel.quantityOf (levels w) pid = StockMovement.net pid (movements w)
    /\ 0 <= StockLevel.quantityOf (levels w) pid.

(** The summary in the words of the specification: the number of items
    with a tracked stock record, the total quantity over all items, the
    number of items at or below the default low-stock threshold, and the
    number of movements stamped within the trailing 24 hours. *)
Definition defaultThreshold (e : Env) : Z :=
  intOr (DEFAULT_LOW_STOCK_THRESHOLD e) 10.

Definition summarySpec (e : Env) (t : Z) (ls : StockLevel.Collection)
    (ms : StockMovement.Collection) : Summary :=
  {| totalProducts := size ls;
     totalQuantity :=
       map_fold (fun _ d acc => StockLevel.currentQuantity d + acc) 0 ls;
     lowStockCount :=
       size (filter (fun kv : string * StockLevel.Doc =>
                       StockLevel.currentQuantity kv.2 <= defaultThreshold e) ls);
     recentMovementsCount :=
       length (filter (fun m => t - 86400000 <= StockMovement.timestamp m) ms) |}.

(** The invariant of the collections: keyed and consistent. *)
Definition sane (w : World) : Prop := keyed w /\ consistent w.

End StockController.

(* ===================================================================== *)
(** ** Overlapping requests *)
(* ===================================================================== *)

(** Node runs one handler until its next [await] and may then go on with
    another one.  The [addStockEntry] and [removeStockExit] handlers are cut
    at their awaits: every step below is one round trip to the products
    service or to Mongo, together with the synchronous code that follows
    it. *)
Module Interleaved.
Import Js.
Import StockController.

(** Where a handler stands, with the local variables it holds there. *)
Inductive Pc : Type :=
| Start
| Resolved (product : JsVal)
| Loaded (product : JsVal) (stockLevel : StockLevel.Doc)
| Created (product : JsVal) (stockLevel : StockLevel.Doc)
          (movement : StockMovement.Doc)
| Done (res : Response).

(** A running handler: [addStockEntry] for [ENTRY], [removeStockExit] for
    [EXIT]. *)
Record Task : Type := mkTask {
  ctx : Ctx;
  kind : StockMovement.MovementType;
  req : Request;
  pc : Pc;
}.

Definition at_ (t : Task) (p : Pc) : Task := mkTask (ctx t) (kind t) (req t) p.

(** The request a handler serves. *)
Definition opOf (t : Task) : Op :=
  match kind t with
  | StockMovement.ENTRY => AddEntry (req t)
  | StockMovement.EXIT => RemoveExit (req t)
  end.

(** Runs [m] and moves to the place [k] gives, or ends with the error. *)
Definition advance {A} (t : Task) (m : M A) (k : A -> Pc) (w : World)
  : Task * World :=
  match m w with
  | (Ok a, w') => (at_ t (k a), w')
  | (Throw e, w') => (at_ t (Done (Failed e)), w')
  end.

(** One step of a handler: up to and including its next await. *)
Definition step (t : Task) (w : World) : Task * World :=
  let c := ctx t in
  let r := req t in
  match pc t with
  | Start =>
      (* [await getProductInfo(..)], then [if (!product) return 404] *)
      advance t (getProductInfo c (productId r))
        (fun product =>
           if negb (truthy product) then Done ProductNotFound
           else Resolved product) w
  | Resolved product =>
      (* [await StockLevel.getOrCreate(productId)] *)
      advance t (onLevels (StockLevel.getOrCreate (productId r) (now c)))
        (fun stockLevel => Loaded product stockLevel) w
  | Loaded product stockLevel =>
      (* the check of the exit, then [await StockMovement.create(..)] *)
      match kind t with
      | StockMovement.ENTRY =>
          advance t
            (onMovements
               (StockMovement.create (productId r) StockMovement.ENTRY
                  (quantity r) (reason r) (reference r) (userId r) (now c)))
            (fun movement => Created product stockLevel movement) w
      | StockMovement.EXIT =>
          if StockLevel.currentQuantity stockLevel <? quantity r then
            (at_ t (Done (InsufficientStock
                            (StockLevel.currentQuantity stockLevel)
                            (quantity r))),
             w)
          else
            advance t
              (onMovements
                 (StockMovement.create (productId r) StockMovement.EXIT
                    (quantity r) (reason r) (reference r) (userId r) (now c)))
              (fun movement => Created product stockLevel movement) w
      end
  | Created product stockLevel movement =>
      (* [await stockLevel.updateQuantity(..)], then the answer *)
      match kind t with
      | StockMovement.ENTRY =>
          advance t (updateQuantity stockLevel (quantity r) (now c))
            (fun stockLevel' =>
               Done (Recorded "Stock entry recorded successfully" movement
                       (StockLevel.currentQuantity stockLevel')
                       (fallbackWarning product))) w
      | StockMovement.EXIT =>
          advance t (updateQuantity stockLevel (- quantity r) (now c))
            (fun stockLevel' =>
               Done (Recorded "Stock exit recorded successfully" movement
                       (StockLevel.currentQuantity stockLevel')
                       (fallbackWarning product))) w
      end
  | Done _ => (t, w)
  end.

Record System : Type := mkSystem {
  world : World;
  tasks : list Task;
}.

(** Lets handler [i] take its next step. *)
Definition runTask (i : nat) (s : System) : System :=
  match tasks s !! i with
  | Some t =>
      let '(t', w') := step t (world s) in
      mkSystem w' (<[i := t']> (tasks s))
  | None => s
  end.

(** A schedule names the handler that runs next, step after step. *)
Definition run (schedule : list nat) (s : System) : System :=
  foldl (fun s i => runTask i s) s schedule.

Definition result (t : Task) : option Response :=
  match pc t with Done res => Some res | _ => None end.

Definition succeeded (t : Task) : bool :=
  match pc t with Done (Recorded _ _ _ _) => true | _ => false end.

(** All persisted quantities are non-negative. *)
Definition nonNegative (w : World) : Prop :=
  forall pid, 0 <= StockLevel.quantityOf (levels w) pid.

End Interleaved.

(** Ascending by quantity: the order of [.sort({ currentQuantity: 1 })]. *)
Definition byQuantity (a b : StockLevel.Doc) : Prop :=
  StockLevel.currentQuantity a <= StockLevel.currentQuantity b.

(* ===================================================================== *)
(** ** JavaScript numbers that a division can give *)
(* ===================================================================== *)

Module JsNumber.

(** An integer, or one of the values [a / 0] gives. *)
Inductive Num : Type :=
| Int (z : Z)
| Infinity
| NegInfinity
| NaN.

(** [Math.ceil(a / b)] for integers [a] and [b]. *)
Definition ceilDiv (a b : Z) : Num :=
  if b =? 0 then
    if 0 <? a then Infinity else if a <? 0 then NegInfinity else NaN
  else Int (- ((- a) / b)).

(** [Number.MAX_SAFE_INTEGER], 2^53 - 1. *)
Definition MAX_SAFE_INTEGER : Z := 9007199254740991.

(** [Number.isSafeInteger]: the integers on which [+], [-] and [*] are
    exact as long as the result is one of them. *)
Definition isSafeInteger (z : Z) : bool :=
  (- MAX_SAFE_INTEGER <=? z) && (z <=? MAX_SAFE_INTEGER).

(** ASCII text: every character is below 128. *)
Definition isAscii (s : string) : bool :=
  forallb (fun c => (nat_of_ascii c <? 128)%nat) (list_ascii_of_string s).

(** [n < x] for an integer [n]. *)
Definition ltNum (n : Z) (x : Num) : bool :=
  match x with
  | Int z => n <? z
  | Infinity => true
  | NegInfinity | NaN => false
  end.

End JsNumber.

(* ===================================================================== *)
(** ** pagination.js *)
(* ===================================================================== *)

Module Pagination.
Import JsNumber.

Definition DEFAULT_PAGE : Z := 1.
Definition DEFAULT_LIMIT : Z := 20.
Definition MAX_LIMIT : Z := 100.

Record Params : Type := mkParams {
  page : Z;
  limit : Z;
  skip : Z;
}.

(** [[
    export const parsePaginationParams = (query) => {
        const page = Math.max(1, parseInt(query.page) || DEFAULT_PAGE);
        const limit = Math.min(
            Math.max(1, parseInt(query.limit) || DEFAULT_LIMIT), MAX_LIMIT);
        const skip = (page - 1) * limit;
        return { page, limit, skip };
    };
    ]]
    [queryPage] and [queryLimit] are [parseInt(query.page)] and
    [parseInt(query.limit)], [None] for [NaN].  The product is the exact
    one, which is what the code computes as long as it is a safe
    integer. *)
Definition parsePaginationParams (queryPage queryLimit : option Z) : Params :=
  let page := Z.max 1 (Js.intOr queryPage DEFAULT_PAGE) in
  let limit := Z.min (Z.max 1 (Js.intOr queryLimit DEFAULT_LIMIT)) MAX_LIMIT in
  let skip := (page - 1) * limit in
  mkParams page limit skip.

Record PageInfo : Type := mkPageInfo {
  p_page : Z;
  p_limit : Z;
  p_total : Z;
  p_totalPages : Num;
  p_hasNextPage : bool;
  p_hasPrevPage : bool;
}.

(** [[
    export const createPaginationResponse = (data, total, page, limit) => {
        const totalPages = Math.ceil(total / limit);
        return { success: true, data,
                 pagination: { page, limit, total, totalPages,
                               hasNextPage: page < totalPages,
                               hasPrevPage: page > 1 } };
    };
    ]] *)
Definition createPaginationResponse {A} (data : A) (total page limit : Z)
  : A * PageInfo :=
  let totalPages := ceilDiv total limit in
  (data,
   {| p_page := page;
      p_limit := limit;
      p_total := total;
      p_totalPages := totalPages;
      p_hasNextPage := ltNum page totalPages;
      p_hasPrevPage := 1 <? page |}).

End Pagination.

(* ===================================================================== *)
(** ** stockValidation.js *)
(* ===================================================================== *)

Module StockValidation.
Import StockController.

(** [Number.MAX_SAFE_INTEGER]: Joi refuses numbers outside the safe
    range. *)
Definition MAX_SAFE_INTEGER : Z := JsNumber.MAX_SAFE_INTEGER.

(** [[
    export const stockEntrySchema = Joi.object({
        productId: Joi.string().required(),
        quantity: Joi.number().integer().min(1).required(),
        reason: Joi.string().max(200).required(),
        reference: Joi.string().max(100).allow("", null).optional(),
    });
    ]]
    on a body whose fields have the types of [Request]: a required string
    may not be empty, [max] bounds the length. *)
Definition stockEntrySchema (req : Request) : bool :=
  negb (String.eqb (productId req) "")
  && (1 <=? quantity req) && (quantity req <=? MAX_SAFE_INTEGER)
  && negb (String.eqb (reason req) "")
  && (StockMovement.lengthZ (reason req) <=? 200)
  && match reference req with
     | None => true
     | Some ref => StockMovement.lengthZ ref <=? 100
     end.

(** [export const stockExitSchema = stockEntrySchema;] *)
Definition stockExitSchema : Request -> bool := stockEntrySchema.

End StockValidation.

(* ===================================================================== *)
(** ** Movement history: [getByType] and [getStockMovements] *)
(* ===================================================================== *)

Module History.
Import JsNumber.

(** The value of [MOVEMENT_TYPES] stored for a type. *)
Definition typeName (ty : StockMovement.MovementType) : string :=
  match ty with
  | StockMovement.ENTRY => "entry"
  | StockMovement.EXIT => "exit"
  end.

(** [.sort({ timestamp: -1 })] *)
Definition sortByTime (l : list StockMovement.Doc) : list StockMovement.Doc :=
  foldr StockMovement.insertByTime [] l.

(** [.limit(n)] of a Mongo query: [0] is no limit. *)
Definition limitDocs {A} (n : nat) (l : list A) : list A :=
  match n with
  | O => l
  | _ => take n l
  end.

(** [[
    stockMovementSchema.statics.getByType = function (type, limit = 50) {
        return this.find({ type }).sort({ timestamp: -1 }).limit(limit);
    };
    ]] *)
Definition getByType (ty : StockMovement.MovementType) (limit : nat)
    (db : StockMovement.Collection) : list StockMovement.Doc :=
  limitDocs limit
    (sortByTime
       (List.filter
          (fun d => String.eqb (typeName (StockMovement.type d)) (typeName ty))
          db)).

(** The filter of [getStockMovements]:
    [[
    const filter = {};
    if (productId) filter.productId = productId;
    if (type) filter.type = type;
    ]]
    an absent query value and an empty one are both falsy: [""]. *)
Definition matches (productId type : string) (d : StockMovement.Doc) : bool :=
  (String.eqb productId "" || String.eqb (StockMovement.productId d) productId)
  && (String.eqb type "" || String.eqb (typeName (StockMovement.type d)) type).

Record MovementsPage : Type := mkMovementsPage {
  movements : list StockMovement.Doc;
  page : Z;
  limit : Z;
  total : Z;
  pages : Num;
}.

(** The answer of [getStockMovements], or the error of the query handed
    to [next]. *)
Inductive Outcome : Type :=
| Page (res : MovementsPage)
| QueryError.

(** [[
    const skip = (parseInt(page) - 1) * parseInt(limit);
    const [movements, total] = await Promise.all([
        StockMovement.find(filter).sort({ timestamp: -1 })
            .limit(parseInt(limit)).skip(skip),
        StockMovement.countDocuments(filter),
    ]);
    res.json({ success: true, movements,
               pagination: { page, limit, total,
                             pages: Math.ceil(total / parseInt(limit)) } });
    ]]
    for [page] and [limit] that parse to integers (the defaults are 1 and
    50).  A query skips before it limits, whatever the order of the calls;
    Mongo refuses a negative skip, takes a limit of 0 as no limit and a
    negative one by its absolute value. *)
Definition getStockMovements (productId type : string) (page limit : Z)
    (db : StockMovement.Collection) : Outcome :=
  let skip := (page - 1) * limit in
  if skip <? 0 then QueryError
  else
    let found := sortByTime (List.filter (matches productId type) db) in
    let total := StockMovement.countDocuments (matches productId type) db in
    Page {| movements := limitDocs (Z.abs_nat limit) (drop (Z.to_nat skip) found);
            page := page;
            limit := limit;
            total := Z.of_nat total;
            pages := ceilDiv (Z.of_nat total) limit |}.

(** The movements an outcome shows. *)
Definition shown (o : Outcome) : list StockMovement.Doc :=
  match o with
  | Page res => movements res
  | QueryError => []
  end.

(** The pages 1 to [n] of a history, one after the other. *)
Definition firstPages (productId type : string) (limit : Z) (n : nat)
    (db : StockMovement.Collection) : list StockMovement.Doc :=
  concat
    (map (fun k => shown (getStockMovements productId type (Z.of_nat (S k)) limit db))
         (seq 0 n)).

(** Most recent first. *)
Definition newestFirst (l : list StockMovement.Doc) : Prop :=
  StronglySorted
    (fun a b => StockMovement.timestamp b <= StockMovement.timestamp a) l.

End History.

(* ===================================================================== *)
(** ** stockRoutes.js: the circuit-breaker health route *)
(* ===================================================================== *)

Module StockRoutes.
Import CircuitBreaker.




End StockRoutes.

(* ===================================================================== *)
(** ** The inputs on which integers and text behave as in JavaScript *)
(* ===================================================================== *)

Module Exact.
Import JsNumber StockController.

(** A reason and a reference that are ASCII text; and a request with
    such text whose quantity is a safe integer (what
    [Joi.number().integer()] lets through). *)
Definition plainText (reason : string) (reference : option string) : bool :=
  isAscii reason
  && match reference with
     | Some ref => isAscii ref
     | None => true
     end.

Definition plain (req : Request) : bool :=
  isSafeInteger (quantity req) && plainText (reason req) (reference req).

Definition plainOp (op : Op) : bool :=
  match op with
  | AddEntry req | RemoveExit req => plain req
  | GetLevel _ | GetAlerts _ | GetSummary => true
  end.

(** Every stored quantity is a safe integer. *)
Definition bounded (w : World) : bool :=
  forallb (fun d => isSafeInteger (StockLevel.currentQuantity d))
          (StockLevel.docs (levels w)).

(** The states the service goes through while it handles requests one
    after the other, the first and the last included. *)
Fixpoint trace (ops : list (Ctx * Op)) (w : World) : list World :=
  w :: match ops with
       | [] => []
       | (ctx, op) :: rest => trace rest (snd (handle ctx op w))
       end.

End Exact.

(* ===================================================================== *)
(** ** Vocabulary for the service while the products service is down *)
(* ===================================================================== *)

Module Degraded.
Import Js StockController.

(** A computation that leaves the configuration of the products breaker
    (options and fallback) as it is. *)
Definition keepsBreaker {A} (m : M A) : Prop :=
  forall w, config (productsBreaker (snd (m w))) = config (productsBreaker w).

(** The alert line the mapper of [getLowStockAlerts] makes of an item when
    [getProductInfo] gives [null]:
    [product?.name || "Unknown"], [product?.sku || "N/A"],
    [product?.lowStockThreshold || threshold], [!product?._isFallback]. *)
Definition unresolvedAlert (threshold : Z) (item : StockLevel.Doc) : Alert :=
  {| a_productId := StockLevel.productId item;
     a_productName := JStr "Unknown";
     a_sku := JStr "N/A";
     a_currentQuantity := StockLevel.currentQuantity item;
     a_threshold := JNum threshold;
     a_lastUpdated := StockLevel.lastUpdated item;
     a_productAvailable := true |}.

End Degraded.

(* ===================================================================== *)
(** * Properties *)
(* ===================================================================== *)

(** ** The level aggregate *)

Section StockLevelFacts.
Import StockLevel.

Lemma level_validate_ok (d : Doc) :
  productId d <> "" -> 0 <= currentQuantity d -> validate d = Ok tt.
Proof.
  intros Hid Hq. unfold validate.
  destruct (String.eqb_spec (productId d) "") as [E | _]; [contradiction |].
  destruct (Z.ltb_spec (currentQuantity d) 0); [lia | reflexivity].
Qed.

Lemma level_validate_inv (d : Doc) (u : unit) :
  validate d = Ok u -> productId d <> "" /\ 0 <= currentQuantity d.
Proof.
  unfold validate.
  destruct (String.eqb_spec (productId d) ""); [discriminate |].
  destruct (Z.ltb_spec (currentQuantity d) 0); [discriminate |].
  intros _. split; [assumption | lia].
Qed.

(** [save] either stores the document under its own key or leaves the
    collection as it was. *)
Lemma save_cases (d : Doc) (db : Collection) :
  (save d db = (Ok d, <[productId d := d]> db)
     /\ productId d <> "" /\ 0 <= currentQuantity d)
  \/ (exists e, save d db = (Throw e, db)).
Proof.
  unfold save. destruct (validate d) as [u | e] eqn:E.
  - left. apply level_validate_inv in E. tauto.
  - right. eauto.
Qed.

Lemma quantityOf_insert (db : Collection) (d : Doc) (pid : string) :
  quantityOf (<[productId d := d]> db) pid =
    if decide (productId d = pid) then currentQuantity d
    else quantityOf db pid.
Proof.
  unfold quantityOf. rewrite lookup_insert.
  destruct (decide (productId d = pid)); reflexivity.
Qed.

(** The in-memory document after [updateQuantity], in every case. *)
Lemma updateQuantity_this (this : Doc) (delta now : Z) (db : Collection) :
  currentQuantity (this_after (updateQuantity this delta now db))
    = currentQuantity this + delta
  /\ productId (this_after (updateQuantity this delta now db))
    = productId this.
Proof.
  unfold updateQuantity; simpl.
  destruct (Z.ltb_spec (currentQuantity this + delta) 0); simpl.
  - split; reflexivity.
  - destruct (save _ db); simpl. split; reflexivity.
Qed.

(** A sufficient update is saved. *)
Lemma updateQuantity_saved (this : Doc) (delta now : Z) (db : Collection) :
  productId this <> "" ->
  0 <= currentQuantity this + delta ->
  updateQuantity this delta now db =
    let d := mkDoc (productId this) (currentQuantity this + delta) now in
    mkUpdated d (Ok d) (<[productId this := d]> db).
Proof.
  intros Hid Hq. unfold updateQuantity; simpl.
  destruct (Z.ltb_spec (currentQuantity this + delta) 0); [lia |].
  unfold save. rewrite level_validate_ok by (simpl; assumption). reflexivity.
Qed.

End StockLevelFacts.

(** C10: whenever [currentQuantity + delta] is negative, [updateQuantity]
    throws "Insufficient stock" without saving, so the collection is what
    it was, while the in-memory document already carries the negative
    quantity (with [lastUpdated] still untouched). *)
Theorem updateQuantity_insufficient
    (this : StockLevel.Doc) (delta now : Z) (db : StockLevel.Collection) :
  StockLevel.currentQuantity this + delta < 0 ->
  let u := StockLevel.updateQuantity this delta now db in
  StockLevel.returned u = Throw (PlainError "Insufficient stock")
  /\ StockLevel.stored u = db
  /\ StockLevel.currentQuantity (StockLevel.this_after u)
       = StockLevel.currentQuantity this + delta
  /\ StockLevel.currentQuantity (StockLevel.this_after u) < 0
  /\ StockLevel.lastUpdated (StockLevel.this_after u)
       = StockLevel.lastUpdated this.
Proof.
  intros Hneg. unfold StockLevel.updateQuantity. simpl.
  destruct (Z.ltb_spec (StockLevel.currentQuantity this + delta) 0) as [_ | Hge];
    [| lia].
  simpl. repeat split; try reflexivity. exact Hneg.
Qed.

Lemma updateQuantity_insufficient_witness :
  let this := StockLevel.mkDoc "X" 5 100 in
  let db : StockLevel.Collection := {[ "X" := this ]} in
  let u := StockLevel.updateQuantity this (-8) 200 db in
  StockLevel.returned u = Throw (PlainError "Insufficient stock")
  /\ StockLevel.stored u = db
  /\ StockLevel.currentQuantity (StockLevel.this_after u) = 5 + -8
  /\ StockLevel.currentQuantity (StockLevel.this_after u) < 0
  /\ StockLevel.lastUpdated (StockLevel.this_after u) = 100.
Proof.
  intros this db.
  apply (updateQuantity_insufficient this (-8) 200 db).
  simpl. lia.
Defined.

(** ** The breaker registry *)

Section RegistryFacts.
Import CircuitBreaker.

Lemma orFallback_config (b : Breaker) (e : Error) :
  config (snd (orFallback b e)) = config b.
Proof.
  unfold orFallback. destruct (fallbackFn b) eqn:E; simpl; [| reflexivity].
  unfold config; simpl. rewrite E. reflexivity.
Qed.

Lemma fire_config (b : Breaker) (now : Z) (c : Call) :
  config (snd (fire b now c)) = config b.
Proof.
  unfold fire.
  destruct (stateAt b now); destruct c;
    try rewrite orFallback_config; try reflexivity;
    simpl; destruct (tripped _ _); try rewrite orFallback_config; reflexivity.
Qed.

Lemma createCircuitBreaker_config name (o : Overrides) (f : option Fallback) :
  config (createCircuitBreaker name o f) = (mergeOptions o name, f).
Proof. unfold createCircuitBreaker. destruct f; reflexivity. Qed.

Lemma getCircuitBreaker_fresh name o f (r : Registry) :
  registry r !! name = None ->
  registered (snd (getCircuitBreaker name o f r)) name
             (fst (getCircuitBreaker name o f r)) (mergeOptions o name, f).
Proof.
  intros Hnone. unfold registered, getCircuitBreaker. rewrite Hnone.
  cbn [fst snd instances registry]. split.
  - apply lookup_insert_eq.
  - exists (createCircuitBreaker name o f). split.
    + apply list_lookup_middle. reflexivity.
    + apply createCircuitBreaker_config.
Qed.

Lemma getCircuitBreaker_known name o f (r : Registry) ref :
  registry r !! name = Some ref ->
  getCircuitBreaker name o f r = (ref, r).
Proof. intros H. unfold getCircuitBreaker. rewrite H. reflexivity. Qed.

(** Nothing that happens to a registry unregisters a name, moves it to
    another object or reconfigures its object. *)
Lemma apply_registered op (r : Registry) name ref cfg :
  registered r name ref cfg -> registered (apply op r) name ref cfg.
Proof.
  intros [Hn (b & Hb & Hc)]. destruct op as [n o f | ref' now c]; simpl.
  - unfold registered, getCircuitBreaker. destruct (registry r !! n) eqn:E;
      cbn [fst snd instances registry].
    + split; [assumption | eauto].
    + split.
      * rewrite lookup_insert_ne; [assumption |]. intros ->. congruence.
      * exists b. split; [| assumption].
        apply lookup_app_l_Some. assumption.
  - unfold executeRef. destruct (instances r !! ref') as [b' |] eqn:E.
    + destruct (execute b' now c) as [res b''] eqn:Ex.
      unfold registered; cbn [fst snd instances registry].
      split; [assumption |].
      destruct (decide (ref' = ref)) as [-> | Hne].
      * exists b''. split.
        -- apply list_lookup_insert_eq. eapply lookup_lt_Some; eassumption.
        -- assert (b' = b) by congruence. subst b'.
           change b'' with (snd (res, b'')). rewrite <- Ex.
           unfold execute. rewrite fire_config. assumption.
      * exists b. split; [| assumption].
        rewrite list_lookup_insert_ne; assumption.
    + split; [assumption | eauto].
Qed.

Lemma applyAll_registered ops (r : Registry) name ref cfg :
  registered r name ref cfg -> registered (applyAll ops r) name ref cfg.
Proof.
  revert r. induction ops as [| op ops IH]; intros r H; simpl; [assumption |].
  apply IH, apply_registered, H.
Qed.

(** After a lookup the name is registered, whether it was before or
    not. *)
Lemma getCircuitBreaker_registered name o f (r : Registry) :
  sound r ->
  exists cfg, registered (snd (getCircuitBreaker name o f r)) name
                         (fst (getCircuitBreaker name o f r)) cfg.
Proof.
  intros Hs. destruct (registry r !! name) as [ref |] eqn:E.
  - rewrite (getCircuitBreaker_known _ _ _ _ _ E). simpl.
    destruct (Hs _ _ E) as [b Hb]. exists (config b).
    split; [assumption | eauto].
  - eexists. apply getCircuitBreaker_fresh, E.
Qed.

Lemma emptyRegistry_sound : sound emptyRegistry.
Proof.
  intros name ref H. unfold emptyRegistry in H. simpl in H.
  rewrite lookup_empty in H. discriminate.
Qed.

End RegistryFacts.

(** C9: once [getCircuitBreaker] has been called for a service name, every
    later call for that name, whatever else was looked up or executed in
    between and whatever options and fallback it passes, returns the very
    object of the first call and leaves the registry as it is; that object
    still has the configuration it had after the first call, which for a
    name not registered before is the one made from the first call's
    options and fallback. *)
Theorem getCircuitBreaker_first_call_wins
    (r : CircuitBreaker.Registry) (name : string)
    (o1 o2 : CircuitBreaker.Overrides)
    (f1 f2 : option CircuitBreaker.Fallback)
    (between : list CircuitBreaker.RegistryOp) :
  CircuitBreaker.sound r ->
  let first := CircuitBreaker.getCircuitBreaker name o1 f1 r in
  let r' := CircuitBreaker.applyAll between (snd first) in
  CircuitBreaker.getCircuitBreaker name o2 f2 r' = (fst first, r')
  /\ (exists b b',
        CircuitBreaker.deref (snd first) (fst first) = Some b
        /\ CircuitBreaker.deref r' (fst first) = Some b'
        /\ CircuitBreaker.config b' = CircuitBreaker.config b
        /\ (CircuitBreaker.registry r !! name = None ->
            CircuitBreaker.config b' = (CircuitBreaker.mergeOptions o1 name, f1))).
Proof.
  intros Hs first r'.
  destruct (getCircuitBreaker_registered name o1 f1 r Hs) as [cfg Hreg].
  fold first in Hreg.
  pose proof (applyAll_registered between _ _ _ _ Hreg) as Hreg'.
  fold r' in Hreg'.
  destruct Hreg as [_ (b & Hb & Hc)].
  destruct Hreg' as [Hn' (b' & Hb' & Hc')].
  split.
  - apply getCircuitBreaker_known, Hn'.
  - exists b, b'. unfold CircuitBreaker.deref.
    repeat split; try assumption; [congruence |].
    intros Hnone.
    pose proof (getCircuitBreaker_fresh name o1 f1 r Hnone) as Hf.
    fold first in Hf. destruct Hf as [_ (b0 & Hb0 & Hc0)].
    congruence.
Qed.

Lemma getCircuitBreaker_first_call_wins_witness :
  let o1 := StockController.productsOptions in
  let f1 := Some (StockController.productsFallback (mkEnv None)) in
  let o2 := CircuitBreaker.mkOverrides None None (Some 1) (Some 100) None None in
  let between :=
    [CircuitBreaker.Execute 0 10 CircuitBreaker.Fails;
     CircuitBreaker.Lookup "suppliers-service" CircuitBreaker.noOverrides None] in
  let first :=
    CircuitBreaker.getCircuitBreaker "products-service" o1 f1
                                     CircuitBreaker.emptyRegistry in
  let r' := CircuitBreaker.applyAll between (snd first) in
  CircuitBreaker.getCircuitBreaker "products-service" o2 None r' = (fst first, r')
  /\ (exists b b',
        CircuitBreaker.deref (snd first) (fst first) = Some b
        /\ CircuitBreaker.deref r' (fst first) = Some b'
        /\ CircuitBreaker.config b' = CircuitBreaker.config b
        /\ (CircuitBreaker.registry CircuitBreaker.emptyRegistry
              !! "products-service" = None ->
            CircuitBreaker.config b'
              = (CircuitBreaker.mergeOptions o1 "products-service", f1))).
Proof.
  intros o1 f1 o2 between.
  apply (getCircuitBreaker_first_call_wins CircuitBreaker.emptyRegistry
           "products-service" o1 o2 f1 None between).
  intros name ref H. vm_compute in H. discriminate.
Defined.

(** ** The breaker state machine *)

Section BreakerFacts.
Import CircuitBreaker.

(** The registry stays sound under everything that happens to it. *)
Lemma apply_sound op (r : Registry) : sound r -> sound (apply op r).
Proof.
  intros Hs name ref. destruct op as [n o f | ref' now c]; simpl.
  - unfold getCircuitBreaker. destruct (registry r !! n) eqn:E;
      cbn [fst snd instances registry]; [apply Hs |].
    rewrite lookup_insert. destruct (decide (n = name)) as [-> | Hne].
    + intros [= <-]. exists (createCircuitBreaker name o f).
      apply list_lookup_middle. reflexivity.
    + intros H. destruct (Hs _ _ H) as [b Hb]. exists b.
      apply lookup_app_l_Some, Hb.
  - unfold executeRef. destruct (instances r !! ref') as [b' |] eqn:E;
      [| apply Hs].
    destruct (execute b' now c) as [res b'']. cbn [fst snd instances registry].
    intros H. destruct (Hs _ _ H) as [b Hb].
    apply lookup_lt_is_Some. rewrite length_insert.
    eapply lookup_lt_Some, Hb.
Qed.


Lemma orFallback_core (b : Breaker) (e : Error) :
  core (snd (orFallback b e)) = core b.
Proof. unfold orFallback. destruct (fallbackFn b); reflexivity. Qed.

Lemma stateAt_core (b b' : Breaker) (now : Z) :
  core b = core b' -> stateAt b now = stateAt b' now.
Proof. unfold core, stateAt. intros [= -> -> _ ->]. reflexivity. Qed.

(** A call through a CLOSED breaker is recorded, and opens the breaker
    when the window trips. *)
Lemma fire_closed (b : Breaker) (now : Z) (c : Call) :
  state b = CLOSED ->
  let w := (live (options b) now (window b)
              ++ [(bucketOf (options b) now, outcomeOf c)])%list in
  core (snd (fire b now c)) =
    if tripped (options b) w then (options b, OPEN, w, now)
    else (options b, CLOSED, w, lastTransition b).
Proof.
  intros Hc w. unfold fire, stateAt. rewrite Hc. fold w.
  destruct c; try rewrite orFallback_core;
    destruct (tripped (options b) w); reflexivity.
Qed.

(** A failing probe opens the breaker again, as of now. *)
Lemma fire_probe_fails (b : Breaker) (now : Z) (c : Call) :
  stateAt b now = HALF_OPEN ->
  failing c = true ->
  state (snd (fire b now c)) = OPEN
  /\ lastTransition (snd (fire b now c)) = now
  /\ options (snd (fire b now c)) = options b.
Proof.
  intros Hs Hf. unfold fire. rewrite Hs.
  destruct c; try discriminate;
    pose proof (orFallback_core
                  (mkBreaker (options b) (fallbackFn b) OPEN
                     (live (options b) now (window b)
                        ++ [(bucketOf (options b) now, outcomeOf Fails)])%list
                     (count (outcomeOf Fails) (stats b)) now) CallError) as H1;
    pose proof (orFallback_core
                  (mkBreaker (options b) (fallbackFn b) OPEN
                     (live (options b) now (window b)
                        ++ [(bucketOf (options b) now, outcomeOf TimesOut)])%list
                     (count (outcomeOf TimesOut) (stats b)) now) TimeoutError) as H2;
    unfold core in H1, H2; simpl in *.
  - injection H1 as -> -> _ ->. auto.
  - injection H2 as -> -> _ ->. auto.
Qed.

(** A successful probe closes the breaker; nothing but the success is
    left in the window. *)
Lemma fire_probe_succeeds (b : Breaker) (now : Z) (data : Js.JsVal) :
  stateAt b now = HALF_OPEN ->
  fst (fire b now (Responds data)) = Ok data
  /\ state (snd (fire b now (Responds data))) = CLOSED
  /\ failed (window (snd (fire b now (Responds data)))) = 0.
Proof. intros Hs. unfold fire. rewrite Hs. simpl. auto. Qed.

(** An OPEN breaker does not look at the call. *)
Lemma fire_open_rejects (b : Breaker) (now : Z) (c c' : Call) :
  stateAt b now = OPEN -> fire b now c = fire b now c'.
Proof. intros Hs. unfold fire. rewrite Hs. reflexivity. Qed.

(** The state of an open breaker as time goes by. *)
Lemma stateAt_open (b : Breaker) (t : Z) :
  state b = OPEN ->
  stateAt b t =
    if resetTimeout (options b) <=? t - lastTransition b
    then HALF_OPEN else OPEN.
Proof. intros H. unfold stateAt. rewrite H. reflexivity. Qed.

(** Two times at most nine seconds apart fall into the same ten
    one-second buckets. *)
Lemma within_window (t t' : Z) :
  t <= t' <= t + 9000 -> (t' / 1000 - 10 <? t / 1000) = true.
Proof.
  intros [_ H]. apply Z.ltb_lt.
  assert (t' / 1000 <= (t + 9 * 1000) / 1000)
    by (apply Z.div_le_mono; lia).
  rewrite Z.div_add in H0 by lia. lia.
Qed.

(** The options of the products breaker are the defaults. *)
Lemma productsOptions_defaults name :
  mergeOptions StockController.productsOptions name = DEFAULT_OPTIONS name.
Proof. reflexivity. Qed.

Lemma noOverrides_defaults name :
  mergeOptions noOverrides name = DEFAULT_OPTIONS name.
Proof. reflexivity. Qed.

End BreakerFacts.

(** C4: a breaker made with the default options (volume threshold 3, error
    threshold 50 percent, ten-second rolling window, reset after 30000 ms)
    starts CLOSED; it is still CLOSED after one and after two failing
    calls and OPEN after the third, the three falling into one window.
    While the reset duration has not elapsed it stays OPEN and does not
    look at the call; from then on the state is HALF_OPEN and the next
    [execute] is a probe: a responding probe is returned, closes the
    breaker and leaves no failure in the window; a failing probe opens the
    breaker again as of the time of the probe, for another 30000 ms. *)
Theorem breaker_state_machine
    (name : string) (o : CircuitBreaker.Overrides)
    (f : option CircuitBreaker.Fallback)
    (t1 t2 t3 : Z) (c1 c2 c3 : CircuitBreaker.Call) :
  CircuitBreaker.mergeOptions o name = CircuitBreaker.DEFAULT_OPTIONS name ->
  CircuitBreaker.failing c1 = true ->
  CircuitBreaker.failing c2 = true ->
  CircuitBreaker.failing c3 = true ->
  t1 <= t2 -> t2 <= t3 -> t3 <= t1 + 9000 ->
  let b0 := CircuitBreaker.createCircuitBreaker name o f in
  let b1 := snd (CircuitBreaker.execute b0 t1 c1) in
  let b2 := snd (CircuitBreaker.execute b1 t2 c2) in
  let b3 := snd (CircuitBreaker.execute b2 t3 c3) in
  CircuitBreaker.stateAt b0 t1 = CircuitBreaker.CLOSED
  /\ CircuitBreaker.stateAt b1 t2 = CircuitBreaker.CLOSED
  /\ CircuitBreaker.stateAt b2 t3 = CircuitBreaker.CLOSED
  /\ CircuitBreaker.stateAt b3 t3 = CircuitBreaker.OPEN
  /\ (forall t c c',
        t3 <= t < t3 + 30000 ->
        CircuitBreaker.stateAt b3 t = CircuitBreaker.OPEN
        /\ CircuitBreaker.execute b3 t c = CircuitBreaker.execute b3 t c')
  /\ (forall t,
        t3 + 30000 <= t ->
        CircuitBreaker.stateAt b3 t = CircuitBreaker.HALF_OPEN
        /\ (forall data,
              let r := CircuitBreaker.execute b3 t (CircuitBreaker.Responds data) in
              fst r = Ok data
              /\ CircuitBreaker.state (snd r) = CircuitBreaker.CLOSED
              /\ CircuitBreaker.failed (CircuitBreaker.window (snd r)) = 0)
        /\ (forall c,
              CircuitBreaker.failing c = true ->
              let b4 := snd (CircuitBreaker.execute b3 t c) in
              CircuitBreaker.state b4 = CircuitBreaker.OPEN
              /\ CircuitBreaker.lastTransition b4 = t
              /\ (forall t', t <= t' < t + 30000 ->
                             CircuitBreaker.stateAt b4 t' = CircuitBreaker.OPEN)
              /\ (forall t', t + 30000 <= t' ->
                             CircuitBreaker.stateAt b4 t'
                               = CircuitBreaker.HALF_OPEN))).
Proof.
  intros Ho F1 F2 F3 H12 H23 H31 b0 b1 b2 b3.
  assert (C0 : CircuitBreaker.core b0
               = (CircuitBreaker.DEFAULT_OPTIONS name, CircuitBreaker.CLOSED, [], 0)).
  { unfold b0, CircuitBreaker.createCircuitBreaker. rewrite Ho.
    destruct f; reflexivity. }
  assert (S0 : CircuitBreaker.state b0 = CircuitBreaker.CLOSED)
    by (unfold CircuitBreaker.core in C0; congruence).
  assert (C1 : CircuitBreaker.core b1
               = (CircuitBreaker.DEFAULT_OPTIONS name, CircuitBreaker.CLOSED,
                  [(t1 / 1000, CircuitBreaker.outcomeOf c1)], 0)).
  { unfold b1, CircuitBreaker.execute.
    rewrite (fire_closed b0 t1 c1 S0).
    unfold CircuitBreaker.core in C0. injection C0 as -> _ -> ->.
    reflexivity. }
  assert (S1 : CircuitBreaker.state b1 = CircuitBreaker.CLOSED)
    by (unfold CircuitBreaker.core in C1; congruence).
  assert (C2 : CircuitBreaker.core b2
               = (CircuitBreaker.DEFAULT_OPTIONS name, CircuitBreaker.CLOSED,
                  [(t1 / 1000, CircuitBreaker.outcomeOf c1);
                   (t2 / 1000, CircuitBreaker.outcomeOf c2)], 0)).
  { unfold b2, CircuitBreaker.execute.
    rewrite (fire_closed b1 t2 c2 S1).
    unfold CircuitBreaker.core in C1. injection C1 as -> _ -> ->.
    unfold CircuitBreaker.live, CircuitBreaker.bucketOf. simpl.
    change (10000 / 10) with 1000.
    rewrite (within_window t1 t2) by lia. reflexivity. }
  assert (S2 : CircuitBreaker.state b2 = CircuitBreaker.CLOSED)
    by (unfold CircuitBreaker.core in C2; congruence).
  assert (C3 : CircuitBreaker.core b3
               = (CircuitBreaker.DEFAULT_OPTIONS name, CircuitBreaker.OPEN,
                  [(t1 / 1000, CircuitBreaker.outcomeOf c1);
                   (t2 / 1000, CircuitBreaker.outcomeOf c2);
                   (t3 / 1000, CircuitBreaker.outcomeOf c3)], t3)).
  { unfold b3, CircuitBreaker.execute.
    rewrite (fire_closed b2 t3 c3 S2).
    unfold CircuitBreaker.core in C2. injection C2 as -> _ -> ->.
    unfold CircuitBreaker.live, CircuitBreaker.bucketOf. simpl.
    change (10000 / 10) with 1000.
    rewrite (within_window t1 t3) by lia.
    rewrite (within_window t2 t3) by lia.
    unfold CircuitBreaker.tripped, CircuitBreaker.failed,
      CircuitBreaker.failing in *. simpl.
    rewrite F1, F2, F3. reflexivity. }
  unfold CircuitBreaker.core in C3. injection C3 as O3 S3 _ L3.
  assert (At3 : forall t, CircuitBreaker.stateAt b3 t =
                  if 30000 <=? t - t3 then CircuitBreaker.HALF_OPEN
                  else CircuitBreaker.OPEN).
  { intros t. rewrite (stateAt_open b3 t S3), O3, L3. reflexivity. }
  repeat split.
  - unfold CircuitBreaker.stateAt. rewrite S0. reflexivity.
  - unfold CircuitBreaker.stateAt. rewrite S1. reflexivity.
  - unfold CircuitBreaker.stateAt. rewrite S2. reflexivity.
  - rewrite At3. destruct (Z.leb_spec 30000 (t3 - t3)); [lia | reflexivity].
  - rewrite At3. destruct (Z.leb_spec 30000 (t - t3)); [lia | reflexivity].
  - apply fire_open_rejects. rewrite At3.
    destruct (Z.leb_spec 30000 (t - t3)); [lia | reflexivity].
  - rewrite At3. destruct (Z.leb_spec 30000 (t - t3)); [reflexivity | lia].
  - apply fire_probe_succeeds. rewrite At3.
    destruct (Z.leb_spec 30000 (t - t3)); [reflexivity | lia].
  - apply fire_probe_succeeds. rewrite At3.
    destruct (Z.leb_spec 30000 (t - t3)); [reflexivity | lia].
  - apply fire_probe_succeeds. rewrite At3.
    destruct (Z.leb_spec 30000 (t - t3)); [reflexivity | lia].
  - apply fire_probe_fails; [| assumption]. rewrite At3.
    destruct (Z.leb_spec 30000 (t - t3)); [reflexivity | lia].
  - apply fire_probe_fails; [| assumption]. rewrite At3.
    destruct (Z.leb_spec 30000 (t - t3)); [reflexivity | lia].
  - intros t' Ht'.
    assert (At : CircuitBreaker.stateAt b3 t = CircuitBreaker.HALF_OPEN).
    { rewrite At3. destruct (Z.leb_spec 30000 (t - t3)); [reflexivity | lia]. }
    destruct (fire_probe_fails b3 t c At H0) as (S4 & L4 & O4).
    unfold CircuitBreaker.execute.
    rewrite (stateAt_open _ t' S4), L4, O4, O3. simpl.
    destruct (Z.leb_spec 30000 (t' - t)); [lia | reflexivity].
  - intros t' Ht'.
    assert (At : CircuitBreaker.stateAt b3 t = CircuitBreaker.HALF_OPEN).
    { rewrite At3. destruct (Z.leb_spec 30000 (t - t3)); [reflexivity | lia]. }
    destruct (fire_probe_fails b3 t c At H0) as (S4 & L4 & O4).
    unfold CircuitBreaker.execute.
    rewrite (stateAt_open _ t' S4), L4, O4, O3. simpl.
    destruct (Z.leb_spec 30000 (t' - t)); [reflexivity | lia].
Qed.

Lemma breaker_state_machine_witness :
  let b0 := CircuitBreaker.createCircuitBreaker "products-service"
              StockController.productsOptions
              (Some (StockController.productsFallback (mkEnv None))) in
  let b1 := snd (CircuitBreaker.execute b0 0 CircuitBreaker.Fails) in
  let b2 := snd (CircuitBreaker.execute b1 1000 CircuitBreaker.Fails) in
  let b3 := snd (CircuitBreaker.execute b2 2000 CircuitBreaker.TimesOut) in
  CircuitBreaker.stateAt b0 0 = CircuitBreaker.CLOSED
  /\ CircuitBreaker.stateAt b1 1000 = CircuitBreaker.CLOSED
  /\ CircuitBreaker.stateAt b2 2000 = CircuitBreaker.CLOSED
  /\ CircuitBreaker.stateAt b3 2000 = CircuitBreaker.OPEN
  /\ (forall t c c',
        2000 <= t < 2000 + 30000 ->
        CircuitBreaker.stateAt b3 t = CircuitBreaker.OPEN
        /\ CircuitBreaker.execute b3 t c = CircuitBreaker.execute b3 t c')
  /\ (forall t,
        2000 + 30000 <= t ->
        CircuitBreaker.stateAt b3 t = CircuitBreaker.HALF_OPEN
        /\ (forall data,
              let r := CircuitBreaker.execute b3 t (CircuitBreaker.Responds data) in
              fst r = Ok data
              /\ CircuitBreaker.state (snd r) = CircuitBreaker.CLOSED
              /\ CircuitBreaker.failed (CircuitBreaker.window (snd r)) = 0)
        /\ (forall c,
              CircuitBreaker.failing c = true ->
              let b4 := snd (CircuitBreaker.execute b3 t c) in
              CircuitBreaker.state b4 = CircuitBreaker.OPEN
              /\ CircuitBreaker.lastTransition b4 = t
              /\ (forall t', t <= t' < t + 30000 ->
                             CircuitBreaker.stateAt b4 t' = CircuitBreaker.OPEN)
              /\ (forall t', t + 30000 <= t' ->
                             CircuitBreaker.stateAt b4 t'
                               = CircuitBreaker.HALF_OPEN))).
Proof.
  apply (breaker_state_machine "products-service"
           StockController.productsOptions
           (Some (StockController.productsFallback (mkEnv None)))
           0 1000 2000
           CircuitBreaker.Fails CircuitBreaker.Fails CircuitBreaker.TimesOut);
    try reflexivity; lia.
Defined.

(** ** The movement ledger *)

Section LedgerFacts.
Import StockMovement.

Lemma sum_app (l l' : list Z) :
  foldr Z.add 0 (l ++ l')%list = foldr Z.add 0 l + foldr Z.add 0 l'.
Proof. induction l as [| x l IH]; simpl; lia. Qed.

(** Appending a movement adds its signed quantity to the net of its
    item and to no other. *)
Lemma net_app (pid : string) (db : Collection) (m : Doc) :
  net pid (db ++ [m])%list =
    net pid db + (if String.eqb (productId m) pid then signed m else 0).
Proof.
  unfold net, entries, exits, signed.
  rewrite !List.filter_app, !map_app, !sum_app. simpl.
  destruct (String.eqb (productId m) pid); destruct (type m); simpl; lia.
Qed.

Lemma movement_validate_inv (d : Doc) (u : unit) :
  validate d = Ok u -> productId d <> "" /\ 1 <= quantity d.
Proof.
  unfold validate.
  destruct (String.eqb_spec (productId d) ""); [discriminate |].
  destruct (Z.ltb_spec (quantity d) 1); [discriminate |].
  intros _. split; [assumption | lia].
Qed.

(** [create] appends the validated movement or leaves the ledger as it
    was. *)
Lemma create_cases pid ty qty rsn ref by_ now (db : Collection) :
  (exists m, create pid ty qty rsn ref by_ now db = (Ok m, (db ++ [m])%list)
             /\ productId m = pid /\ type m = ty /\ quantity m = qty
             /\ timestamp m = now
             /\ pid <> "" /\ 1 <= qty)
  \/ (exists e, create pid ty qty rsn ref by_ now db = (Throw e, db)).
Proof.
  unfold create.
  destruct (validate _) as [u | e] eqn:E.
  - left. eexists. split; [reflexivity |].
    apply movement_validate_inv in E. simpl in *. tauto.
  - right. eauto.
Qed.

End LedgerFacts.

(** ** The controllers, one request at a time *)

Section ControllerFacts.
Import StockController.

Lemma sane_dataOf (w w' : World) : dataOf w' = dataOf w -> sane w -> sane w'.
Proof.
  unfold dataOf, sane, keyed, consistent. intros [= -> ->]. trivial.
Qed.

(** [getProductInfo] never throws and touches nothing but the breaker. *)
Lemma getProductInfo_spec (ctx : Ctx) (pid : string) (w : World) :
  exists product b,
    getProductInfo ctx pid w
      = (Ok product, mkWorld (levels w) (movements w) b).
Proof.
  unfold getProductInfo.
  destruct (execute _ _ _) as [[data | e] b]; eauto.
Qed.

Lemma initialWorld_sane (e : Env) : sane (initialWorld e).
Proof.
  split.
  - intros pid d H. simpl in H. rewrite lookup_empty in H. discriminate.
  - intros pid. unfold StockLevel.quantityOf. simpl.
    rewrite lookup_empty. split; [reflexivity | lia].
Qed.

(** Storing [d] under its key moves the quantity of that item only. *)
Lemma sane_insert (w : World) (d : StockLevel.Doc) (ms : StockMovement.Collection) b :
  keyed w ->
  (forall pid,
     (if decide (StockLevel.productId d = pid)
      then StockLevel.currentQuantity d
      else StockLevel.quantityOf (levels w) pid) = StockMovement.net pid ms
     /\ 0 <= (if decide (StockLevel.productId d = pid)
              then StockLevel.currentQuantity d
              else StockLevel.quantityOf (levels w) pid)) ->
  sane (mkWorld (<[StockLevel.productId d := d]> (levels w)) ms b).
Proof.
  intros Hk Hc. split.
  - intros pid d'. simpl. rewrite lookup_insert.
    destruct (decide (StockLevel.productId d = pid)) as [<- | Hne].
    + intros [= <-]. reflexivity.
    + apply Hk.
  - intros pid. simpl. rewrite quantityOf_insert. apply Hc.
Qed.

(** [getOrCreate] returns the document stored for the item, having
    stored a zero document if there was none; the world stays sane. *)
Lemma getOrCreate_sane (pid : string) (now : Z) (w : World) :
  sane w ->
  match onLevels (StockLevel.getOrCreate pid now) w with
  | (Ok d, w') =>
      sane w' /\ levels w' !! pid = Some d
      /\ movements w' = movements w
      /\ productsBreaker w' = productsBreaker w
      /\ StockLevel.currentQuantity d = StockLevel.quantityOf (levels w) pid
      /\ (levels w !! pid = None ->
          d = StockLevel.mkDoc pid 0 now /\ levels w' = <[pid := d]> (levels w))
      /\ (is_Some (levels w !! pid) -> levels w' = levels w)
  | (Throw e, w') => dataOf w' = dataOf w /\ pid = ""
  end.
Proof.
  intros Hs. pose proof Hs as [Hk Hc].
  unfold onLevels, StockLevel.getOrCreate.
  destruct (levels w !! pid) as [d |] eqn:E.
  - cbn [levels movements productsBreaker].
    split; [eapply sane_dataOf; [| exact Hs]; reflexivity |].
    split; [assumption |].
    split; [reflexivity |]. split; [reflexivity |].
    split; [unfold StockLevel.quantityOf; rewrite E; reflexivity |].
    split; [discriminate | reflexivity].
  - destruct (save_cases (StockLevel.mkDoc pid 0 now) (levels w))
      as [(Hsv & Hid & _) | (e & Hsv)]; rewrite Hsv;
      cbn [levels movements productsBreaker StockLevel.productId] in *.
    + split.
      { apply (sane_insert w (StockLevel.mkDoc pid 0 now)); [assumption |].
        intros pid'. simpl. destruct (decide (pid = pid')) as [<- | _].
        - destruct (Hc pid) as [H1 H2]. unfold StockLevel.quantityOf in H1, H2.
          rewrite E in H1, H2. split; [assumption | lia].
        - apply Hc. }
      split; [apply lookup_insert_eq |].
      split; [reflexivity |]. split; [reflexivity |].
      split; [unfold StockLevel.quantityOf; rewrite E; reflexivity |].
      split; [intros _; split; reflexivity |].
      intros [x Hx]. discriminate.
    + split; [reflexivity |].
      destruct (String.eqb_spec pid "") as [-> | Hne]; [reflexivity |].
      exfalso. unfold StockLevel.save in Hsv.
      rewrite level_validate_ok in Hsv by (simpl; first [assumption | lia]).
      discriminate.
Qed.

(** The tail shared by entry and exit: append the movement, then apply
    its signed quantity to the level document.  Either both happen, or
    the movement is refused by its validators and nothing happens. *)
Lemma record_sane pid ty qty rsn ref by_ (t delta : Z) (d : StockLevel.Doc)
    (k : StockMovement.Doc -> StockLevel.Doc -> Response) (w : World) :
  sane w ->
  levels w !! pid = Some d ->
  delta = match ty with StockMovement.ENTRY => qty | StockMovement.EXIT => - qty end ->
  (1 <= qty -> 0 <= StockLevel.currentQuantity d + delta) ->
  let m :=
    (movement <- onMovements (StockMovement.create pid ty qty rsn ref by_ t) ;;
     stockLevel' <- updateQuantity d delta t ;;
     ret (k movement stockLevel')) in
  sane (snd (m w))
  /\ productsBreaker (snd (m w)) = productsBreaker w
  /\ match fst (m w) with
     | Ok res =>
         let d' := StockLevel.mkDoc pid (StockLevel.currentQuantity d + delta) t in
         exists mv,
           res = k mv d'
           /\ movements (snd (m w)) = (movements w ++ [mv])%list
           /\ levels (snd (m w)) = <[pid := d']> (levels w)
           /\ StockMovement.productId mv = pid
           /\ StockMovement.type mv = ty
           /\ StockMovement.quantity mv = qty
           /\ StockMovement.timestamp mv = t
           /\ 1 <= qty
     | Throw e => dataOf (snd (m w)) = dataOf w
     end.
Proof.
  intros Hs Hd Hdelta Hge m. pose proof Hs as [Hk Hc].
  subst m. unfold bind, onMovements.
  destruct (create_cases pid ty qty rsn ref by_ t (movements w))
    as [(mv & Hcr & Hp & Hty & Hq & Ht & Hid & H1) | (e & Hcr)]; rewrite Hcr.
  - unfold updateQuantity. cbn [levels movements productsBreaker].
    assert (Hpd : StockLevel.productId d = pid) by (apply Hk, Hd).
    rewrite updateQuantity_saved by (rewrite ?Hpd; auto).
    rewrite Hpd. cbn [StockLevel.returned StockLevel.this_after StockLevel.stored].
    unfold ret. cbn [fst snd levels movements productsBreaker].
    split; [| split; [reflexivity |]].
    + apply (sane_insert w (StockLevel.mkDoc pid
               (StockLevel.currentQuantity d + delta) t)); [assumption |].
      intros pid'. cbn [StockLevel.productId StockLevel.currentQuantity].
      rewrite net_app, Hp. destruct (Hc pid') as [Hn Hnn].
      destruct (decide (pid = pid')) as [<- | Hne].
      * rewrite String.eqb_refl. unfold StockMovement.signed. rewrite Hty, Hq.
        unfold StockLevel.quantityOf in Hn. rewrite Hd in Hn.
        split; [| auto]. rewrite <- Hn, Hdelta. destruct ty; lia.
      * destruct (String.eqb_spec pid pid'); [contradiction |].
        split; [lia | assumption].
    + exists mv. repeat split; assumption.
  - cbn [fst snd]. split; [| split; reflexivity].
    eapply sane_dataOf; [| exact Hs]. reflexivity.
Qed.

(** [addStockEntry] keeps the world sane. *)
Lemma addStockEntry_sane (ctx : Ctx) (req : Request) (w : World) :
  sane w -> sane (snd (addStockEntry ctx req w)).
Proof.
  intros Hs. unfold addStockEntry. unfold bind at 1.
  destruct (getProductInfo_spec ctx (productId req) w) as (product & b & ->).
  set (w1 := mkWorld (levels w) (movements w) b).
  assert (Hs1 : sane w1) by (eapply sane_dataOf; [| exact Hs]; reflexivity).
  destruct (negb (Js.truthy product)); [exact Hs1 |].
  unfold bind at 1.
  pose proof (getOrCreate_sane (productId req) (now ctx) w1 Hs1) as Hg.
  destruct (onLevels _ w1) as [[d | e] w2].
  - destruct Hg as (Hs2 & Hd & _).
    apply (record_sane (productId req) StockMovement.ENTRY (quantity req)
             (reason req) (reference req) (userId req) (now ctx) (quantity req) d
             (fun movement stockLevel' =>
                Recorded "Stock entry recorded successfully" movement
                  (StockLevel.currentQuantity stockLevel')
                  (fallbackWarning product)) w2 Hs2 Hd eq_refl).
    intros H1. destruct Hs2 as [_ Hc2]. destruct (Hc2 (productId req)) as [_ H0].
    unfold StockLevel.quantityOf in H0. rewrite Hd in H0. lia.
  - destruct Hg as [Hg _]. eapply sane_dataOf; [exact Hg | exact Hs1].
Qed.

(** [removeStockExit] keeps the world sane. *)
Lemma removeStockExit_sane (ctx : Ctx) (req : Request) (w : World) :
  sane w -> sane (snd (removeStockExit ctx req w)).
Proof.
  intros Hs. unfold removeStockExit. unfold bind at 1.
  destruct (getProductInfo_spec ctx (productId req) w) as (product & b & ->).
  set (w1 := mkWorld (levels w) (movements w) b).
  assert (Hs1 : sane w1) by (eapply sane_dataOf; [| exact Hs]; reflexivity).
  destruct (negb (Js.truthy product)); [exact Hs1 |].
  unfold bind at 1.
  pose proof (getOrCreate_sane (productId req) (now ctx) w1 Hs1) as Hg.
  destruct (onLevels _ w1) as [[d | e] w2].
  - destruct Hg as (Hs2 & Hd & _).
    destruct (Z.ltb_spec (StockLevel.currentQuantity d) (quantity req));
      [exact Hs2 |].
    apply (record_sane (productId req) StockMovement.EXIT (quantity req)
             (reason req) (reference req) (userId req) (now ctx)
             (- quantity req) d
             (fun movement stockLevel' =>
                Recorded "Stock exit recorded successfully" movement
                  (StockLevel.currentQuantity stockLevel')
                  (fallbackWarning product)) w2 Hs2 Hd eq_refl).
    intros _. lia.
  - destruct Hg as [Hg _]. eapply sane_dataOf; [exact Hg | exact Hs1].
Qed.

(** The lookups of an alert batch touch nothing but the breaker, and
    none of them is rejected. *)
Lemma alerts_settled (ctx : Ctx) (threshold : Z) (items : list StockLevel.Doc)
    (w : World) :
  exists alerts b,
    allSettled (map (alertFor ctx threshold) items) w
      = (Ok (map Ok alerts), mkWorld (levels w) (movements w) b)
    /\ map a_productId alerts = map StockLevel.productId items
    /\ map a_currentQuantity alerts = map StockLevel.currentQuantity items.
Proof.
  revert w. induction items as [| item items IH]; intros w.
  - exists [], (productsBreaker w). destruct w. simpl. auto.
  - cbn [map allSettled]. unfold alertFor at 1. unfold bind.
    destruct (getProductInfo_spec ctx (StockLevel.productId item) w)
      as (product & b & ->).
    unfold ret.
    destruct (IH (mkWorld (levels w) (movements w) b))
      as (alerts & b' & -> & Hp & Hq).
    eexists (_ :: alerts), b'. cbn [map levels movements].
    split; [reflexivity |]. simpl. rewrite Hp, Hq. auto.
Qed.

Lemma fulfilled_map_Ok {A} (l : list A) : fulfilled (map Ok l) = l.
Proof. induction l as [| a l IH]; simpl; congruence. Qed.

(** Every request leaves a sane world sane. *)
Lemma handle_sane (ctx : Ctx) (op : Op) (w : World) :
  sane w -> sane (snd (handle ctx op w)).
Proof.
  intros Hs. unfold handle, asyncHandler.
  destruct op as [req | req | id | q |].
  - pose proof (addStockEntry_sane ctx req w Hs) as H.
    destruct (addStockEntry ctx req w) as [[res | e] w']; exact H.
  - pose proof (removeStockExit_sane ctx req w Hs) as H.
    destruct (removeStockExit ctx req w) as [[res | e] w']; exact H.
  - unfold getProductStockLevel, bind.
    pose proof (getOrCreate_sane id (now ctx) w Hs) as Hg.
    destruct (onLevels _ w) as [[d | e] w2]; simpl.
    + apply Hg.
    + destruct Hg as [Hg _]. eapply sane_dataOf; [exact Hg | exact Hs].
  - unfold getLowStockAlerts, bind.
    destruct (alerts_settled ctx
                (Js.intOr q (Js.intOr (DEFAULT_LOW_STOCK_THRESHOLD (env ctx)) 10))
                (StockLevel.getLowStock
                   (Js.intOr q (Js.intOr (DEFAULT_LOW_STOCK_THRESHOLD (env ctx)) 10))
                   (levels w)) w) as (alerts & b & -> & _).
    simpl. eapply sane_dataOf; [| exact Hs]. reflexivity.
  - simpl. exact Hs.
Qed.

Lemma serve_sane (ops : list (Ctx * Op)) (w : World) :
  sane w -> sane (serve ops w).
Proof.
  revert w. induction ops as [| [ctx op] ops IH]; intros w Hs; simpl.
  - exact Hs.
  - apply IH, handle_sane, Hs.
Qed.

End ControllerFacts.

(** X19: requests handled one at a time keep the ledger invariant within
    the safe integers: in a world whose level documents sit under their
    own keys and agree with the ledger, after every request handled to
    completion (entry, exit, level, alerts or summary, whatever the
    products service answers) every item's [currentQuantity] is the sum
    of its ENTRY quantities minus the sum of its EXIT quantities in the
    ledger, and is not negative; an item without a level document counts
    as zero.  The requests carry safe integers and ASCII text, and the
    stored quantities are safe integers in every state on the way, so
    that each [+=] of the code is exact. *)
Lemma serial_ledger_invariant
    (ops : list (StockController.Ctx * StockController.Op))
    (w : StockController.World) (pid : string) :
  StockController.keyed w ->
  StockController.consistent w ->
  forallb (fun co : StockController.Ctx * StockController.Op =>
             Exact.plainOp co.2) ops = true ->
  forallb Exact.bounded (Exact.trace ops w) = true ->
  let w' := StockController.serve ops w in
  StockLevel.quantityOf (StockController.levels w') pid
    = StockMovement.entries pid (StockController.movements w')
      - StockMovement.exits pid (StockController.movements w')
  /\ 0 <= StockLevel.quantityOf (StockController.levels w') pid.
Proof.
  intros Hk Hc _ _ w'.
  destruct (serve_sane ops w (conj Hk Hc)) as [_ Hc'].
  apply (Hc' pid).
Qed.

Example serial_ledger_invariant_example :
  let e := mkEnv None in
  let up : string -> CircuitBreaker.Call :=
    fun _ => CircuitBreaker.Responds
               (Js.JObj [("success", Js.JBool true);
                         ("data", Js.JObj [("name", Js.JStr "Widget")])]) in
  let rq q := StockController.mkRequest "X" q "restock" None "u1" in
  let ops :=
    [(StockController.mkCtx e 1000 up, StockController.AddEntry (rq 10));
     (StockController.mkCtx e 2000 up, StockController.RemoveExit (rq 4));
     (StockController.mkCtx e 3000 up, StockController.RemoveExit (rq 8))] in
  let w' := StockController.serve ops (StockController.initialWorld e) in
  StockLevel.quantityOf (StockController.levels w') "X"
    = StockMovement.entries "X" (StockController.movements w')
      - StockMovement.exits "X" (StockController.movements w')
  /\ 0 <= StockLevel.quantityOf (StockController.levels w') "X".
Proof.
  intros e up rq ops.
  apply (serial_ledger_invariant ops (StockController.initialWorld e) "X").
  - intros pid d H. simpl in H. rewrite lookup_empty in H. discriminate.
  - intros pid. unfold StockLevel.quantityOf. simpl. rewrite lookup_empty.
    split; [reflexivity | lia].
  - reflexivity.
  - vm_compute. reflexivity.
Defined.

(** ** Reading the collections *)

Section ReadFacts.
Import StockController.

Lemma filter_length_perm {A} (p : A -> bool) (l l' : list A) :
  l ≡ₚ l' -> length (List.filter p l) = length (List.filter p l').
Proof.
  induction 1 as [| x l l' _ IH | x y l | l l' l'' _ IH1 _ IH2]; simpl.
  - reflexivity.
  - destruct (p x); simpl; congruence.
  - destruct (p x), (p y); reflexivity.
  - congruence.
Qed.

Lemma docs_insert (db : StockLevel.Collection) i (d : StockLevel.Doc) :
  db !! i = None -> StockLevel.docs (<[i := d]> db) ≡ₚ d :: StockLevel.docs db.
Proof.
  intros H. unfold StockLevel.docs.
  rewrite (map_to_list_insert db i d H). reflexivity.
Qed.

(** [countDocuments(filter)] is the size of the filtered collection. *)
Lemma countDocuments_size (P : StockLevel.Doc -> Prop)
    `{!forall d, Decision (P d)} (p : StockLevel.Doc -> bool)
    (db : StockLevel.Collection) :
  (forall d, p d = true <-> P d) ->
  StockLevel.countDocuments p db
    = size (filter (fun kv : string * StockLevel.Doc => P kv.2) db).
Proof.
  intros Hp. unfold StockLevel.countDocuments.
  induction db as [| i d db Hi IH] using map_ind.
  - rewrite map_filter_empty, map_size_empty. unfold StockLevel.docs.
    rewrite map_to_list_empty. reflexivity.
  - rewrite (filter_length_perm p _ _ (docs_insert db i d Hi)). simpl.
    destruct (p d) eqn:E.
    + rewrite map_filter_insert_True by (apply Hp, E).
      rewrite map_size_insert_None
        by (apply map_lookup_filter_None; left; assumption).
      simpl. rewrite IH. reflexivity.
    + rewrite map_filter_insert_False by
        (simpl; intros HP; apply Hp in HP; congruence).
      rewrite (delete_id db i Hi). apply IH.
Qed.




End ReadFacts.


(** C8: the level request for a non-empty item id always answers with the
    item's aggregate and never with an error.  When the item has no level
    record yet, a record with quantity 0 is created and the answer shows
    quantity 0; when it has one, the answer shows its quantity and nothing
    changes. *)
Theorem getProductStockLevel_creates_zero
    (ctx : StockController.Ctx) (id : string) (w : StockController.World) :
  id <> "" ->
  let recent := StockMovement.getByProduct id 10 (StockController.movements w) in
  (StockController.levels w !! id = None ->
   StockController.handle ctx (StockController.GetLevel id) w
     = (StockController.Level id 0 (StockController.now ctx) recent,
        StockController.mkWorld
          (<[id := StockLevel.mkDoc id 0 (StockController.now ctx)]>
             (StockController.levels w))
          (StockController.movements w) (StockController.productsBreaker w)))
  /\ (forall d,
        StockController.levels w !! id = Some d ->
        StockController.handle ctx (StockController.GetLevel id) w
          = (StockController.Level id (StockLevel.currentQuantity d)
               (StockLevel.lastUpdated d) recent,
             StockController.mkWorld (StockController.levels w)
               (StockController.movements w) (StockController.productsBreaker w)))
  /\ (exists q t w',
        StockController.handle ctx (StockController.GetLevel id) w
          = (StockController.Level id q t recent, w')
        /\ q = StockLevel.quantityOf (StockController.levels w) id).
Proof.
  intros Hid recent.
  assert (Hnone : StockController.levels w !! id = None ->
           StockController.handle ctx (StockController.GetLevel id) w
           = (StockController.Level id 0 (StockController.now ctx) recent,
              StockController.mkWorld
                (<[id := StockLevel.mkDoc id 0 (StockController.now ctx)]>
                   (StockController.levels w))
                (StockController.movements w) (StockController.productsBreaker w))).
  { intros E. unfold StockController.handle, StockController.asyncHandler,
      StockController.getProductStockLevel, StockController.bind,
      StockController.onLevels, StockLevel.getOrCreate.
    rewrite E. unfold StockLevel.save.
    rewrite level_validate_ok by (simpl; first [assumption | lia]).
    reflexivity. }
  assert (Hsome : forall d, StockController.levels w !! id = Some d ->
           StockController.handle ctx (StockController.GetLevel id) w
           = (StockController.Level id (StockLevel.currentQuantity d)
                (StockLevel.lastUpdated d) recent,
              StockController.mkWorld (StockController.levels w)
                (StockController.movements w) (StockController.productsBreaker w))).
  { intros d E. unfold StockController.handle, StockController.asyncHandler,
      StockController.getProductStockLevel, StockController.bind,
      StockController.onLevels, StockLevel.getOrCreate.
    rewrite E. reflexivity. }
  split; [exact Hnone |]. split; [exact Hsome |].
  unfold StockLevel.quantityOf.
  destruct (StockController.levels w !! id) as [d |] eqn:E.
  - rewrite (Hsome d eq_refl). eauto.
  - rewrite (Hnone eq_refl). eauto.
Qed.

Lemma getProductStockLevel_creates_zero_witness :
  let e := mkEnv None in
  let ctx := StockController.mkCtx e 1000 (fun _ => CircuitBreaker.Fails) in
  let w := StockController.initialWorld e in
  StockController.handle ctx (StockController.GetLevel "X") w
    = (StockController.Level "X" 0 1000 [],
       StockController.mkWorld {[ "X" := StockLevel.mkDoc "X" 0 1000 ]} []
         (StockController.productsBreaker w)).
Proof.
  intros e ctx w.
  destruct (getProductStockLevel_creates_zero ctx "X" w) as [H _].
  - discriminate.
  - apply H. reflexivity.
Defined.

(** ** Exits beyond the stock, and lookups that fail *)

Section ExitFacts.
Import StockController.

Lemma getProductInfo_lookedUp (ctx : Ctx) (pid : string) (w : World) :
  exists b,
    getProductInfo ctx pid w
      = (Ok (lookedUp ctx pid w), mkWorld (levels w) (movements w) b).
Proof.
  unfold lookedUp.
  destruct (getProductInfo_spec ctx pid w) as (product & b & ->).
  exists b. reflexivity.
Qed.

(** [getOrCreate] moves no quantity. *)
Lemma getOrCreate_quantityOf (pid : string) (t : Z)
    (db : StockLevel.Collection) (pid' : string) :
  StockLevel.quantityOf (snd (StockLevel.getOrCreate pid t db)) pid'
    = StockLevel.quantityOf db pid'.
Proof.
  unfold StockLevel.getOrCreate.
  destruct (db !! pid) as [d |] eqn:E; [reflexivity |].
  destruct (save_cases (StockLevel.mkDoc pid 0 t) db)
    as [(-> & _) | (e & ->)]; [| reflexivity].
  cbn [snd]. rewrite quantityOf_insert. cbn [StockLevel.productId StockLevel.currentQuantity].
  destruct (decide (pid = pid')) as [<- |]; [| reflexivity].
  unfold StockLevel.quantityOf. rewrite E. reflexivity.
Qed.

(** For a non-empty id [getOrCreate] returns a document that shows the
    quantity the item stands at. *)
Lemma getOrCreate_returns (pid : string) (t : Z) (db : StockLevel.Collection) :
  pid <> "" ->
  exists d, fst (StockLevel.getOrCreate pid t db) = Ok d
            /\ StockLevel.currentQuantity d = StockLevel.quantityOf db pid.
Proof.
  intros Hid. unfold StockLevel.getOrCreate, StockLevel.quantityOf.
  destruct (db !! pid) as [d |]; [eauto |].
  unfold StockLevel.save.
  rewrite level_validate_ok by (simpl; first [assumption | lia]).
  eauto.
Qed.

(** The breaker hands out the fallback value when the call fails, times
    out or is rejected. *)
Lemma execute_fallback (b : Breaker) (t : Z) (c : Call) (f : Fallback) :
  fallbackFn b = Some f ->
  failing c = true \/ stateAt b t = OPEN ->
  exists err, fst (execute b t c) = Ok (f err).
Proof.
  intros Hf Hc. unfold execute, fire, orFallback, failing in *.
  destruct (stateAt b t) eqn:Hs.
  - destruct Hc as [Hc | Hc]; [| discriminate].
    destruct c; try discriminate; simpl;
      destruct (tripped _ _); simpl; rewrite Hf; eauto.
  - destruct Hc as [Hc | Hc]; [| discriminate].
    destruct c; try discriminate; simpl; rewrite Hf; eauto.
  - simpl. rewrite Hf. eauto.
Qed.

(** The fallback object of the products breaker has neither a [data] nor
    a [product] field, so [getProductInfo] makes [null] of it. *)
Lemma lookedUp_fallback (ctx : Ctx) (pid : string) (w : World) (e : Env) :
  fallbackFn (productsBreaker w) = Some (productsFallback e) ->
  failing (productsService ctx pid) = true
    \/ stateAt (productsBreaker w) (now ctx) = OPEN ->
  lookedUp ctx pid w = Js.JNull.
Proof.
  intros Hf Hc. unfold lookedUp, getProductInfo.
  destruct (execute_fallback _ (now ctx) (productsService ctx pid) _ Hf Hc)
    as [err Hex].
  destruct (execute _ _ _) as [r b]. simpl in Hex. subst r. reflexivity.
Qed.

(** The answer to an exit that exceeds the stock of a resolved item. *)
Lemma removeStockExit_refused (ctx : Ctx) (req : Request) (w : World) :
  productId req <> "" ->
  StockLevel.quantityOf (levels w) (productId req) < quantity req ->
  Js.truthy (lookedUp ctx (productId req) w) = true ->
  exists b,
    handle ctx (RemoveExit req) w
      = (InsufficientStock (StockLevel.quantityOf (levels w) (productId req))
           (quantity req),
         mkWorld (snd (StockLevel.getOrCreate (productId req) (now ctx)
                         (levels w)))
                 (movements w) b).
Proof.
  intros Hid Hlt Hp.
  unfold handle, asyncHandler, removeStockExit.
  unfold bind at 1.
  destruct (getProductInfo_lookedUp ctx (productId req) w) as (b & ->).
  rewrite Hp. cbn [negb].
  unfold bind at 1, onLevels. cbn [levels movements productsBreaker].
  destruct (getOrCreate_returns (productId req) (now ctx) (levels w) Hid)
    as (d & Hd & Hcur).
  destruct (StockLevel.getOrCreate (productId req) (now ctx) (levels w))
    as [res db'].
  simpl in Hd. subst res.
  destruct (Z.ltb_spec (StockLevel.currentQuantity d) (quantity req))
    as [_ | Hge]; [| lia].
  unfold ret. rewrite Hcur. eauto.
Qed.

(** The answer to a request whose lookup yields nothing. *)
Lemma addStockEntry_unresolved (ctx : Ctx) (req : Request) (w : World) :
  Js.truthy (lookedUp ctx (productId req) w) = false ->
  exists b,
    handle ctx (AddEntry req) w
      = (ProductNotFound, mkWorld (levels w) (movements w) b).
Proof.
  intros Hp. unfold handle, asyncHandler, addStockEntry.
  unfold bind at 1.
  destruct (getProductInfo_lookedUp ctx (productId req) w) as (b & ->).
  rewrite Hp. cbn [negb]. unfold ret. eauto.
Qed.

(** An exit whose lookup yields no product is answered "Product not
    found", and only the breaker has changed. *)
Lemma removeStockExit_unresolved (ctx : Ctx) (req : Request) (w : World) :
  Js.truthy (lookedUp ctx (productId req) w) = false ->
  exists b,
    handle ctx (RemoveExit req) w
      = (ProductNotFound, mkWorld (levels w) (movements w) b).
Proof.
  intros Hp. unfold handle, asyncHandler, removeStockExit.
  unfold bind at 1.
  destruct (getProductInfo_lookedUp ctx (productId req) w) as (b & ->).
  rewrite Hp. cbn [negb]. unfold ret. eauto.
Qed.

End ExitFacts.

(** When the lookup yields a product: an exit request for a non-empty
    item id whose quantity exceeds the quantity the item stands at is
    answered "Insufficient stock" with the available and the requested
    amount; no movement is appended and no item's quantity changes (a
    missing level record is at most created at zero). *)
Theorem removeStockExit_insufficient
    (ctx : StockController.Ctx) (req : StockController.Request)
    (w : StockController.World) :
  let pid := StockController.productId req in
  pid <> "" ->
  StockLevel.quantityOf (StockController.levels w) pid
    < StockController.quantity req ->
  Js.truthy (StockController.lookedUp ctx pid w) = true ->
  let r := StockController.handle ctx (StockController.RemoveExit req) w in
  fst r = StockController.InsufficientStock
            (StockLevel.quantityOf (StockController.levels w) pid)
            (StockController.quantity req)
  /\ StockController.movements (snd r) = StockController.movements w
  /\ (forall pid',
        StockLevel.quantityOf (StockController.levels (snd r)) pid'
          = StockLevel.quantityOf (StockController.levels w) pid').
Proof.
  intros pid Hid Hlt Hp r.
  destruct (removeStockExit_refused ctx req w Hid Hlt Hp) as [b E].
  subst r. rewrite E. cbn [fst snd StockController.levels StockController.movements].
  split; [reflexivity |]. split; [reflexivity |].
  apply getOrCreate_quantityOf.
Qed.

Lemma removeStockExit_insufficient_witness :
  let e := mkEnv None in
  let up : string -> CircuitBreaker.Call :=
    fun _ => CircuitBreaker.Responds
               (Js.JObj [("success", Js.JBool true);
                         ("data", Js.JObj [("name", Js.JStr "Widget")])]) in
  let rq q := StockController.mkRequest "X" q "sale" None "u1" in
  let w := snd (StockController.handle (StockController.mkCtx e 1000 up)
                  (StockController.AddEntry (rq 5))
                  (StockController.initialWorld e)) in
  let r := StockController.handle (StockController.mkCtx e 2000 up)
             (StockController.RemoveExit (rq 8)) w in
  fst r = StockController.InsufficientStock
            (StockLevel.quantityOf (StockController.levels w) "X") 8
  /\ StockController.movements (snd r) = StockController.movements w
  /\ (forall pid',
        StockLevel.quantityOf (StockController.levels (snd r)) pid'
          = StockLevel.quantityOf (StockController.levels w) pid').
Proof.
  intros e up rq w.
  apply (removeStockExit_insufficient (StockController.mkCtx e 2000 up) (rq 8) w).
  - discriminate.
  - vm_compute. reflexivity.
  - vm_compute. reflexivity.
Defined.

(** C2 fails on the code while the products service cannot be reached:
    when the lookup of an exit request fails, times out or is rejected by
    the open breaker, the breaker hands out the placeholder marked
    [_isFallback], on which the handler is meant to go on to the stock
    check; but [getProductInfo] turns the placeholder into [null], and an
    exit that exceeds the stock is answered "Product not found" instead
    of "Insufficient stock" with the available and the requested amount.
    Nothing is written. *)
Theorem removeStockExit_fallback_is_not_found
    (ctx : StockController.Ctx) (req : StockController.Request)
    (w : StockController.World) (e : Env) :
  let pid := StockController.productId req in
  let breaker := StockController.productsBreaker w in
  let s := StockLevel.quantityOf (StockController.levels w) pid in
  CircuitBreaker.fallbackFn breaker = Some (StockController.productsFallback e) ->
  CircuitBreaker.failing (StockController.productsService ctx pid) = true
    \/ CircuitBreaker.stateAt breaker (StockController.now ctx)
       = CircuitBreaker.OPEN ->
  s < StockController.quantity req ->
  let r := StockController.handle ctx (StockController.RemoveExit req) w in
  (exists err,
     fst (CircuitBreaker.execute breaker (StockController.now ctx)
            (StockController.productsService ctx pid))
       = Ok (StockController.productsFallback e err)
     /\ Js.truthy (Js.get (StockController.productsFallback e err) "_isFallback")
        = true)
  /\ fst r = StockController.ProductNotFound
  /\ fst r <> StockController.InsufficientStock s (StockController.quantity req)
  /\ StockController.dataOf (snd r) = StockController.dataOf w.
Proof.
  intros pid breaker s Hf Hc Hlt r. split.
  - destruct (execute_fallback breaker (StockController.now ctx)
                (StockController.productsService ctx pid) _ Hf Hc) as [err H].
    exists err. split; [exact H | reflexivity].
  - destruct (removeStockExit_unresolved ctx req w) as [b E].
    { fold pid. rewrite (lookedUp_fallback ctx pid w e Hf Hc). reflexivity. }
    subst r. rewrite E. split; [reflexivity |].
    split; [discriminate | reflexivity].
Qed.

Lemma removeStockExit_fallback_is_not_found_witness :
  let e := mkEnv None in
  let up : string -> CircuitBreaker.Call :=
    fun _ => CircuitBreaker.Responds
               (Js.JObj [("success", Js.JBool true);
                         ("data", Js.JObj [("name", Js.JStr "Widget")])]) in
  let gone : string -> CircuitBreaker.Call := fun _ => CircuitBreaker.Fails in
  let rq q := StockController.mkRequest "X" q "sale" None "u1" in
  let w := snd (StockController.handle (StockController.mkCtx e 1000 up)
                  (StockController.AddEntry (rq 5))
                  (StockController.initialWorld e)) in
  let ctx := StockController.mkCtx e 2000 gone in
  let s := StockLevel.quantityOf (StockController.levels w) "X" in
  let r := StockController.handle ctx (StockController.RemoveExit (rq 8)) w in
  (exists err,
     fst (CircuitBreaker.execute (StockController.productsBreaker w) 2000
            CircuitBreaker.Fails)
       = Ok (StockController.productsFallback e err)
     /\ Js.truthy (Js.get (StockController.productsFallback e err) "_isFallback")
        = true)
  /\ fst r = StockController.ProductNotFound
  /\ fst r <> StockController.InsufficientStock s 8
  /\ StockController.dataOf (snd r) = StockController.dataOf w.
Proof.
  intros e up gone rq w ctx.
  apply (removeStockExit_fallback_is_not_found ctx (rq 8) w e).
  - vm_compute. reflexivity.
  - left. reflexivity.
  - vm_compute. reflexivity.
Defined.

(** C5 fails on the code: when the lookup of an entry request fails, times
    out or is rejected by the open breaker, the breaker does hand out the
    placeholder marked [_isFallback], but [getProductInfo] turns it into
    [null], and the entry is answered "Product not found": no movement is
    appended, no level is touched, no warning is sent. *)
Theorem addStockEntry_fallback_is_not_found
    (ctx : StockController.Ctx) (req : StockController.Request)
    (w : StockController.World) (e : Env) :
  let pid := StockController.productId req in
  let breaker := StockController.productsBreaker w in
  CircuitBreaker.fallbackFn breaker = Some (StockController.productsFallback e) ->
  CircuitBreaker.failing (StockController.productsService ctx pid) = true
    \/ CircuitBreaker.stateAt breaker (StockController.now ctx)
       = CircuitBreaker.OPEN ->
  let r := StockController.handle ctx (StockController.AddEntry req) w in
  (exists err,
     fst (CircuitBreaker.execute breaker (StockController.now ctx)
            (StockController.productsService ctx pid))
       = Ok (StockController.productsFallback e err)
     /\ Js.truthy (Js.get (StockController.productsFallback e err) "_isFallback")
        = true)
  /\ fst r = StockController.ProductNotFound
  /\ StockController.dataOf (snd r) = StockController.dataOf w.
Proof.
  intros pid breaker Hf Hc r. split.
  - destruct (execute_fallback breaker (StockController.now ctx)
                (StockController.productsService ctx pid) _ Hf Hc) as [err H].
    exists err. split; [exact H | reflexivity].
  - destruct (addStockEntry_unresolved ctx req w) as [b E].
    { fold pid. rewrite (lookedUp_fallback ctx pid w e Hf Hc). reflexivity. }
    subst r. rewrite E. split; reflexivity.
Qed.

Lemma addStockEntry_fallback_is_not_found_witness :
  let e := mkEnv None in
  let down : string -> CircuitBreaker.Call := fun _ => CircuitBreaker.Fails in
  let req := StockController.mkRequest "X" 10 "restock" None "u1" in
  let w := StockController.initialWorld e in
  let r := StockController.handle (StockController.mkCtx e 1000 down)
             (StockController.AddEntry req) w in
  (exists err,
     fst (CircuitBreaker.execute (StockController.productsBreaker w) 1000
            CircuitBreaker.Fails)
       = Ok (StockController.productsFallback e err)
     /\ Js.truthy (Js.get (StockController.productsFallback e err) "_isFallback")
        = true)
  /\ fst r = StockController.ProductNotFound
  /\ StockController.dataOf (snd r) = StockController.dataOf w.
Proof.
  intros e down req w.
  apply (addStockEntry_fallback_is_not_found
           (StockController.mkCtx e 1000 down) req w e).
  - reflexivity.
  - left. reflexivity.
Defined.

(** C6 fails on the code: the alert batch has one line for every level at
    or below the threshold, whatever the lookups do, but no lookup is ever
    counted as unresolved: the warning with the count is never sent. *)
Theorem getLowStockAlerts_counts_no_failure
    (ctx : StockController.Ctx) (queryThreshold : option Z)
    (w : StockController.World) :
  let threshold :=
    Js.intOr queryThreshold
      (Js.intOr (DEFAULT_LOW_STOCK_THRESHOLD (StockController.env ctx)) 10) in
  let items := StockLevel.getLowStock threshold (StockController.levels w) in
  exists alerts w',
    StockController.handle ctx (StockController.GetAlerts queryThreshold) w
      = (StockController.Alerts (length items) threshold alerts None, w')
    /\ map StockController.a_productId alerts = map StockLevel.productId items
    /\ map StockController.a_currentQuantity alerts
       = map StockLevel.currentQuantity items
    /\ StockController.dataOf w' = StockController.dataOf w.
Proof.
  intros threshold items.
  unfold StockController.handle, StockController.asyncHandler,
    StockController.getLowStockAlerts, StockController.bind.
  fold threshold. fold items.
  destruct (alerts_settled ctx threshold items w) as (alerts & b & -> & Hp & Hq).
  rewrite fulfilled_map_Ok. unfold StockController.ret.
  rewrite length_map, Nat.sub_diag. cbn [Nat.ltb Nat.leb].
  exists alerts. eexists. split; [| split; [exact Hp | split; [exact Hq |]]].
  - f_equal. f_equal.
    rewrite <- (length_map StockController.a_productId), Hp, length_map.
    reflexivity.
  - reflexivity.
Qed.

(** The batch of C6 at its failing input: X stands at 6, below the
    threshold 10, and its lookup fails.  The line for X says "Unknown" and
    product available, and the answer carries no count. *)
Example lowStockAlerts_failed_lookup :
  let e := mkEnv None in
  let up : string -> CircuitBreaker.Call :=
    fun _ => CircuitBreaker.Responds
               (Js.JObj [("success", Js.JBool true);
                         ("data", Js.JObj [("name", Js.JStr "Widget")])]) in
  let down : string -> CircuitBreaker.Call := fun _ => CircuitBreaker.Fails in
  let w := snd (StockController.handle (StockController.mkCtx e 1000 up)
                  (StockController.AddEntry
                     (StockController.mkRequest "X" 6 "restock" None "u1"))
                  (StockController.initialWorld e)) in
  fst (StockController.handle (StockController.mkCtx e 2000 down)
         (StockController.GetAlerts None) w)
  = StockController.Alerts 1 10
      [StockController.mkAlert "X" (Js.JStr "Unknown") (Js.JStr "N/A") 6
         (Js.JNum 10) 1000 true]
      None.
Proof. vm_compute. reflexivity. Qed.


(** ** Further facts *)

Section FurtherFacts.
Import StockController.

(** The breaker object the controller holds is the one the registry makes
    for it when the module is the first to ask. *)
Lemma initialWorld_breaker (e : Env) :
  let loaded := loadProductsBreaker e emptyRegistry in
  deref (snd loaded) (fst loaded) = Some (productsBreaker (initialWorld e)).
Proof. reflexivity. Qed.

(** When no movement is stamped later than now, the movements the summary
    counts are those of the last 24 hours up to now. *)
Lemma recent_within_day (e : Env) (t : Z) (ls : StockLevel.Collection)
    (ms : StockMovement.Collection) :
  Forall (fun m => StockMovement.timestamp m <= t) ms ->
  recentMovementsCount (summarySpec e t ls ms)
    = length (filter (fun m => t - 86400000 <= StockMovement.timestamp m <= t) ms).
Proof.
  unfold summarySpec. cbn [recentMovementsCount].
  induction 1 as [| m ms Hm _ IH]; [reflexivity |].
  rewrite !filter_cons. repeat case_decide; simpl; try lia; congruence.
Qed.

(** The levels [getLowStock] returns are those at or below the threshold. *)
Lemma getLowStock_below (threshold : Z) (db : StockLevel.Collection) :
  Forall (fun d => StockLevel.currentQuantity d <= threshold)
         (StockLevel.getLowStock threshold db).
Proof.
  unfold StockLevel.getLowStock, StockLevel.sortByQuantity.
  induction (StockLevel.docs db) as [| d l IH]; simpl; [constructor |].
  destruct (Z.leb_spec (StockLevel.currentQuantity d) threshold) as [Hle | _];
    [| exact IH].
  simpl. revert IH.
  generalize (foldr StockLevel.insertByQuantity []
                (List.filter
                   (fun d0 => StockLevel.currentQuantity d0 <=? threshold) l)).
  intros sorted Hs. induction Hs as [| x rest Hx Hrest IHs]; simpl.
  - constructor; [assumption | constructor].
  - destruct (StockLevel.currentQuantity d <=? StockLevel.currentQuantity x).
    + constructor; [assumption |]. constructor; assumption.
    + constructor; assumption.
Qed.

End FurtherFacts.

(** ** Exits handled one after the other *)

Section SerialExitFacts.
Import StockController.

(** What an exit request does to a sane world, answer by answer. *)
Lemma removeStockExit_cases (ctx : Ctx) (req : Request) (w : World)
    (res : Response) (w' : World) :
  sane w ->
  handle ctx (RemoveExit req) w = (res, w') ->
  let pid := productId req in
  let s := StockLevel.quantityOf (levels w) pid in
  sane w'
  /\ (forall pid', pid' <> pid ->
        StockLevel.quantityOf (levels w') pid'
          = StockLevel.quantityOf (levels w) pid')
  /\ match res with
     | Recorded _ m cs _ =>
         1 <= quantity req <= s
         /\ cs = s - quantity req
         /\ StockLevel.quantityOf (levels w') pid = s - quantity req
     | InsufficientStock a q =>
         a = s /\ q = quantity req /\ s < quantity req
         /\ StockLevel.quantityOf (levels w') pid = s
     | ProductNotFound | Failed _ =>
         StockLevel.quantityOf (levels w') pid = s
     | _ => False
     end.
Proof.
  intros Hs Hh pid s.
  unfold handle, asyncHandler, removeStockExit in Hh.
  unfold bind at 1 in Hh. fold pid in Hh.
  destruct (getProductInfo_spec ctx pid w) as (product & b & Hgp).
  rewrite Hgp in Hh. clear Hgp.
  set (w1 := mkWorld (levels w) (movements w) b) in *.
  assert (Hs1 : sane w1) by (eapply sane_dataOf; [| exact Hs]; reflexivity).
  destruct (negb (Js.truthy product)).
  { unfold ret in Hh. injection Hh as <- <-.
    split; [exact Hs1 |]. split; reflexivity. }
  unfold bind at 1 in Hh.
  pose proof (getOrCreate_sane pid (now ctx) w1 Hs1) as Hg.
  pose proof (getOrCreate_quantityOf pid (now ctx) (levels w1)) as Hq.
  unfold onLevels in *.
  destruct (StockLevel.getOrCreate pid (now ctx) (levels w1)) as [[d | e] db].
  - cbn [fst snd levels movements productsBreaker] in *.
    destruct Hg as (Hs2 & Hd & _ & _ & Hcur & _).
    change (levels w1) with (levels w) in *.
    change (movements w1) with (movements w) in *.
    change (productsBreaker w1) with b in *.
    set (w2 := mkWorld db (movements w) b) in *.
    fold s in Hcur.
    destruct (Z.ltb_spec (StockLevel.currentQuantity d) (quantity req))
      as [Hlt | Hge].
    + unfold ret in Hh. injection Hh as <- <-. cbn [levels].
      split; [exact Hs2 |]. split; [intros pid' _; apply Hq |].
      rewrite Hq. fold s. repeat split; first [assumption | reflexivity | lia].
    + pose proof (record_sane pid StockMovement.EXIT (quantity req)
                    (reason req) (reference req) (userId req) (now ctx)
                    (- quantity req) d
                    (fun movement stockLevel' =>
                       Recorded "Stock exit recorded successfully" movement
                         (StockLevel.currentQuantity stockLevel')
                         (fallbackWarning product)) w2 Hs2 Hd eq_refl) as Hr.
      cbv zeta in Hr. specialize (Hr ltac:(lia)).
      destruct Hr as (Hs3 & _ & Hres).
      match type of Hh with
      | (let (r, w') := ?m w2 in _) = _ =>
          destruct (m w2) as [[res0 | e] w3] eqn:Em
      end; cbn [fst snd] in *; injection Hh as <- <-.
      * destruct Hres as (mv & -> & _ & Hl & _ & _ & _ & _ & H1).
        split; [exact Hs3 |]. rewrite Hl.
        split.
        { intros pid' Hne.
          rewrite (quantityOf_insert db
                     (StockLevel.mkDoc pid
                        (StockLevel.currentQuantity d + - quantity req)
                        (now ctx))).
          cbn [StockLevel.productId].
          destruct (decide (pid = pid')); [congruence | apply Hq]. }
        rewrite (quantityOf_insert db
                   (StockLevel.mkDoc pid
                      (StockLevel.currentQuantity d + - quantity req)
                      (now ctx))).
        cbn [StockLevel.productId StockLevel.currentQuantity].
        destruct (decide (pid = pid)); [| congruence].
        repeat split; lia.
      * split; [exact Hs3 |].
        unfold dataOf in Hres. injection Hres as Hl _. rewrite Hl.
        split; [intros pid' _; apply Hq | apply Hq].
  - cbn [fst snd levels movements productsBreaker] in *.
    injection Hh as <- <-.
    destruct Hg as [Hg _]. unfold dataOf in Hg. simpl in Hg.
    change (levels w1) with (levels w) in *.
    injection Hg as Hl. cbn [levels]. rewrite Hl.
    split; [eapply sane_dataOf; [| exact Hs1]; unfold dataOf; simpl; congruence |].
    split; reflexivity.
Qed.

Lemma sold_nonneg (out : list (Request * Response)) :
  Forall (fun rr => isRecorded rr.2 = true -> 0 <= quantity rr.1) out ->
  0 <= sold out.
Proof.
  induction 1 as [| [r res] out H _ IH]; simpl; [lia |].
  simpl in H. destruct (isRecorded res); [| exact IH]. specialize (H eq_refl). lia.
Qed.

(** X20: exits for one item, handled one after the other, with requests
    that carry safe integers and ASCII text and an item that stands at a
    safe integer (so that each subtraction of the code is exact): the
    level goes down by exactly what was recorded and stays non-negative;
    every recorded exit takes at least one unit; and none of the exits
    refused for insufficient stock would still fit on top of those
    recorded.  So the recorded exits, followed by the refused ones, are a
    serialization in which the successes are the longest prefix the
    starting stock covers. *)
Lemma serial_exits_fit (pid : string) (reqs : list (Ctx * Request)) (w : World) :
  sane w ->
  Forall (fun cr => productId cr.2 = pid) reqs ->
  forallb (fun cr : Ctx * Request => Exact.plain cr.2) reqs = true ->
  JsNumber.isSafeInteger (StockLevel.quantityOf (levels w) pid) = true ->
  let '(out, w') := serveExits reqs w in
  let s := StockLevel.quantityOf (levels w) pid in
  sane w'
  /\ StockLevel.quantityOf (levels w') pid = s - sold out
  /\ 0 <= StockLevel.quantityOf (levels w') pid
  /\ Forall (fun rr => isRecorded rr.2 = true -> 1 <= quantity rr.1) out
  /\ Forall (fun rr => isInsufficient rr.2 = true -> s < sold out + quantity rr.1) out.
Proof.
  intros Hs Hall _ _. revert w Hs.
  induction Hall as [| [ctx req] reqs Hp _ IH]; intros w Hs.
  - simpl. split; [exact Hs |]. split; [lia |].
    split; [apply Hs |]. split; constructor.
  - cbn [serveExits]. simpl in Hp.
    destruct (handle ctx (RemoveExit req) w) as [res w1] eqn:Eh.
    pose proof (removeStockExit_cases ctx req w res w1 Hs Eh) as Hc.
    cbv zeta in Hc. rewrite Hp in Hc.
    destruct Hc as (Hs1 & _ & Hres).
    specialize (IH w1 Hs1).
    destruct (serveExits reqs w1) as [out w2].
    destruct IH as (Hs2 & Hq & Hnn & Hrec & Hins).
    assert (Hsold : 0 <= sold out).
    { apply sold_nonneg. eapply Forall_impl; [exact Hrec |].
      intros rr H Hr. specialize (H Hr). lia. }
    split; [exact Hs2 |].
    cbn [sold foldr fst snd].
    fold (sold out).
    split; [| split; [exact Hnn | split]].
    + rewrite Hq. destruct res; cbn [isRecorded]; solve [contradiction | lia].
    + constructor; [| exact Hrec]. cbn [fst snd].
      destruct res; cbn [isRecorded]; solve [discriminate | intros _; lia].
    + constructor.
      * cbn [fst snd]. destruct res; cbn [isInsufficient isRecorded];
          solve [discriminate | intros _; lia].
      * eapply Forall_impl; [exact Hins |]. cbn beta.
        intros rr H Hi. specialize (H Hi).
        destruct res; cbn [isRecorded]; solve [contradiction | lia].
Qed.

End SerialExitFacts.

(** ** Overlapping handlers *)

Section InterleavedFacts.
Import StockController Interleaved.

(** A handler that is left alone goes through its steps and ends where
    the controller ends. *)
Lemma step_alone (c : Ctx) (k : StockMovement.MovementType) (r : Request)
    (w : World) :
  let t0 := mkTask c k r Start in
  let '(t1, w1) := step t0 w in
  let '(t2, w2) := step t1 w1 in
  let '(t3, w3) := step t2 w2 in
  let '(t4, w4) := step t3 w3 in
  let '(res, w') := handle c (opOf t0) w in
  (pc t4, w4) = (Done res, w').
Proof.
  unfold handle, asyncHandler, opOf. cbn [kind req].
  destruct k; unfold addStockEntry, removeStockExit.
  - unfold step at 1, advance. cbn [pc ctx req kind at_].
    unfold bind at 1.
    destruct (getProductInfo c (productId r) w) as [[product | e] w1];
      [| reflexivity].
    destruct (negb (Js.truthy product)); [reflexivity |].
    unfold step at 1, advance. cbn [pc ctx req kind at_].
    unfold bind at 1.
    destruct (onLevels _ w1) as [[d | e] w2]; [| reflexivity].
    unfold step at 1, advance. cbn [pc ctx req kind at_].
    unfold bind at 1.
    destruct (onMovements _ w2) as [[m | e] w3]; [| reflexivity].
    unfold step at 1, advance. cbn [pc ctx req kind at_].
    unfold bind.
    destruct (updateQuantity d (quantity r) (now c) w3) as [[d' | e] w4];
      reflexivity.
  - unfold step at 1, advance. cbn [pc ctx req kind at_].
    unfold bind at 1.
    destruct (getProductInfo c (productId r) w) as [[product | e] w1];
      [| reflexivity].
    destruct (negb (Js.truthy product)); [reflexivity |].
    unfold step at 1, advance. cbn [pc ctx req kind at_].
    unfold bind at 1.
    destruct (onLevels _ w1) as [[d | e] w2]; [| reflexivity].
    unfold step at 1, advance. cbn [pc ctx req kind at_].
    destruct (StockLevel.currentQuantity d <? quantity r); [reflexivity |].
    unfold bind at 1.
    destruct (onMovements _ w2) as [[m | e] w3]; [| reflexivity].
    unfold step at 1, advance. cbn [pc ctx req kind at_].
    unfold bind.
    destruct (updateQuantity d (- quantity r) (now c) w3) as [[d' | e] w4];
      reflexivity.
Qed.

Lemma nonNegative_levels (w w' : World) :
  levels w' = levels w -> nonNegative w -> nonNegative w'.
Proof. unfold nonNegative. intros ->. trivial. Qed.

(** [updateQuantity] never stores a negative quantity. *)
Lemma updateQuantity_nonNegative (d : StockLevel.Doc) (delta t : Z) (w : World) :
  nonNegative w -> nonNegative (snd (updateQuantity d delta t w)).
Proof.
  intros Hn. unfold updateQuantity, StockLevel.updateQuantity. simpl.
  destruct (Z.ltb_spec (StockLevel.currentQuantity d + delta) 0);
    [exact Hn |].
  destruct (save_cases
              (StockLevel.mkDoc (StockLevel.productId d)
                 (StockLevel.currentQuantity d + delta) t) (levels w))
    as [(-> & _ & Hq) | (e & ->)]; simpl; [| exact Hn].
  intros pid. simpl. simpl in Hq.
  rewrite (quantityOf_insert (levels w)
             (StockLevel.mkDoc (StockLevel.productId d)
                (StockLevel.currentQuantity d + delta) t)).
  simpl. destruct (decide (StockLevel.productId d = pid)); [lia | apply Hn].
Qed.

Lemma create_nonNegative pid ty qty rsn ref by_ t (w : World) :
  nonNegative w ->
  nonNegative
    (snd (onMovements (StockMovement.create pid ty qty rsn ref by_ t) w)).
Proof.
  intros Hn. unfold onMovements.
  destruct (StockMovement.create _ _ _ _ _ _ _ _) as [[m | e] db]; simpl;
    (eapply nonNegative_levels; [| exact Hn]); reflexivity.
Qed.

(** No step of any handler makes a stored quantity negative. *)
Lemma step_nonNegative (t : Task) (w : World) :
  nonNegative w -> nonNegative (snd (step t w)).
Proof.
  intros Hn. unfold step, advance. destruct (pc t) as [| p | p d | p d m | res].
  - destruct (getProductInfo_spec (ctx t) (productId (req t)) w)
      as (product & b & ->).
    simpl. eapply nonNegative_levels; [| exact Hn]. reflexivity.
  - unfold onLevels.
    pose proof (getOrCreate_quantityOf (productId (req t)) (now (ctx t))
                  (levels w)) as Hq.
    destruct (StockLevel.getOrCreate _ _ _) as [[d | e] db]; simpl in *;
      intros pid; simpl; rewrite Hq; apply Hn.
  - destruct (kind t).
    + pose proof (create_nonNegative (productId (req t)) StockMovement.ENTRY
                    (quantity (req t)) (reason (req t)) (reference (req t))
                    (userId (req t)) (now (ctx t)) w Hn) as H.
      destruct (onMovements _ w) as [[m | e] w']; exact H.
    + destruct (StockLevel.currentQuantity d <? quantity (req t)); [exact Hn |].
      pose proof (create_nonNegative (productId (req t)) StockMovement.EXIT
                    (quantity (req t)) (reason (req t)) (reference (req t))
                    (userId (req t)) (now (ctx t)) w Hn) as H.
      destruct (onMovements _ w) as [[m | e] w']; exact H.
  - destruct (kind t).
    + pose proof (updateQuantity_nonNegative d (quantity (req t))
                    (now (ctx t)) w Hn) as H.
      destruct (updateQuantity _ _ _ w) as [[d' | e] w']; exact H.
    + pose proof (updateQuantity_nonNegative d (- quantity (req t))
                    (now (ctx t)) w Hn) as H.
      destruct (updateQuantity _ _ _ w) as [[d' | e] w']; exact H.
  - exact Hn.
Qed.

(** X21: whatever the schedule of the overlapping entry and exit handlers,
    the stored quantities stay non-negative: [updateQuantity] throws
    before it saves a quantity below zero. *)
Lemma run_nonNegative (schedule : list nat) (s : System) :
  nonNegative (world s) -> nonNegative (world (run schedule s)).
Proof.
  revert s. induction schedule as [| i schedule IH]; intros s Hn; simpl;
    [exact Hn |].
  apply IH. unfold runTask. destruct (tasks s !! i) as [t |]; [| exact Hn].
  pose proof (step_nonNegative t (world s) Hn) as H.
  destruct (step t (world s)) as [t' w']. exact H.
Qed.

End InterleavedFacts.

(** C1 fails on the code when handlers overlap: two entry requests for X,
    of 10 and of 5, on an empty service.  Both handlers load the level
    (0) before either saves; both append their movement, and each saves
    its own copy: 10, then 5.  Both requests are answered as recorded,
    the ledger holds entries of 15 for X and no exit, and the level stands
    at 5.  Handled one after the other they leave 15. *)
Theorem overlapping_entries_lose_update :
  let e := mkEnv None in
  let up : string -> CircuitBreaker.Call :=
    fun _ => CircuitBreaker.Responds
               (Js.JObj [("success", Js.JBool true);
                         ("data", Js.JObj [("name", Js.JStr "Widget")])]) in
  let rq q by_ := StockController.mkRequest "X" q "restock" None by_ in
  let a := Interleaved.mkTask (StockController.mkCtx e 1000 up)
             StockMovement.ENTRY (rq 10 "u1") Interleaved.Start in
  let b := Interleaved.mkTask (StockController.mkCtx e 1001 up)
             StockMovement.ENTRY (rq 5 "u2") Interleaved.Start in
  let s0 := Interleaved.mkSystem (StockController.initialWorld e) [a; b] in
  let overlapped := Interleaved.run [0; 1; 0; 1; 0; 1; 0; 1]%nat s0 in
  let serial := Interleaved.run [0; 0; 0; 0; 1; 1; 1; 1]%nat s0 in
  map Interleaved.succeeded (Interleaved.tasks overlapped) = [true; true]
  /\ StockMovement.entries "X"
       (StockController.movements (Interleaved.world overlapped)) = 15
  /\ StockMovement.exits "X"
       (StockController.movements (Interleaved.world overlapped)) = 0
  /\ StockLevel.quantityOf
       (StockController.levels (Interleaved.world overlapped)) "X" = 5
  /\ StockLevel.quantityOf
       (StockController.levels (Interleaved.world serial)) "X" = 15.
Proof. vm_compute. repeat split; reflexivity. Qed.

(** C3 fails on the code: item X stands at 5 and two exit requests of 4
    each overlap.  Both handlers read the level before either writes, both
    pass the check, both append their movement and both save 5 - 4 = 1:
    two exits succeed although 4 + 4 > 5, and the level ends at 1 while the
    ledger nets 5 - 8 = -3.  Handled one after the other, the first
    succeeds and the second is refused with 1 available. *)
Theorem overlapping_exits_oversell :
  let e := mkEnv None in
  let up : string -> CircuitBreaker.Call :=
    fun _ => CircuitBreaker.Responds
               (Js.JObj [("success", Js.JBool true);
                         ("data", Js.JObj [("name", Js.JStr "Widget")])]) in
  let rq q by_ := StockController.mkRequest "X" q "sale" None by_ in
  let w := snd (StockController.handle (StockController.mkCtx e 1000 up)
                  (StockController.AddEntry (rq 5 "u0"))
                  (StockController.initialWorld e)) in
  let a := Interleaved.mkTask (StockController.mkCtx e 2000 up)
             StockMovement.EXIT (rq 4 "u1") Interleaved.Start in
  let b := Interleaved.mkTask (StockController.mkCtx e 2001 up)
             StockMovement.EXIT (rq 4 "u2") Interleaved.Start in
  let s0 := Interleaved.mkSystem w [a; b] in
  let overlapped := Interleaved.run [0; 1; 0; 1; 0; 1; 0; 1]%nat s0 in
  let serial := Interleaved.run [0; 0; 0; 0; 1; 1; 1; 1]%nat s0 in
  StockLevel.quantityOf (StockController.levels w) "X" = 5
  /\ map Interleaved.succeeded (Interleaved.tasks overlapped) = [true; true]
  /\ StockLevel.quantityOf
       (StockController.levels (Interleaved.world overlapped)) "X" = 1
  /\ StockMovement.net "X"
       (StockController.movements (Interleaved.world overlapped)) = -3
  /\ map Interleaved.result (Interleaved.tasks serial)
     = [Some (StockController.Recorded "Stock exit recorded successfully"
                (StockMovement.mkDoc "X" StockMovement.EXIT 4 "sale" None "u1" 2000)
                1 None);
        Some (StockController.InsufficientStock 1 4)].
Proof. vm_compute. repeat split; reflexivity. Qed.

(* ===================================================================== *)
(** * Further properties of the code *)
(* ===================================================================== *)

(** ** Sorted reads *)

Section SortFacts.

Lemma insertByQuantity_perm (d : StockLevel.Doc) (l : list StockLevel.Doc) :
  StockLevel.insertByQuantity d l ≡ₚ d :: l.
Proof.
  induction l as [| x l IH]; simpl; [reflexivity |].
  destruct (StockLevel.currentQuantity d <=? StockLevel.currentQuantity x);
    [reflexivity |].
  rewrite IH. apply Permutation_swap.
Qed.

Lemma sortByQuantity_perm (l : list StockLevel.Doc) :
  StockLevel.sortByQuantity l ≡ₚ l.
Proof.
  unfold StockLevel.sortByQuantity.
  induction l as [| x l IH]; simpl; [reflexivity |].
  rewrite insertByQuantity_perm, IH. reflexivity.
Qed.

Lemma insertByQuantity_sorted (d : StockLevel.Doc) (l : list StockLevel.Doc) :
  StronglySorted byQuantity l ->
  StronglySorted byQuantity (StockLevel.insertByQuantity d l).
Proof.
  induction 1 as [| x l Hs IH Hx]; simpl.
  - repeat constructor.
  - destruct (Z.leb_spec (StockLevel.currentQuantity d)
                (StockLevel.currentQuantity x)) as [Hle | Hgt].
    + constructor; [constructor; assumption |].
      constructor; [exact Hle |].
      eapply Forall_impl; [exact Hx |]. unfold byQuantity. intros y Hy. lia.
    + constructor; [exact IH |].
      rewrite insertByQuantity_perm. constructor; [| exact Hx].
      unfold byQuantity. lia.
Qed.

Lemma sortByQuantity_sorted (l : list StockLevel.Doc) :
  StronglySorted byQuantity (StockLevel.sortByQuantity l).
Proof.
  unfold StockLevel.sortByQuantity.
  induction l as [| x l IH]; simpl; [constructor |].
  apply insertByQuantity_sorted, IH.
Qed.

Lemma insertByTime_perm (d : StockMovement.Doc) (l : list StockMovement.Doc) :
  StockMovement.insertByTime d l ≡ₚ d :: l.
Proof.
  induction l as [| x l IH]; simpl; [reflexivity |].
  destruct (StockMovement.timestamp x <=? StockMovement.timestamp d);
    [reflexivity |].
  rewrite IH. apply Permutation_swap.
Qed.

Lemma sortByTime_perm (l : list StockMovement.Doc) : History.sortByTime l ≡ₚ l.
Proof.
  unfold History.sortByTime.
  induction l as [| x l IH]; simpl; [reflexivity |].
  rewrite insertByTime_perm, IH. reflexivity.
Qed.

Lemma insertByTime_sorted (d : StockMovement.Doc) (l : list StockMovement.Doc) :
  History.newestFirst l -> History.newestFirst (StockMovement.insertByTime d l).
Proof.
  unfold History.newestFirst.
  induction 1 as [| x l Hs IH Hx]; simpl.
  - repeat constructor.
  - destruct (Z.leb_spec (StockMovement.timestamp x)
                (StockMovement.timestamp d)) as [Hle | Hgt].
    + constructor; [constructor; assumption |].
      constructor; [exact Hle |].
      eapply Forall_impl; [exact Hx |]. cbn beta. intros y Hy. lia.
    + constructor; [exact IH |].
      rewrite insertByTime_perm. constructor; [lia | exact Hx].
Qed.

Lemma sortByTime_sorted (l : list StockMovement.Doc) :
  History.newestFirst (History.sortByTime l).
Proof.
  unfold History.sortByTime.
  induction l as [| x l IH]; simpl; [constructor |].
  apply insertByTime_sorted, IH.
Qed.

Lemma sortByTime_length (l : list StockMovement.Doc) :
  length (History.sortByTime l) = length l.
Proof. apply Permutation_length, sortByTime_perm. Qed.

(** The first [n] of a list sorted most recent first, followed by the
    others, are the whole list, still most recent first. *)
Lemma take_newest (n : nat) (l : list StockMovement.Doc) :
  exists older,
    (take n (History.sortByTime l) ++ older)%list ≡ₚ l
    /\ History.newestFirst (take n (History.sortByTime l) ++ older)%list
    /\ length (take n (History.sortByTime l)) = Nat.min n (length l).
Proof.
  exists (drop n (History.sortByTime l)).
  rewrite take_drop. split; [apply sortByTime_perm |].
  split; [apply sortByTime_sorted |].
  rewrite length_take, sortByTime_length. reflexivity.
Qed.

End SortFacts.

(** X1: [getLowStock] returns the level documents at or below the
    threshold, each stored document once, in ascending order of quantity:
    the result is sorted, it is a rearrangement of the documents that pass
    the filter, a document is in it exactly when it is stored and at or
    below the threshold, and there are as many as levels pass the filter. *)
Theorem getLowStock_sorted_complete
    (threshold : Z) (db : StockLevel.Collection) :
  StronglySorted byQuantity (StockLevel.getLowStock threshold db)
  /\ StockLevel.getLowStock threshold db
     ≡ₚ List.filter (fun d => StockLevel.currentQuantity d <=? threshold)
          (StockLevel.docs db)
  /\ (forall d,
        d ∈ StockLevel.getLowStock threshold db
        <-> (exists pid, db !! pid = Some d)
            /\ StockLevel.currentQuantity d <= threshold)
  /\ length (StockLevel.getLowStock threshold db)
     = size (filter (fun kv : string * StockLevel.Doc =>
                       StockLevel.currentQuantity kv.2 <= threshold) db).
Proof.
  unfold StockLevel.getLowStock.
  split; [apply sortByQuantity_sorted |].
  split; [apply sortByQuantity_perm |].
  split.
  - intros d. rewrite sortByQuantity_perm.
    rewrite list_elem_of_In, List.filter_In, <- list_elem_of_In.
    unfold StockLevel.docs. rewrite list_elem_of_fmap, Z.leb_le.
    split.
    + intros [([pid d'] & -> & Hin) Hle].
      apply elem_of_map_to_list in Hin. eauto.
    + intros [[pid Hpid] Hle]. split; [| exact Hle].
      exists (pid, d). split; [reflexivity |].
      apply elem_of_map_to_list, Hpid.
  - rewrite (Permutation_length (sortByQuantity_perm _)).
    transitivity
      (StockLevel.countDocuments
         (fun d => StockLevel.currentQuantity d <=? threshold) db);
      [reflexivity |].
    rewrite (countDocuments_size
               (fun d => StockLevel.currentQuantity d <= threshold))
      by (intros d; apply Z.leb_le).
    reflexivity.
Qed.

(** X2: for a limit other than 0, [getByProduct] returns the [limit] most
    recent movements of the product, most recent first: followed by the
    movements it leaves out, the result is a rearrangement of the
    product's movements in the ledger that is sorted by descending
    timestamp, and its length is the smaller of [limit] and the number of
    movements of the product. *)
Theorem getByProduct_most_recent
    (pid : string) (limit : nat) (db : StockMovement.Collection) :
  limit <> 0%nat ->
  let mine :=
    List.filter (fun d => String.eqb (StockMovement.productId d) pid) db in
  exists older,
    (StockMovement.getByProduct pid limit db ++ older)%list ≡ₚ mine
    /\ History.newestFirst (StockMovement.getByProduct pid limit db ++ older)%list
    /\ length (StockMovement.getByProduct pid limit db)
       = Nat.min limit (length mine).
Proof.
  intros Hl mine. unfold StockMovement.getByProduct.
  destruct limit as [| n]; [contradiction |].
  apply (take_newest (S n) mine).
Qed.

Lemma getByProduct_most_recent_witness :
  let m t q := StockMovement.mkDoc "X" StockMovement.ENTRY q "restock" None "u1" t in
  let other := StockMovement.mkDoc "Y" StockMovement.EXIT 1 "sale" None "u1" 25 in
  let db := [m 10 1; other; m 30 2; m 20 3] in
  exists older,
    (StockMovement.getByProduct "X" 2 db ++ older)%list ≡ₚ [m 10 1; m 30 2; m 20 3]
    /\ History.newestFirst (StockMovement.getByProduct "X" 2 db ++ older)%list
    /\ length (StockMovement.getByProduct "X" 2 db) = 2%nat.
Proof.
  intros m other db.
  apply (getByProduct_most_recent "X" 2 db). discriminate.
Defined.

(** X3: [getByType] returns the movements of one type, most recent first,
    cut after [limit] of them, or all of them for the limit 0, which a
    Mongo query takes as no limit. *)
Theorem getByType_most_recent
    (ty : StockMovement.MovementType) (limit : nat)
    (db : StockMovement.Collection) :
  let mine :=
    List.filter (fun d => match StockMovement.type d, ty with
                          | StockMovement.ENTRY, StockMovement.ENTRY
                          | StockMovement.EXIT, StockMovement.EXIT => true
                          | _, _ => false
                          end) db in
  exists older,
    (History.getByType ty limit db ++ older)%list ≡ₚ mine
    /\ History.newestFirst (History.getByType ty limit db ++ older)%list
    /\ length (History.getByType ty limit db)
       = (if decide (limit = 0%nat) then length mine
          else Nat.min limit (length mine))
    /\ (limit = 0%nat -> older = []).
Proof.
  intros mine. unfold History.getByType.
  assert (Hf : List.filter
                 (fun d => String.eqb (History.typeName (StockMovement.type d))
                             (History.typeName ty)) db = mine).
  { unfold mine. apply List.filter_ext. intros d.
    destruct (StockMovement.type d), ty; reflexivity. }
  rewrite Hf. destruct limit as [| n].
  - exists []. rewrite app_nil_r. cbn [History.limitDocs].
    split; [apply sortByTime_perm |].
    split; [apply sortByTime_sorted |].
    split; [apply sortByTime_length | reflexivity].
  - cbn [History.limitDocs].
    destruct (take_newest (S n) mine) as (older & Hp & Hs & Hl).
    exists older. repeat split; try assumption. discriminate.
Qed.

(** ** The two models, call by call *)

Section ModelFacts.

Lemma length_list_ascii (s : string) :
  length (list_ascii_of_string s) = String.length s.
Proof. induction s as [| c s IH]; simpl; congruence. Qed.

Lemma length_string_of_list (l : list ascii) :
  String.length (string_of_list_ascii l) = length l.
Proof. induction l as [| c l IH]; simpl; congruence. Qed.

Lemma trimStartL_length (l : list ascii) :
  (length (Js.trimStartL l) <= length l)%nat.
Proof.
  induction l as [| c l IH]; simpl; [lia |].
  destruct (Js.isSpace c); simpl; lia.
Qed.

(** Trimming never makes a string longer. *)
Lemma trim_length (s : string) :
  StockMovement.lengthZ (Js.trim s) <= StockMovement.lengthZ s.
Proof.
  unfold StockMovement.lengthZ, Js.trim.
  rewrite length_string_of_list, length_rev.
  pose proof (trimStartL_length (rev (Js.trimStartL (list_ascii_of_string s)))).
  pose proof (trimStartL_length (list_ascii_of_string s)).
  rewrite length_rev in *. rewrite length_list_ascii in *. lia.
Qed.

(** What the validators of a movement demand. *)
Lemma movement_validate_iff (d : StockMovement.Doc) :
  StockMovement.validate d = Ok tt
  <-> StockMovement.productId d <> ""
      /\ 1 <= StockMovement.quantity d
      /\ StockMovement.reason d <> ""
      /\ StockMovement.lengthZ (StockMovement.reason d) <= 200
      /\ StockMovement.lengthZ (default "" (StockMovement.reference d)) <= 100
      /\ StockMovement.performedBy d <> "".
Proof.
  unfold StockMovement.validate.
  destruct (String.eqb_spec (StockMovement.productId d) "");
    [split; [discriminate | tauto] |].
  destruct (Z.ltb_spec (StockMovement.quantity d) 1);
    [split; [discriminate | intros; lia] |].
  destruct (String.eqb_spec (StockMovement.reason d) "");
    [split; [discriminate | tauto] |].
  destruct (Z.ltb_spec 200 (StockMovement.lengthZ (StockMovement.reason d)));
    [split; [discriminate | intros; lia] |].
  destruct (Z.ltb_spec 100
              (StockMovement.lengthZ (default "" (StockMovement.reference d))));
    [split; [discriminate | intros; lia] |].
  destruct (String.eqb_spec (StockMovement.performedBy d) "");
    [split; [discriminate | tauto] |].
  split; [intros _ | reflexivity]. repeat split; first [assumption | lia].
Qed.

Lemma movement_validate_unit (d : StockMovement.Doc) (u : unit) :
  StockMovement.validate d = Ok u -> StockMovement.validate d = Ok tt.
Proof. destruct u. trivial. Qed.

(** A movement that passes the validators is appended. *)
Lemma create_cases_valid pid ty qty rsn ref by_ now (db : StockMovement.Collection) :
  pid <> "" -> 1 <= qty -> Js.trim rsn <> "" ->
  StockMovement.lengthZ (Js.trim rsn) <= 200 ->
  StockMovement.lengthZ (default "" (Js.trim <$> ref)) <= 100 ->
  by_ <> "" ->
  StockMovement.create pid ty qty rsn ref by_ now db
    = (Ok (StockMovement.mkDoc pid ty qty (Js.trim rsn) (Js.trim <$> ref) by_ now),
       (db ++ [StockMovement.mkDoc pid ty qty (Js.trim rsn) (Js.trim <$> ref)
                 by_ now])%list).
Proof.
  intros. unfold StockMovement.create.
  assert (E : StockMovement.validate
                (StockMovement.mkDoc pid ty qty (Js.trim rsn) (Js.trim <$> ref)
                   by_ now) = Ok tt)
    by (apply movement_validate_iff; simpl; tauto).
  rewrite E. reflexivity.
Qed.

End ModelFacts.

(** X4: [getOrCreate] is a get-or-create: when it returns, the document it
    returns is the one stored for the product, no other product's document
    has changed, an existing document comes back as it is with the
    collection untouched, a missing one is created at quantity 0, and
    asking again returns the same document and changes nothing.  It throws
    only for the empty product id with no document, and then the
    collection is unchanged. *)
Theorem getOrCreate_round_trip
    (pid : string) (now now' : Z) (db : StockLevel.Collection) :
  match StockLevel.getOrCreate pid now db with
  | (Ok d, db') =>
      db' !! pid = Some d
      /\ (forall pid', pid' <> pid -> db' !! pid' = db !! pid')
      /\ (db !! pid = None -> d = StockLevel.mkDoc pid 0 now)
      /\ (forall d0, db !! pid = Some d0 -> d = d0 /\ db' = db)
      /\ StockLevel.getOrCreate pid now' db' = (Ok d, db')
  | (Throw e, db') =>
      pid = "" /\ db !! pid = None /\ db' = db
      /\ e = ValidationError "productId" "Product ID is required"
  end.
Proof.
  unfold StockLevel.getOrCreate at 1.
  destruct (db !! pid) as [d0 |] eqn:E.
  - split; [exact E |]. split; [reflexivity |]. split; [discriminate |].
    split; [intros d1 [= <-]; auto |].
    unfold StockLevel.getOrCreate. rewrite E. reflexivity.
  - unfold StockLevel.save, StockLevel.validate. simpl.
    destruct (String.eqb_spec pid "") as [-> | Hne].
    + repeat split; assumption.
    + simpl. split; [apply lookup_insert_eq |].
      split; [intros pid' Hp; apply lookup_insert_ne; congruence |].
      split; [reflexivity |]. split; [discriminate |].
      unfold StockLevel.getOrCreate. rewrite lookup_insert_eq. reflexivity.
Qed.

(** X5: [updateQuantity] stores all or nothing.  For a quantity, a delta
    and a sum that are safe integers (where [+=] is exact): either it
    returns the document it has stored under the product id, with the
    quantity moved by [delta] to a non-negative value and [lastUpdated]
    set to now, or it throws and the collection is what it was; the first
    happens exactly when the new quantity is not negative and the product
    id not empty.  No other product's document is ever touched. *)
Theorem updateQuantity_all_or_nothing
    (this : StockLevel.Doc) (delta now : Z) (db : StockLevel.Collection) :
  JsNumber.isSafeInteger (StockLevel.currentQuantity this) = true ->
  JsNumber.isSafeInteger delta = true ->
  JsNumber.isSafeInteger (StockLevel.currentQuantity this + delta) = true ->
  let u := StockLevel.updateQuantity this delta now db in
  let d := StockLevel.mkDoc (StockLevel.productId this)
             (StockLevel.currentQuantity this + delta) now in
  ((0 <= StockLevel.currentQuantity this + delta
    /\ StockLevel.productId this <> "")
   /\ StockLevel.returned u = Ok d
   /\ StockLevel.this_after u = d
   /\ StockLevel.stored u = <[StockLevel.productId this := d]> db
   \/ ~ (0 <= StockLevel.currentQuantity this + delta
         /\ StockLevel.productId this <> "")
      /\ (exists e, StockLevel.returned u = Throw e)
      /\ StockLevel.stored u = db)
  /\ (forall pid, pid <> StockLevel.productId this ->
                  StockLevel.stored u !! pid = db !! pid).
Proof.
  intros _ _ _ u d. subst u.
  destruct (Z.le_gt_cases 0 (StockLevel.currentQuantity this + delta))
    as [Hge | Hlt].
  - destruct (String.eqb_spec (StockLevel.productId this) "") as [He | Hne].
    + unfold StockLevel.updateQuantity. simpl.
      destruct (Z.ltb_spec (StockLevel.currentQuantity this + delta) 0); [lia |].
      unfold StockLevel.save, StockLevel.validate. simpl.
      rewrite He. simpl. split; [| reflexivity].
      right. split; [tauto |]. split; [eauto | reflexivity].
    + rewrite (updateQuantity_saved this delta now db Hne Hge). simpl.
      split; [left; tauto |].
      intros pid Hp. apply lookup_insert_ne. congruence.
  - unfold StockLevel.updateQuantity. simpl.
    destruct (Z.ltb_spec (StockLevel.currentQuantity this + delta) 0); [| lia].
    simpl. split; [| reflexivity].
    right. split; [intros [? _]; lia |]. split; [eauto | reflexivity].
Qed.

Lemma updateQuantity_all_or_nothing_witness :
  let this := StockLevel.mkDoc "X" 5 100 in
  let db : StockLevel.Collection := {[ "X" := this ]} in
  let u := StockLevel.updateQuantity this (-3) 200 db in
  let d := StockLevel.mkDoc "X" (5 + -3) 200 in
  ((0 <= 5 + -3 /\ "X" <> "")
   /\ StockLevel.returned u = Ok d
   /\ StockLevel.this_after u = d
   /\ StockLevel.stored u = <["X" := d]> db
   \/ ~ (0 <= 5 + -3 /\ "X" <> "")
      /\ (exists e, StockLevel.returned u = Throw e)
      /\ StockLevel.stored u = db)
  /\ (forall pid, pid <> "X" -> StockLevel.stored u !! pid = db !! pid).
Proof.
  intros this db.
  apply (updateQuantity_all_or_nothing this (-3) 200 db); reflexivity.
Defined.

(** X6: [StockMovement.create] appends or refuses.  For a reason and a
    reference that are ASCII text: it appends exactly one movement, with
    the reason and reference trimmed and stamped now, to the end of the
    ledger (the movements already there stay as they are) exactly when
    the product id and the user are not empty, the quantity is at least
    1, the trimmed reason is not empty and at most 200 long and the
    trimmed reference at most 100 long; otherwise it throws a validation
    error and the ledger is unchanged. *)
Theorem create_appends_or_refuses
    (pid : string) (ty : StockMovement.MovementType) (qty : Z)
    (rsn : string) (ref : option string) (by_ : string) (now : Z)
    (db : StockMovement.Collection) :
  Exact.plainText rsn ref = true ->
  let m := StockMovement.mkDoc pid ty qty (Js.trim rsn) (Js.trim <$> ref)
             by_ now in
  let valid :=
    pid <> "" /\ 1 <= qty /\ Js.trim rsn <> ""
    /\ StockMovement.lengthZ (Js.trim rsn) <= 200
    /\ StockMovement.lengthZ (default "" (Js.trim <$> ref)) <= 100
    /\ by_ <> "" in
  (valid ->
   StockMovement.create pid ty qty rsn ref by_ now db = (Ok m, (db ++ [m])%list))
  /\ (~ valid ->
      exists path message,
        StockMovement.create pid ty qty rsn ref by_ now db
          = (Throw (ValidationError path message), db)).
Proof.
  intros _ m valid. unfold StockMovement.create. fold m.
  pose proof (movement_validate_iff m) as Hiff. simpl in Hiff. fold valid in Hiff.
  destruct (StockMovement.validate m) as [[] | e] eqn:E.
  - split; [reflexivity |]. intros Hn. exfalso. apply Hn, Hiff. reflexivity.
  - split.
    + intros Hv. apply Hiff in Hv. discriminate.
    + intros _. unfold StockMovement.validate in E.
      repeat match type of E with
             | (if ?c then _ else _) = _ => destruct c
             end; first [discriminate | injection E as <-; eauto].
Qed.

Lemma create_appends_or_refuses_witness :
  let m := StockMovement.mkDoc "X" StockMovement.EXIT 2 (Js.trim " sale ")
             (Js.trim <$> Some " INV-7 ") "u1" 1000 in
  let valid :=
    "X" <> "" /\ 1 <= 2 /\ Js.trim " sale " <> ""
    /\ StockMovement.lengthZ (Js.trim " sale ") <= 200
    /\ StockMovement.lengthZ (default "" (Js.trim <$> Some " INV-7 ")) <= 100
    /\ "u1" <> "" in
  (valid ->
   StockMovement.create "X" StockMovement.EXIT 2 " sale " (Some " INV-7 ")
     "u1" 1000 [] = (Ok m, ([] ++ [m])%list))
  /\ (~ valid ->
      exists path message,
        StockMovement.create "X" StockMovement.EXIT 2 " sale " (Some " INV-7 ")
          "u1" 1000 []
          = (Throw (ValidationError path message), [])).
Proof.
  apply (create_appends_or_refuses "X" StockMovement.EXIT 2 " sale "
           (Some " INV-7 ") "u1" 1000 []).
  reflexivity.
Defined.

(** X7: the request schema and the model disagree on blank reasons.  A
    request with an ASCII reason and reference that [stockEntrySchema]
    accepts, made by a user with a non-empty id, passes the validators of
    [StockMovement.create] exactly when its reason is not made of white
    space only: then the movement is appended, otherwise [create] throws
    "Reason is required" although the schema let the request through. *)
Theorem accepted_request_recorded_iff
    (req : StockController.Request) (ty : StockMovement.MovementType)
    (now : Z) (db : StockMovement.Collection) :
  StockValidation.stockEntrySchema req = true ->
  StockController.userId req <> "" ->
  Exact.plainText (StockController.reason req) (StockController.reference req)
    = true ->
  let created :=
    StockMovement.create (StockController.productId req) ty
      (StockController.quantity req) (StockController.reason req)
      (StockController.reference req) (StockController.userId req) now db in
  (Js.trim (StockController.reason req) <> "" ->
   exists m, created = (Ok m, (db ++ [m])%list))
  /\ (Js.trim (StockController.reason req) = "" ->
      created = (Throw (ValidationError "reason" "Reason is required"), db)).
Proof.
  intros Hs Hu _ created. unfold StockValidation.stockEntrySchema in Hs.
  repeat (apply andb_prop in Hs; destruct Hs as [Hs ?]).
  apply negb_true_iff in Hs.
  match goal with H : negb _ = true |- _ => apply negb_true_iff in H end.
  assert (Hpid : StockController.productId req <> "")
    by (intros E; rewrite E in Hs; discriminate).
  assert (Hq : 1 <= StockController.quantity req) by lia.
  assert (Hr : StockMovement.lengthZ (Js.trim (StockController.reason req)) <= 200).
  { pose proof (trim_length (StockController.reason req)). lia. }
  assert (Href : StockMovement.lengthZ
                   (default "" (Js.trim <$> StockController.reference req)) <= 100).
  { destruct (StockController.reference req) as [ref |]; simpl.
    - pose proof (trim_length ref). lia.
    - unfold StockMovement.lengthZ. simpl. lia. }
  subst created. split.
  - intros Ht. eexists.
    apply (create_cases_valid (StockController.productId req) ty
             (StockController.quantity req) (StockController.reason req)
             (StockController.reference req) (StockController.userId req) now db);
      assumption.
  - intros Ht. unfold StockMovement.create, StockMovement.validate. simpl.
    destruct (String.eqb_spec (StockController.productId req) "");
      [contradiction |].
    destruct (Z.ltb_spec (StockController.quantity req) 1); [lia |].
    rewrite Ht. reflexivity.
Qed.

Lemma accepted_request_recorded_iff_witness :
  let req := StockController.mkRequest "X" 3 "   " None "u1" in
  let created :=
    StockMovement.create "X" StockMovement.ENTRY 3 "   " None "u1" 1000 [] in
  (Js.trim "   " <> "" -> exists m, created = (Ok m, ([] ++ [m])%list))
  /\ (Js.trim "   " = "" ->
      created = (Throw (ValidationError "reason" "Reason is required"), [])).
Proof.
  intros req.
  apply (accepted_request_recorded_iff req StockMovement.ENTRY 1000 []).
  - reflexivity.
  - discriminate.
  - reflexivity.
Defined.

(** ** Entries and exits, all or nothing *)

Section RecordingFacts.
Import StockController.

(** After the lookup has yielded a product and the level is loaded, the
    movement is appended and the level saved, when the movement is valid
    and the new quantity not negative. *)
Lemma record_valid pid ty qty rsn ref by_ (t delta : Z) (d : StockLevel.Doc)
    (k : StockMovement.Doc -> StockLevel.Doc -> Response) (w : World) :
  StockLevel.productId d = pid ->
  StockMovement.validate
    (StockMovement.mkDoc pid ty qty (Js.trim rsn) (Js.trim <$> ref) by_ t) = Ok tt ->
  0 <= StockLevel.currentQuantity d + delta ->
  let m := StockMovement.mkDoc pid ty qty (Js.trim rsn) (Js.trim <$> ref) by_ t in
  let d' := StockLevel.mkDoc pid (StockLevel.currentQuantity d + delta) t in
  (movement <- onMovements (StockMovement.create pid ty qty rsn ref by_ t) ;;
   stockLevel' <- updateQuantity d delta t ;;
   ret (k movement stockLevel')) w
  = (Ok (k m d'),
     mkWorld (<[pid := d']> (levels w)) (movements w ++ [m])%list
             (productsBreaker w)).
Proof.
  intros Hpid Hv Hge m d'. unfold bind, onMovements, StockMovement.create.
  rewrite Hv. unfold updateQuantity.
  cbn [levels movements productsBreaker].
  assert (Hne : StockLevel.productId d <> "").
  { rewrite Hpid. apply movement_validate_iff in Hv. simpl in Hv. tauto. }
  rewrite (updateQuantity_saved d delta t (levels w) Hne Hge).
  rewrite Hpid. reflexivity.
Qed.

(** A movement that is not valid is not appended. *)
Lemma record_invalid pid ty qty rsn ref by_ (t delta : Z) (d : StockLevel.Doc)
    (k : StockMovement.Doc -> StockLevel.Doc -> Response) (w : World) (e : Error) :
  StockMovement.validate
    (StockMovement.mkDoc pid ty qty (Js.trim rsn) (Js.trim <$> ref) by_ t)
    = Throw e ->
  (movement <- onMovements (StockMovement.create pid ty qty rsn ref by_ t) ;;
   stockLevel' <- updateQuantity d delta t ;;
   ret (k movement stockLevel')) w
  = (Throw e, mkWorld (levels w) (movements w) (productsBreaker w)).
Proof.
  intros Hv. unfold bind, onMovements, StockMovement.create.
  rewrite Hv. reflexivity.
Qed.

(** Loading the level of a sane world for a non-empty id. *)
Lemma getOrCreate_loaded (pid : string) (t : Z) (w : World) :
  sane w -> pid <> "" ->
  exists d db,
    StockLevel.getOrCreate pid t (levels w) = (Ok d, db)
    /\ StockLevel.productId d = pid
    /\ StockLevel.currentQuantity d = StockLevel.quantityOf (levels w) pid
    /\ (forall d', <[pid := d']> db = <[pid := d']> (levels w))
    /\ (forall pid', StockLevel.quantityOf db pid'
                     = StockLevel.quantityOf (levels w) pid').
Proof.
  intros Hs Hne. pose proof Hs as [Hk _].
  pose proof (getOrCreate_sane pid t w Hs) as Hg.
  pose proof (getOrCreate_quantityOf pid t (levels w)) as Hq.
  unfold onLevels in Hg.
  destruct (StockLevel.getOrCreate pid t (levels w)) as [[d | e] db];
    [| destruct Hg as [_ ->]; contradiction].
  cbn [levels snd] in *.
  destruct Hg as ([Hk' _] & Hd & _ & _ & Hcur & Hnone & Hsome).
  exists d, db. split; [reflexivity |].
  split; [apply (Hk' pid d), Hd |].
  split; [exact Hcur |]. split; [| exact Hq].
  intros d'. destruct (levels w !! pid) as [d0 |] eqn:E.
  - rewrite Hsome by eauto. reflexivity.
  - destruct (Hnone eq_refl) as [_ ->]. apply insert_insert_eq.
Qed.

(** Loading the level never moves a quantity nor touches the ledger. *)
Lemma getOrCreate_harmless (pid : string) (t : Z) (w : World) :
  forall r w', onLevels (StockLevel.getOrCreate pid t) w = (r, w') ->
    movements w' = movements w
    /\ productsBreaker w' = productsBreaker w
    /\ (forall pid', StockLevel.quantityOf (levels w') pid'
                     = StockLevel.quantityOf (levels w) pid').
Proof.
  intros r w'. unfold onLevels.
  pose proof (getOrCreate_quantityOf pid t (levels w)) as Hq.
  destruct (StockLevel.getOrCreate pid t (levels w)) as [r0 db].
  intros [= <- <-]. simpl. auto.
Qed.

(** The document [getOrCreate] returns shows the quantity the item
    stands at. *)
Lemma getOrCreate_quantity (pid : string) (t : Z) (db db' : StockLevel.Collection)
    (d : StockLevel.Doc) :
  StockLevel.getOrCreate pid t db = (Ok d, db') ->
  StockLevel.currentQuantity d = StockLevel.quantityOf db pid.
Proof.
  unfold StockLevel.getOrCreate, StockLevel.quantityOf.
  destruct (db !! pid) as [d0 |]; [intros [= <- _]; reflexivity |].
  unfold StockLevel.save. destruct (StockLevel.validate _); [| discriminate].
  intros [= <- _]. reflexivity.
Qed.

(** An entry whose lookup yields a product and whose movement is valid
    is recorded. *)
Lemma addStockEntry_recorded (ctx : Ctx) (req : Request) (w : World) :
  sane w ->
  let pid := productId req in
  let s := StockLevel.quantityOf (levels w) pid in
  let m := StockMovement.mkDoc pid StockMovement.ENTRY (quantity req)
             (Js.trim (reason req)) (Js.trim <$> reference req) (userId req)
             (now ctx) in
  Js.truthy (lookedUp ctx pid w) = true ->
  StockMovement.validate m = Ok tt ->
  exists b,
    handle ctx (AddEntry req) w
      = (Recorded "Stock entry recorded successfully" m (s + quantity req)
           (fallbackWarning (lookedUp ctx pid w)),
         mkWorld (<[pid := StockLevel.mkDoc pid (s + quantity req) (now ctx)]>
                    (levels w))
                 (movements w ++ [m])%list b).
Proof.
  intros Hs pid s m Hp Hv.
  assert (Hpid : pid <> "" /\ 1 <= quantity req).
  { apply movement_validate_iff in Hv. simpl in Hv. tauto. }
  unfold handle, asyncHandler, addStockEntry.
  unfold bind at 1. fold pid.
  destruct (getProductInfo_lookedUp ctx pid w) as (b & ->).
  rewrite Hp. cbn [negb].
  unfold bind at 1, onLevels.
  cbn [levels movements productsBreaker].
  destruct (getOrCreate_loaded pid (now ctx) w Hs (proj1 Hpid))
    as (d & db & -> & Hd & Hcur & Hins & _).
  destruct Hs as [_ Hc]. destruct (Hc pid) as [_ Hnn]. fold s in Hnn, Hcur.
  rewrite (record_valid pid StockMovement.ENTRY (quantity req) (reason req)
             (reference req) (userId req) (now ctx) (quantity req) d
             (fun movement stockLevel' =>
                Recorded "Stock entry recorded successfully" movement
                  (StockLevel.currentQuantity stockLevel')
                  (fallbackWarning (lookedUp ctx pid w)))
             (mkWorld db (movements w) b) Hd Hv ltac:(lia)).
  cbn [levels movements productsBreaker StockLevel.currentQuantity].
  rewrite Hcur, Hins. eauto.
Qed.

(** An entry whose movement is not valid changes neither the ledger nor
    any quantity. *)
Lemma addStockEntry_refused (ctx : Ctx) (req : Request) (w : World) (e : Error) :
  let pid := productId req in
  Js.truthy (lookedUp ctx pid w) = true ->
  StockMovement.validate
    (StockMovement.mkDoc pid StockMovement.ENTRY (quantity req)
       (Js.trim (reason req)) (Js.trim <$> reference req) (userId req)
       (now ctx)) = Throw e ->
  exists e' w',
    handle ctx (AddEntry req) w = (Failed e', w')
    /\ movements w' = movements w
    /\ (forall pid', StockLevel.quantityOf (levels w') pid'
                     = StockLevel.quantityOf (levels w) pid').
Proof.
  intros pid Hp Hv.
  unfold handle, asyncHandler, addStockEntry.
  unfold bind at 1. fold pid.
  destruct (getProductInfo_lookedUp ctx pid w) as (b & ->).
  rewrite Hp. cbn [negb].
  unfold bind at 1.
  destruct (onLevels (StockLevel.getOrCreate pid (now ctx))
              (mkWorld (levels w) (movements w) b)) as [[d | e0] w1] eqn:Eg;
    destruct (getOrCreate_harmless pid (now ctx) _ _ _ Eg) as (Hm & _ & Hq);
    cbn [levels movements] in Hm, Hq.
  - rewrite (record_invalid pid StockMovement.ENTRY (quantity req) (reason req)
               (reference req) (userId req) (now ctx) (quantity req) d _ w1 e Hv).
    eexists _, _. split; [reflexivity |]. simpl. auto.
  - eexists _, _. split; [reflexivity |]. auto.
Qed.

(** An exit whose lookup yields a product, that the stock covers and whose
    movement is valid is recorded. *)
Lemma removeStockExit_recorded (ctx : Ctx) (req : Request) (w : World) :
  sane w ->
  let pid := productId req in
  let s := StockLevel.quantityOf (levels w) pid in
  let m := StockMovement.mkDoc pid StockMovement.EXIT (quantity req)
             (Js.trim (reason req)) (Js.trim <$> reference req) (userId req)
             (now ctx) in
  Js.truthy (lookedUp ctx pid w) = true ->
  quantity req <= s ->
  StockMovement.validate m = Ok tt ->
  exists b,
    handle ctx (RemoveExit req) w
      = (Recorded "Stock exit recorded successfully" m (s - quantity req)
           (fallbackWarning (lookedUp ctx pid w)),
         mkWorld (<[pid := StockLevel.mkDoc pid (s - quantity req) (now ctx)]>
                    (levels w))
                 (movements w ++ [m])%list b).
Proof.
  intros Hs pid s m Hp Hle Hv.
  assert (Hpid : pid <> "").
  { apply movement_validate_iff in Hv. simpl in Hv. tauto. }
  unfold handle, asyncHandler, removeStockExit.
  unfold bind at 1. fold pid.
  destruct (getProductInfo_lookedUp ctx pid w) as (b & ->).
  rewrite Hp. cbn [negb].
  unfold bind at 1, onLevels.
  cbn [levels movements productsBreaker].
  destruct (getOrCreate_loaded pid (now ctx) w Hs Hpid)
    as (d & db & -> & Hd & Hcur & Hins & _).
  fold s in Hcur.
  destruct (Z.ltb_spec (StockLevel.currentQuantity d) (quantity req)); [lia |].
  rewrite (record_valid pid StockMovement.EXIT (quantity req) (reason req)
             (reference req) (userId req) (now ctx) (- quantity req) d
             (fun movement stockLevel' =>
                Recorded "Stock exit recorded successfully" movement
                  (StockLevel.currentQuantity stockLevel')
                  (fallbackWarning (lookedUp ctx pid w)))
             (mkWorld db (movements w) b) Hd Hv ltac:(lia)).
  cbn [levels movements productsBreaker StockLevel.currentQuantity].
  rewrite Hcur, Hins. replace (s + - quantity req) with (s - quantity req) by lia.
  eauto.
Qed.

(** An exit that the stock does not cover, or whose movement is not
    valid, changes neither the ledger nor any quantity. *)
Lemma removeStockExit_not_recorded (ctx : Ctx) (req : Request) (w : World) :
  let pid := productId req in
  let s := StockLevel.quantityOf (levels w) pid in
  let m := StockMovement.mkDoc pid StockMovement.EXIT (quantity req)
             (Js.trim (reason req)) (Js.trim <$> reference req) (userId req)
             (now ctx) in
  Js.truthy (lookedUp ctx pid w) = true ->
  s < quantity req \/ StockMovement.validate m <> Ok tt ->
  exists res w',
    handle ctx (RemoveExit req) w = (res, w')
    /\ (res = InsufficientStock s (quantity req) \/ exists e, res = Failed e)
    /\ movements w' = movements w
    /\ (forall pid', StockLevel.quantityOf (levels w') pid'
                     = StockLevel.quantityOf (levels w) pid').
Proof.
  intros pid s m Hp Hc.
  unfold handle, asyncHandler, removeStockExit.
  unfold bind at 1. fold pid.
  destruct (getProductInfo_lookedUp ctx pid w) as (b & ->).
  rewrite Hp. cbn [negb].
  unfold bind at 1.
  destruct (onLevels (StockLevel.getOrCreate pid (now ctx))
              (mkWorld (levels w) (movements w) b)) as [[d | e0] w1] eqn:Eg;
    destruct (getOrCreate_harmless pid (now ctx) _ _ _ Eg) as (Hm & _ & Hq);
    cbn [levels movements] in Hm, Hq.
  - assert (Hcur : StockLevel.currentQuantity d = s).
    { unfold onLevels in Eg. cbn [levels] in Eg.
      destruct (StockLevel.getOrCreate pid (now ctx) (levels w)) as [r0 db] eqn:E0.
      injection Eg as -> _. apply (getOrCreate_quantity _ _ _ _ _ E0). }
    rewrite Hcur.
    destruct (Z.ltb_spec s (quantity req)) as [Hlt | Hge].
    + unfold ret. eexists _, _. split; [reflexivity |]. auto.
    + destruct Hc as [Hlt | Hnv]; [lia |].
      destruct (StockMovement.validate m) as [[] | e] eqn:Ev; [contradiction |].
      rewrite (record_invalid pid StockMovement.EXIT (quantity req) (reason req)
                 (reference req) (userId req) (now ctx) (- quantity req) d _ w1
                 e Ev).
      eexists _, _. split; [reflexivity |]. simpl. eauto.
  - eexists _, _. split; [reflexivity |]. eauto.
Qed.

End RecordingFacts.

(** X8: [addStockEntry] records all or nothing.  In a world whose levels
    sit under their own keys and agree with the ledger, an entry request
    handled on its own, with ASCII reason and reference and with the
    requested quantity, the item's quantity and their sum all safe
    integers, is recorded exactly when the product lookup yields a
    product and the movement passes the validators of the model: the
    answer is 201 with the movement and the new quantity, the movement
    (reason and reference trimmed, stamped now) is the last of the ledger
    and the item stands at its old quantity plus the requested one.
    Otherwise the answer is 404 or an error, the ledger is unchanged and
    no item's quantity moves. *)
Theorem addStockEntry_all_or_nothing
    (ctx : StockController.Ctx) (req : StockController.Request)
    (w : StockController.World) :
  StockController.sane w ->
  Exact.plain req = true ->
  let pid := StockController.productId req in
  let qty := StockController.quantity req in
  let s := StockLevel.quantityOf (StockController.levels w) pid in
  JsNumber.isSafeInteger s = true ->
  JsNumber.isSafeInteger (s + qty) = true ->
  let product := StockController.lookedUp ctx pid w in
  let m := StockMovement.mkDoc pid StockMovement.ENTRY qty
             (Js.trim (StockController.reason req))
             (Js.trim <$> StockController.reference req)
             (StockController.userId req) (StockController.now ctx) in
  let accepted := Js.truthy product = true /\ StockMovement.validate m = Ok tt in
  let r := StockController.handle ctx (StockController.AddEntry req) w in
  (accepted ->
   fst r = StockController.Recorded "Stock entry recorded successfully" m
             (s + qty) (StockController.fallbackWarning product)
   /\ StockController.movements (snd r)
        = (StockController.movements w ++ [m])%list
   /\ StockController.levels (snd r)
        = <[pid := StockLevel.mkDoc pid (s + qty) (StockController.now ctx)]>
            (StockController.levels w))
  /\ (~ accepted ->
      (fst r = StockController.ProductNotFound
       \/ exists e, fst r = StockController.Failed e)
      /\ StockController.movements (snd r) = StockController.movements w
      /\ forall pid',
           StockLevel.quantityOf (StockController.levels (snd r)) pid'
             = StockLevel.quantityOf (StockController.levels w) pid').
Proof.
  intros Hs _ pid qty s _ _ product m accepted r. subst r. split.
  - intros [Hp Hv].
    destruct (addStockEntry_recorded ctx req w Hs Hp Hv) as (b & ->).
    simpl. auto.
  - intros Hn.
    destruct (Js.truthy product) eqn:Hp.
    + destruct (StockMovement.validate m) as [[] | e] eqn:Hv.
      * exfalso. apply Hn. split; reflexivity.
      * destruct (addStockEntry_refused ctx req w e Hp Hv)
          as (e' & w' & -> & Hm & Hq).
        simpl. eauto.
    + destruct (addStockEntry_unresolved ctx req w Hp) as (b & ->).
      simpl. auto.
Qed.

Lemma addStockEntry_all_or_nothing_witness :
  let e := mkEnv None in
  let up : string -> CircuitBreaker.Call :=
    fun _ => CircuitBreaker.Responds
               (Js.JObj [("success", Js.JBool true);
                         ("data", Js.JObj [("name", Js.JStr "Widget")])]) in
  let ctx := StockController.mkCtx e 1000 up in
  let req := StockController.mkRequest "X" 7 " restock " (Some " PO-1 ") "u1" in
  let w := StockController.initialWorld e in
  let m := StockMovement.mkDoc "X" StockMovement.ENTRY 7 "restock"
             (Some "PO-1") "u1" 1000 in
  let r := StockController.handle ctx (StockController.AddEntry req) w in
  fst r = StockController.Recorded "Stock entry recorded successfully" m 7 None
  /\ StockController.movements (snd r) = [m]
  /\ StockController.levels (snd r) = {[ "X" := StockLevel.mkDoc "X" 7 1000 ]}.
Proof.
  intros e up ctx req w m r.
  destruct (addStockEntry_all_or_nothing ctx req w (initialWorld_sane e)
              eq_refl eq_refl eq_refl)
    as [H _].
  apply H. split; reflexivity.
Defined.

(** X9: [removeStockExit] records all or nothing.  In a world whose levels
    sit under their own keys and agree with the ledger, an exit request
    handled on its own, with ASCII reason and reference and with the
    requested quantity and the item's quantity safe integers, is recorded
    exactly when the product lookup yields a product, the requested
    quantity is at most the item's quantity and the movement passes the
    validators of the model: the answer is 201,
    the movement is the last of the ledger and the item stands at its old
    quantity minus the requested one.  Otherwise the answer is 404, 400
    "Insufficient stock" or an error, the ledger is unchanged and no
    item's quantity moves. *)
Theorem removeStockExit_all_or_nothing
    (ctx : StockController.Ctx) (req : StockController.Request)
    (w : StockController.World) :
  StockController.sane w ->
  Exact.plain req = true ->
  let pid := StockController.productId req in
  let qty := StockController.quantity req in
  let s := StockLevel.quantityOf (StockController.levels w) pid in
  JsNumber.isSafeInteger s = true ->
  let product := StockController.lookedUp ctx pid w in
  let m := StockMovement.mkDoc pid StockMovement.EXIT qty
             (Js.trim (StockController.reason req))
             (Js.trim <$> StockController.reference req)
             (StockController.userId req) (StockController.now ctx) in
  let accepted :=
    Js.truthy product = true /\ qty <= s
    /\ StockMovement.validate m = Ok tt in
  let r := StockController.handle ctx (StockController.RemoveExit req) w in
  (accepted ->
   fst r = StockController.Recorded "Stock exit recorded successfully" m
             (s - qty) (StockController.fallbackWarning product)
   /\ StockController.movements (snd r)
        = (StockController.movements w ++ [m])%list
   /\ StockController.levels (snd r)
        = <[pid := StockLevel.mkDoc pid (s - qty) (StockController.now ctx)]>
            (StockController.levels w))
  /\ (~ accepted ->
      (fst r = StockController.ProductNotFound
       \/ fst r = StockController.InsufficientStock s qty
       \/ exists e, fst r = StockController.Failed e)
      /\ StockController.movements (snd r) = StockController.movements w
      /\ forall pid',
           StockLevel.quantityOf (StockController.levels (snd r)) pid'
             = StockLevel.quantityOf (StockController.levels w) pid').
Proof.
  intros Hs _ pid qty s _ product m accepted r. subst r. split.
  - intros (Hp & Hle & Hv).
    destruct (removeStockExit_recorded ctx req w Hs Hp Hle Hv) as (b & ->).
    simpl. auto.
  - intros Hn.
    destruct (Js.truthy product) eqn:Hp.
    + assert (Hc : s < qty \/ StockMovement.validate m <> Ok tt).
      { destruct (Z_lt_le_dec s qty) as [Hlt | Hle]; [left; exact Hlt |].
        right. intros Hv. apply Hn.
        split; [first [reflexivity | assumption] | split; assumption]. }
      destruct (removeStockExit_not_recorded ctx req w Hp Hc)
        as (res & w' & -> & Hres & Hm & Hq).
      simpl. split; [tauto |]. auto.
    + destruct (removeStockExit_unresolved ctx req w Hp) as (b & ->).
      simpl. auto.
Qed.

Lemma removeStockExit_all_or_nothing_witness :
  let e := mkEnv None in
  let up : string -> CircuitBreaker.Call :=
    fun _ => CircuitBreaker.Responds
               (Js.JObj [("success", Js.JBool true);
                         ("data", Js.JObj [("name", Js.JStr "Widget")])]) in
  let rq q := StockController.mkRequest "X" q "sale" None "u1" in
  let w := snd (StockController.handle (StockController.mkCtx e 1000 up)
                  (StockController.AddEntry (rq 5))
                  (StockController.initialWorld e)) in
  let m := StockMovement.mkDoc "X" StockMovement.EXIT 3 "sale" None "u1" 2000 in
  let r := StockController.handle (StockController.mkCtx e 2000 up)
             (StockController.RemoveExit (rq 3)) w in
  fst r = StockController.Recorded "Stock exit recorded successfully" m 2 None
  /\ StockController.movements (snd r)
       = (StockController.movements w ++ [m])%list
  /\ StockController.levels (snd r)
       = <["X" := StockLevel.mkDoc "X" 2 2000]> (StockController.levels w).
Proof.
  intros e up rq w m r.
  destruct (removeStockExit_all_or_nothing (StockController.mkCtx e 2000 up)
              (rq 3) w
              (handle_sane (StockController.mkCtx e 1000 up)
                 (StockController.AddEntry (rq 5))
                 (StockController.initialWorld e) (initialWorld_sane e))
              eq_refl eq_refl)
    as [H _].
  apply H. vm_compute. repeat split; discriminate.
Defined.

(** ** The registry's statistics and the health route *)

Section StatsFacts.
Import CircuitBreaker StockRoutes.









End StatsFacts.



(** ** Paging *)

Section PagingFacts.
Import JsNumber.

(** [Math.ceil(a / b)] for a positive divisor is the least [n] with
    [a <= n * b]. *)
Lemma ceilDiv_pos (a b : Z) :
  1 <= b ->
  exists n, ceilDiv a b = Int n /\ (n - 1) * b < a <= n * b.
Proof.
  intros Hb. unfold ceilDiv.
  destruct (Z.eqb_spec b 0); [lia |].
  exists (- (- a / b)). split; [reflexivity |].
  pose proof (Z.mul_div_le (- a) b ltac:(lia)).
  pose proof (Z.mul_succ_div_gt (- a) b ltac:(lia)).
  nia.
Qed.

Lemma ltNum_ceilDiv (page a b : Z) :
  1 <= b -> ltNum page (ceilDiv a b) = true <-> page * b < a.
Proof.
  intros Hb. destruct (ceilDiv_pos a b Hb) as (n & -> & Hn). simpl.
  rewrite Z.ltb_lt. split; intros H; nia.
Qed.

Lemma limitDocs_pos {A} (n : nat) (l : list A) :
  n <> 0%nat -> History.limitDocs n l = take n l.
Proof. destruct n; [contradiction | reflexivity]. Qed.

(** One page of the history, for a positive limit and page. *)
Lemma getStockMovements_page (productId type : string) (page limit : Z)
    (db : StockMovement.Collection) :
  1 <= limit -> 1 <= page ->
  let found := History.sortByTime (List.filter (History.matches productId type) db) in
  History.getStockMovements productId type page limit db
    = History.Page
        {| History.movements :=
             take (Z.to_nat limit) (drop (Z.to_nat ((page - 1) * limit)) found);
           History.page := page;
           History.limit := limit;
           History.total := Z.of_nat (length found);
           History.pages := ceilDiv (Z.of_nat (length found)) limit |}.
Proof.
  intros Hl Hp found. unfold History.getStockMovements.
  destruct (Z.ltb_spec ((page - 1) * limit) 0); [nia |].
  rewrite limitDocs_pos by lia.
  unfold StockMovement.countDocuments.
  replace (Z.abs_nat limit) with (Z.to_nat limit) by lia.
  subst found. rewrite sortByTime_length. reflexivity.
Qed.

(** The first [n] pages, one after the other, are the first [n * limit]
    movements found. *)
Lemma firstPages_take (productId type : string) (limit : Z) (n : nat)
    (db : StockMovement.Collection) :
  1 <= limit ->
  History.firstPages productId type limit n db
    = take (n * Z.to_nat limit)
        (History.sortByTime (List.filter (History.matches productId type) db)).
Proof.
  intros Hl. unfold History.firstPages.
  induction n as [| n IH]; [reflexivity |].
  rewrite seq_S, map_app, concat_app, IH. simpl.
  rewrite (getStockMovements_page productId type (Z.of_nat (S n)) limit db Hl
             ltac:(lia)).
  cbn [History.shown History.movements]. rewrite app_nil_r.
  replace (Z.to_nat ((Z.of_nat (S n) - 1) * limit))
    with (n * Z.to_nat limit)%nat by nia.
  rewrite take_take_drop. f_equal. lia.
Qed.

(** A part of a list that is most recent first is most recent first. *)
Lemma newestFirst_sublist (l' l : list StockMovement.Doc) :
  l' `sublist_of` l -> History.newestFirst l -> History.newestFirst l'.
Proof.
  unfold History.newestFirst.
  induction 1 as [| x l1 l2 Hsub IH | x l1 l2 Hsub IH]; intros Hs.
  - constructor.
  - inversion Hs as [| ? ? Hs' Hx]; subst. constructor; [apply IH, Hs' |].
    apply Forall_forall. intros y Hy.
    rewrite Forall_forall in Hx. apply Hx.
    eapply elem_of_sublist; eassumption.
  - inversion Hs as [| ? ? Hs' Hx]; subst. apply IH, Hs'.
Qed.

(** The window of [parsePaginationParams]. *)
Lemma parsePaginationParams_bounds_aux (queryPage queryLimit : option Z) :
  let p := Pagination.parsePaginationParams queryPage queryLimit in
  1 <= Pagination.page p
  /\ 1 <= Pagination.limit p <= 100
  /\ Pagination.skip p = (Pagination.page p - 1) * Pagination.limit p.
Proof.
  unfold Pagination.parsePaginationParams.
  cbn [Pagination.page Pagination.limit Pagination.skip].
  unfold Pagination.MAX_LIMIT. split; [lia |]. split; [lia | reflexivity].
Qed.

End PagingFacts.

(** X12: [parsePaginationParams] yields a usable window.  Whatever the
    query holds for the limit, and for a page (missing, not a number,
    zero, negative or large) that times 100 is still a safe integer, so
    that the product of the code is exact: the page is at least 1, the
    limit is between 1 and 100, and the skip is [(page - 1) * limit],
    hence never negative; a page of at least 1 and a limit between 1 and
    100 are taken as given, and a missing, unreadable or zero value gives
    page 1 and limit 20. *)
Theorem parsePaginationParams_bounds (queryPage queryLimit : option Z) :
  (forall n, queryPage = Some n -> n * 100 <= JsNumber.MAX_SAFE_INTEGER) ->
  let p := Pagination.parsePaginationParams queryPage queryLimit in
  1 <= Pagination.page p
  /\ 1 <= Pagination.limit p <= 100
  /\ Pagination.skip p = (Pagination.page p - 1) * Pagination.limit p
  /\ 0 <= Pagination.skip p
  /\ (forall n, queryPage = Some n -> 1 <= n -> Pagination.page p = n)
  /\ (forall n, queryLimit = Some n -> 1 <= n <= 100 -> Pagination.limit p = n)
  /\ (queryPage = None \/ queryPage = Some 0 -> Pagination.page p = 1)
  /\ (queryLimit = None \/ queryLimit = Some 0 -> Pagination.limit p = 20).
Proof.
  intros _ p. subst p. unfold Pagination.parsePaginationParams.
  cbn [Pagination.page Pagination.limit Pagination.skip].
  unfold Pagination.DEFAULT_PAGE, Pagination.DEFAULT_LIMIT, Pagination.MAX_LIMIT.
  split; [lia |]. split; [lia |]. split; [reflexivity |]. split; [nia |].
  split; [| split; [| split]].
  - intros n -> Hn. simpl. destruct (Z.eqb_spec n 0); lia.
  - intros n -> Hn. simpl. destruct (Z.eqb_spec n 0); lia.
  - intros [-> | ->]; reflexivity.
  - intros [-> | ->]; reflexivity.
Qed.

Lemma parsePaginationParams_bounds_witness :
  let p := Pagination.parsePaginationParams (Some 3) (Some 500) in
  1 <= Pagination.page p
  /\ 1 <= Pagination.limit p <= 100
  /\ Pagination.skip p = (Pagination.page p - 1) * Pagination.limit p
  /\ 0 <= Pagination.skip p
  /\ (forall n, Some 3 = Some n -> 1 <= n -> Pagination.page p = n)
  /\ (forall n, Some 500 = Some n -> 1 <= n <= 100 -> Pagination.limit p = n)
  /\ (Some 3 = None \/ Some 3 = Some 0 -> Pagination.page p = 1)
  /\ (Some 500 = None \/ Some 500 = Some 0 -> Pagination.limit p = 20).
Proof.
  apply (parsePaginationParams_bounds (Some 3) (Some 500)).
  intros n [= <-]. vm_compute. discriminate.
Defined.

(** X13: the page flags of [createPaginationResponse] on a parsed query.
    For parameters that come from [parsePaginationParams] and any total,
    the data is passed through, [totalPages] is the least number of pages
    of [limit] items that hold [total] items, [hasNextPage] is set exactly
    when items remain after this page ([skip + limit < total]) and
    [hasPrevPage] exactly when items were skipped. *)
Theorem createPaginationResponse_flags {A : Type}
    (queryPage queryLimit : option Z) (data : A) (total : Z) :
  let p := Pagination.parsePaginationParams queryPage queryLimit in
  let r := Pagination.createPaginationResponse data total
             (Pagination.page p) (Pagination.limit p) in
  fst r = data
  /\ Pagination.p_total (snd r) = total
  /\ (exists n, Pagination.p_totalPages (snd r) = JsNumber.Int n
                /\ (n - 1) * Pagination.limit p < total <= n * Pagination.limit p)
  /\ (Pagination.p_hasNextPage (snd r) = true
      <-> Pagination.skip p + Pagination.limit p < total)
  /\ (Pagination.p_hasPrevPage (snd r) = true <-> 0 < Pagination.skip p).
Proof.
  intros p r.
  destruct (parsePaginationParams_bounds_aux queryPage queryLimit)
    as (Hp & Hl & Hs).
  fold p in Hp, Hl, Hs. subst r. unfold Pagination.createPaginationResponse.
  cbn [fst snd Pagination.p_total Pagination.p_totalPages
       Pagination.p_hasNextPage Pagination.p_hasPrevPage].
  split; [reflexivity |]. split; [reflexivity |].
  split; [apply ceilDiv_pos; lia |]. split.
  - rewrite ltNum_ceilDiv by lia. rewrite Hs. split; intros H; nia.
  - rewrite Z.ltb_lt, Hs. split; intros H; nia.
Qed.

(** X14: one page of [getStockMovements].  For a limit and a page of at
    least 1 the query succeeds; [total] counts the movements that match
    the filter (an empty [productId] or [type] does not filter), [pages]
    is the least number of pages that hold them, and the page shows
    [limit] movements, or what is left of them after the pages before:
    [min limit (total - (page - 1) * limit)], none beyond the last
    page. *)
Theorem getStockMovements_page_size
    (productId type : string) (page limit : Z)
    (db : StockMovement.Collection) :
  1 <= limit -> 1 <= page ->
  let matching := List.filter (History.matches productId type) db in
  exists res,
    History.getStockMovements productId type page limit db = History.Page res
    /\ History.page res = page /\ History.limit res = limit
    /\ History.total res = Z.of_nat (length matching)
    /\ (exists n, History.pages res = JsNumber.Int n
                  /\ (n - 1) * limit < History.total res <= n * limit)
    /\ Z.of_nat (length (History.movements res))
         = Z.max 0 (Z.min limit (History.total res - (page - 1) * limit))
    /\ Forall (fun m => History.matches productId type m = true)
              (History.movements res)
    /\ History.newestFirst (History.movements res).
Proof.
  intros Hl Hp matching.
  rewrite (getStockMovements_page productId type page limit db Hl Hp).
  eexists. split; [reflexivity |].
  cbn [History.page History.limit History.total History.pages History.movements].
  fold matching. rewrite sortByTime_length.
  split; [reflexivity |]. split; [reflexivity |]. split; [reflexivity |].
  split; [apply ceilDiv_pos; exact Hl |]. split; [| split].
  - rewrite length_take, length_drop, sortByTime_length. nia.
  - apply Forall_forall. intros m Hm.
    assert (Hin : m ∈ History.sortByTime matching).
    { eapply elem_of_sublist; [| apply sublist_drop].
      eapply elem_of_sublist; [exact Hm | apply sublist_take]. }
    rewrite (sortByTime_perm matching) in Hin. rename Hin into Hm'.
    clear Hm. rename Hm' into Hm.
    apply list_elem_of_In, filter_In in Hm. apply Hm.
  - eapply newestFirst_sublist; [apply sublist_take |].
    eapply newestFirst_sublist; [apply sublist_drop |].
    apply sortByTime_sorted.
Qed.

Lemma getStockMovements_page_size_witness :
  let m t := StockMovement.mkDoc "X" StockMovement.ENTRY 1 "restock" None "u1" t in
  let other := StockMovement.mkDoc "Y" StockMovement.EXIT 1 "sale" None "u1" 25 in
  let db := [m 10; other; m 30; m 20] in
  exists res,
    History.getStockMovements "X" "" 2 2 db = History.Page res
    /\ History.page res = 2 /\ History.limit res = 2
    /\ History.total res
         = Z.of_nat (length (List.filter (History.matches "X" "") db))
    /\ (exists n, History.pages res = JsNumber.Int n
                  /\ (n - 1) * 2 < History.total res <= n * 2)
    /\ Z.of_nat (length (History.movements res))
         = Z.max 0 (Z.min 2 (History.total res - (2 - 1) * 2))
    /\ Forall (fun m => History.matches "X" "" m = true) (History.movements res)
    /\ History.newestFirst (History.movements res).
Proof.
  intros m other db.
  apply (getStockMovements_page_size "X" "" 2 2 db); lia.
Defined.

(** X15: the pages of [getStockMovements] partition the history.  For a
    limit of at least 1, the pages 1 to [pages] shown one after the other
    are exactly the movements that match the filter, each once, most
    recent first. *)
Theorem getStockMovements_pages_partition
    (productId type : string) (limit : Z) (db : StockMovement.Collection) :
  1 <= limit ->
  let matching := List.filter (History.matches productId type) db in
  exists n : nat,
    JsNumber.ceilDiv (Z.of_nat (length matching)) limit
      = JsNumber.Int (Z.of_nat n)
    /\ History.firstPages productId type limit n db ≡ₚ matching
    /\ History.newestFirst (History.firstPages productId type limit n db).
Proof.
  intros Hl matching.
  destruct (ceilDiv_pos (Z.of_nat (length matching)) limit Hl) as (n & Hn & Hb).
  exists (Z.to_nat n).
  assert (0 <= n) by nia.
  rewrite Z2Nat.id by assumption. split; [exact Hn |].
  rewrite (firstPages_take productId type limit (Z.to_nat n) db Hl).
  fold matching. rewrite take_ge.
  - split; [apply sortByTime_perm | apply sortByTime_sorted].
  - rewrite sortByTime_length. nia.
Qed.

Lemma getStockMovements_pages_partition_witness :
  let m t := StockMovement.mkDoc "X" StockMovement.ENTRY 1 "restock" None "u1" t in
  let other := StockMovement.mkDoc "Y" StockMovement.EXIT 1 "sale" None "u1" 25 in
  let db := [m 10; other; m 30; m 20] in
  exists n : nat,
    JsNumber.ceilDiv
      (Z.of_nat (length (List.filter (History.matches "X" "") db))) 2
      = JsNumber.Int (Z.of_nat n)
    /\ History.firstPages "X" "" 2 n db
         ≡ₚ List.filter (History.matches "X" "") db
    /\ History.newestFirst (History.firstPages "X" "" 2 n db).
Proof.
  intros m other db.
  apply (getStockMovements_pages_partition "X" "" 2 db). lia.
Defined.

(** ** The service while the products service is down *)

Section DegradedFacts.
Import Js StockController Degraded.

Lemma keepsBreaker_ret {A} (a : A) : keepsBreaker (ret a).
Proof. intros w. reflexivity. Qed.

Lemma keepsBreaker_bind {A B} (m : M A) (k : A -> M B) :
  keepsBreaker m -> (forall a, keepsBreaker (k a)) -> keepsBreaker (bind m k).
Proof.
  intros Hm Hk w. unfold bind. specialize (Hm w).
  destruct (m w) as [[a | e] w1]; cbn [snd] in *; [| exact Hm].
  rewrite (Hk a w1). exact Hm.
Qed.

Lemma keepsBreaker_onLevels {A}
    (f : StockLevel.Collection -> Result A * StockLevel.Collection) :
  keepsBreaker (onLevels f).
Proof. intros w. unfold onLevels. destruct (f (levels w)). reflexivity. Qed.

Lemma keepsBreaker_onMovements {A}
    (f : StockMovement.Collection -> Result A * StockMovement.Collection) :
  keepsBreaker (onMovements f).
Proof. intros w. unfold onMovements. destruct (f (movements w)). reflexivity. Qed.

Lemma keepsBreaker_updateQuantity (d : StockLevel.Doc) (delta t : Z) :
  keepsBreaker (updateQuantity d delta t).
Proof. intros w. reflexivity. Qed.

(** [getProductInfo] resolves, and touches nothing but the state of the
    breaker. *)
Lemma getProductInfo_breaker (ctx : Ctx) (pid : string) (w : World) :
  exists b,
    getProductInfo ctx pid w
      = (Ok (lookedUp ctx pid w), mkWorld (levels w) (movements w) b)
    /\ config b = config (productsBreaker w).
Proof.
  unfold lookedUp, getProductInfo.
  pose proof (fire_config (productsBreaker w) (now ctx) (productsService ctx pid))
    as Hc.
  unfold execute.
  destruct (fire (productsBreaker w) (now ctx) (productsService ctx pid))
    as [[data | err] b]; cbn [snd] in Hc; exists b; split;
    first [reflexivity | exact Hc].
Qed.

Lemma keepsBreaker_getProductInfo (ctx : Ctx) (pid : string) :
  keepsBreaker (getProductInfo ctx pid).
Proof.
  intros w. destruct (getProductInfo_breaker ctx pid w) as (b & -> & Hc).
  exact Hc.
Qed.

Lemma keepsBreaker_allSettled {A} (ms : list (M A)) :
  Forall keepsBreaker ms -> keepsBreaker (allSettled ms).
Proof.
  induction 1 as [| m ms Hm _ IH]; intros w; [reflexivity |].
  cbn [allSettled]. specialize (Hm w).
  destruct (m w) as [r w1]. cbn [snd] in Hm.
  specialize (IH w1).
  destruct (allSettled ms w1) as [[rs | e] w2]; cbn [snd] in *;
    rewrite IH; exact Hm.
Qed.

Lemma keepsBreaker_alertFor (ctx : Ctx) (threshold : Z) (item : StockLevel.Doc) :
  keepsBreaker (alertFor ctx threshold item).
Proof.
  unfold alertFor. apply keepsBreaker_bind.
  - apply keepsBreaker_getProductInfo.
  - intros product. apply keepsBreaker_ret.
Qed.

(** No handler reconfigures the products breaker. *)
Lemma handle_breaker_config (ctx : Ctx) (op : Op) (w : World) :
  config (productsBreaker (snd (handle ctx op w))) = config (productsBreaker w).
Proof.
  assert (Hk : keepsBreaker
                 match op with
                 | AddEntry req => addStockEntry ctx req
                 | RemoveExit req => removeStockExit ctx req
                 | GetLevel id => getProductStockLevel ctx id
                 | GetAlerts q => getLowStockAlerts ctx q
                 | GetSummary => getStockSummary ctx
                 end).
  { destruct op as [req | req | id | q |].
    - unfold addStockEntry. apply keepsBreaker_bind;
        [apply keepsBreaker_getProductInfo |].
      intros product. destruct (negb (truthy product)); [apply keepsBreaker_ret |].
      apply keepsBreaker_bind; [apply keepsBreaker_onLevels | intros d].
      apply keepsBreaker_bind; [apply keepsBreaker_onMovements | intros m].
      apply keepsBreaker_bind; [apply keepsBreaker_updateQuantity | intros d'].
      apply keepsBreaker_ret.
    - unfold removeStockExit. apply keepsBreaker_bind;
        [apply keepsBreaker_getProductInfo |].
      intros product. destruct (negb (truthy product)); [apply keepsBreaker_ret |].
      apply keepsBreaker_bind; [apply keepsBreaker_onLevels | intros d].
      destruct (StockLevel.currentQuantity d <? quantity req);
        [apply keepsBreaker_ret |].
      apply keepsBreaker_bind; [apply keepsBreaker_onMovements | intros m].
      apply keepsBreaker_bind; [apply keepsBreaker_updateQuantity | intros d'].
      apply keepsBreaker_ret.
    - unfold getProductStockLevel. apply keepsBreaker_bind;
        [apply keepsBreaker_onLevels | intros d].
      intros w0. reflexivity.
    - intros w0. unfold getLowStockAlerts.
      apply (keepsBreaker_bind
               (allSettled
                  (map (alertFor ctx _) (StockLevel.getLowStock _ (levels w0))))).
      + apply keepsBreaker_allSettled, Forall_forall.
        intros m Hm. apply list_elem_of_In, in_map_iff in Hm as (item & <- & _).
        apply keepsBreaker_alertFor.
      + intros settled. apply keepsBreaker_ret.
    - intros w0. reflexivity. }
  unfold handle, asyncHandler. specialize (Hk w).
  destruct (_ w) as [[res | e] w']; exact Hk.
Qed.

Lemma serve_breaker_config (ops : list (Ctx * Op)) (w : World) :
  config (productsBreaker (serve ops w)) = config (productsBreaker w).
Proof.
  revert w. induction ops as [| [ctx op] ops IH]; intros w; [reflexivity |].
  cbn [serve]. rewrite IH. apply handle_breaker_config.
Qed.

(** The service keeps the fallback it was loaded with. *)
Lemma serve_fallback (e : Env) (ops : list (Ctx * Op)) :
  fallbackFn (productsBreaker (serve ops (initialWorld e)))
    = Some (productsFallback e).
Proof.
  pose proof (serve_breaker_config ops (initialWorld e)) as H.
  unfold config in H. injection H as _ H. exact H.
Qed.

(** While every lookup fails, the alert batch is made of unresolved
    lines. *)
Lemma alerts_unresolved (ctx : Ctx) (threshold : Z) (e : Env)
    (items : list StockLevel.Doc) (w : World) :
  fallbackFn (productsBreaker w) = Some (productsFallback e) ->
  (forall pid, failing (productsService ctx pid) = true) ->
  exists b,
    allSettled (map (alertFor ctx threshold) items) w
      = (Ok (map (fun item => Ok (unresolvedAlert threshold item)) items),
         mkWorld (levels w) (movements w) b).
Proof.
  intros Hf Hall. revert w Hf.
  induction items as [| item items IH]; intros w Hf.
  - exists (productsBreaker w). destruct w. reflexivity.
  - cbn [map allSettled]. unfold alertFor at 1. unfold bind.
    destruct (getProductInfo_breaker ctx (StockLevel.productId item) w)
      as (b & -> & Hc).
    rewrite (lookedUp_fallback ctx (StockLevel.productId item) w e Hf
               (or_introl (Hall _))).
    unfold ret.
    destruct (IH (mkWorld (levels w) (movements w) b)) as (b' & ->).
    { cbn [productsBreaker]. unfold config in Hc. injection Hc as _ Hc.
      rewrite Hc. exact Hf. }
    exists b'. reflexivity.
Qed.

End DegradedFacts.

(** X16: while the products service is down, no stock moves.  In every
    state the service reaches from its start by handling requests, an
    entry or exit request whose product lookup fails, times out or is
    rejected by the open breaker is answered 404 "Product not found",
    and neither the ledger nor any level is changed: the fallback the
    breaker was given does not let the operation proceed. *)
Theorem degraded_requests_not_found
    (e : Env) (ops : list (StockController.Ctx * StockController.Op))
    (ctx : StockController.Ctx) (req : StockController.Request) :
  let w := StockController.serve ops (StockController.initialWorld e) in
  let pid := StockController.productId req in
  CircuitBreaker.failing (StockController.productsService ctx pid) = true
    \/ CircuitBreaker.stateAt (StockController.productsBreaker w)
         (StockController.now ctx) = CircuitBreaker.OPEN ->
  let entry := StockController.handle ctx (StockController.AddEntry req) w in
  let exit := StockController.handle ctx (StockController.RemoveExit req) w in
  fst entry = StockController.ProductNotFound
  /\ StockController.dataOf (snd entry) = StockController.dataOf w
  /\ fst exit = StockController.ProductNotFound
  /\ StockController.dataOf (snd exit) = StockController.dataOf w.
Proof.
  intros w pid Hc entry exit.
  assert (Hp : Js.truthy (StockController.lookedUp ctx pid w) = false).
  { rewrite (lookedUp_fallback ctx pid w e (serve_fallback e ops) Hc).
    reflexivity. }
  destruct (addStockEntry_unresolved ctx req w Hp) as (b & Hentry).
  destruct (removeStockExit_unresolved ctx req w Hp) as (b' & Hexit).
  subst entry exit. rewrite Hentry, Hexit. repeat split.
Qed.

Lemma degraded_requests_not_found_witness :
  let e := mkEnv None in
  let up : string -> CircuitBreaker.Call :=
    fun _ => CircuitBreaker.Responds
               (Js.JObj [("success", Js.JBool true);
                         ("data", Js.JObj [("name", Js.JStr "Widget")])]) in
  let down : string -> CircuitBreaker.Call := fun _ => CircuitBreaker.TimesOut in
  let rq q := StockController.mkRequest "X" q "restock" None "u1" in
  let ops := [(StockController.mkCtx e 1000 up, StockController.AddEntry (rq 5))] in
  let w := StockController.serve ops (StockController.initialWorld e) in
  let ctx := StockController.mkCtx e 2000 down in
  let entry := StockController.handle ctx (StockController.AddEntry (rq 3)) w in
  let exit := StockController.handle ctx (StockController.RemoveExit (rq 3)) w in
  fst entry = StockController.ProductNotFound
  /\ StockController.dataOf (snd entry) = StockController.dataOf w
  /\ fst exit = StockController.ProductNotFound
  /\ StockController.dataOf (snd exit) = StockController.dataOf w.
Proof.
  intros e up down rq ops w ctx.
  apply (degraded_requests_not_found e ops ctx (rq 3)).
  left. reflexivity.
Defined.

(** X17: the alert batch while the products service is down.  In every
    state the service reaches from its start, when every lookup fails or
    times out, [getLowStockAlerts] answers with one line for each level at
    or below the threshold, in ascending order of quantity, and every
    line reads name "Unknown", sku "N/A", the threshold of the request and
    [productAvailable: true]; there is no warning, and the collections are
    unchanged.  The name and the threshold of the fallback object and its
    [_isFallback] mark never show. *)
Theorem getLowStockAlerts_unavailable
    (e : Env) (ops : list (StockController.Ctx * StockController.Op))
    (ctx : StockController.Ctx) (queryThreshold : option Z) :
  let w := StockController.serve ops (StockController.initialWorld e) in
  (forall pid,
     CircuitBreaker.failing (StockController.productsService ctx pid) = true) ->
  let threshold :=
    Js.intOr queryThreshold
      (Js.intOr (DEFAULT_LOW_STOCK_THRESHOLD (StockController.env ctx)) 10) in
  let items := StockLevel.getLowStock threshold (StockController.levels w) in
  let r := StockController.handle ctx (StockController.GetAlerts queryThreshold) w in
  fst r = StockController.Alerts (length items) threshold
            (map (Degraded.unresolvedAlert threshold) items) None
  /\ StockController.dataOf (snd r) = StockController.dataOf w.
Proof.
  intros w Hall threshold items r. subst r.
  unfold StockController.handle, StockController.asyncHandler,
    StockController.getLowStockAlerts, StockController.bind.
  fold threshold. fold items.
  destruct (alerts_unresolved ctx threshold e items w (serve_fallback e ops) Hall)
    as (b & ->).
  change (map (fun item => Ok (Degraded.unresolvedAlert threshold item)) items)
    with (map (fun item => @Ok StockController.Alert
                             (Degraded.unresolvedAlert threshold item)) items).
  rewrite <- (map_map (Degraded.unresolvedAlert threshold) Ok items).
  rewrite fulfilled_map_Ok. unfold StockController.ret.
  rewrite !length_map, Nat.sub_diag. cbn [Nat.ltb Nat.leb fst snd].
  split; reflexivity.
Qed.

Lemma getLowStockAlerts_unavailable_witness :
  let e := mkEnv None in
  let up : string -> CircuitBreaker.Call :=
    fun _ => CircuitBreaker.Responds
               (Js.JObj [("success", Js.JBool true);
                         ("data", Js.JObj [("name", Js.JStr "Widget")])]) in
  let down : string -> CircuitBreaker.Call := fun _ => CircuitBreaker.Fails in
  let rq q := StockController.mkRequest "X" q "restock" None "u1" in
  let ops := [(StockController.mkCtx e 1000 up, StockController.AddEntry (rq 6))] in
  let w := StockController.serve ops (StockController.initialWorld e) in
  let ctx := StockController.mkCtx e 2000 down in
  let items := StockLevel.getLowStock 10 (StockController.levels w) in
  let r := StockController.handle ctx (StockController.GetAlerts None) w in
  fst r = StockController.Alerts (length items) 10
            (map (Degraded.unresolvedAlert 10) items) None
  /\ StockController.dataOf (snd r) = StockController.dataOf w.
Proof.
  intros e up down rq ops w ctx.
  apply (getLowStockAlerts_unavailable e ops ctx None).
  intros pid. reflexivity.
Defined.

(** X18: the threshold of [getLowStockAlerts] is never 0.  The handler
    always answers with the alerts and no warning; the threshold it uses
    is the one of the query when that is a number other than 0, and
    otherwise (missing, unreadable or 0) the default of the environment,
    itself 10 when missing, unreadable or 0.  So [?threshold=0] does not
    list the items that ran out but those at or below the default. *)
Theorem getLowStockAlerts_threshold
    (ctx : StockController.Ctx) (queryThreshold : option Z)
    (w : StockController.World) :
  exists n t alerts w',
    StockController.handle ctx (StockController.GetAlerts queryThreshold) w
      = (StockController.Alerts n t alerts None, w')
    /\ t <> 0
    /\ (forall z, queryThreshold = Some z -> z <> 0 -> t = z)
    /\ (queryThreshold = None \/ queryThreshold = Some 0 ->
        t = StockController.defaultThreshold (StockController.env ctx)
        /\ StockController.handle ctx (StockController.GetAlerts queryThreshold) w
           = StockController.handle ctx (StockController.GetAlerts None) w)
    /\ n = length (StockLevel.getLowStock t (StockController.levels w)).
Proof.
  set (t := Js.intOr queryThreshold
              (Js.intOr (DEFAULT_LOW_STOCK_THRESHOLD (StockController.env ctx)) 10)).
  assert (He : exists alerts w',
             StockController.handle ctx (StockController.GetAlerts queryThreshold) w
               = (StockController.Alerts
                    (length (StockLevel.getLowStock t (StockController.levels w)))
                    t alerts None, w')).
  { unfold StockController.handle, StockController.asyncHandler,
      StockController.getLowStockAlerts, StockController.bind.
    fold t.
    destruct (alerts_settled ctx t
                (StockLevel.getLowStock t (StockController.levels w)) w)
      as (alerts & b & -> & Hp & _).
    rewrite fulfilled_map_Ok. unfold StockController.ret.
    rewrite length_map, Nat.sub_diag. cbn [Nat.ltb Nat.leb].
    exists alerts. eexists. f_equal. f_equal.
    rewrite <- (length_map StockController.a_productId), Hp, length_map.
    reflexivity. }
  destruct He as (alerts & w' & He).
  eexists _, t, alerts, w'. split; [exact He |].
  assert (Hd : StockController.defaultThreshold (StockController.env ctx) <> 0).
  { unfold StockController.defaultThreshold, Js.intOr.
    destruct (DEFAULT_LOW_STOCK_THRESHOLD _) as [z |]; [| lia].
    destruct (Z.eqb_spec z 0); lia. }
  split; [| split; [| split]].
  - subst t. fold (StockController.defaultThreshold (StockController.env ctx)).
    unfold Js.intOr at 1. destruct queryThreshold as [z |]; [| exact Hd].
    destruct (Z.eqb_spec z 0); assumption.
  - intros z -> Hz. subst t. unfold Js.intOr at 1.
    destruct (Z.eqb_spec z 0); [contradiction | reflexivity].
  - intros [-> | ->]; split; reflexivity.
  - reflexivity.
Qed.

(** ** Instances of the serial and interleaved invariants *)

Lemma serial_exits_fit_witness :
  let e := mkEnv None in
  let up : string -> CircuitBreaker.Call :=
    fun _ => CircuitBreaker.Responds
               (Js.JObj [("success", Js.JBool true);
                         ("data", Js.JObj [("name", Js.JStr "Widget")])]) in
  let rq q := StockController.mkRequest "X" q "sale" None "u1" in
  let w := snd (StockController.handle (StockController.mkCtx e 1000 up)
                  (StockController.AddEntry (rq 5))
                  (StockController.initialWorld e)) in
  let reqs := [(StockController.mkCtx e 2000 up, rq 4);
               (StockController.mkCtx e 3000 up, rq 4);
               (StockController.mkCtx e 4000 up, rq 1)] in
  let '(out, w') := StockController.serveExits reqs w in
  let s := StockLevel.quantityOf (StockController.levels w) "X" in
  StockController.sane w'
  /\ StockLevel.quantityOf (StockController.levels w') "X"
       = s - StockController.sold out
  /\ 0 <= StockLevel.quantityOf (StockController.levels w') "X"
  /\ Forall (fun rr => StockController.isRecorded rr.2 = true ->
                       1 <= StockController.quantity rr.1) out
  /\ Forall (fun rr => StockController.isInsufficient rr.2 = true ->
                       s < StockController.sold out + StockController.quantity rr.1)
            out.
Proof.
  intros e up rq w reqs.
  apply (serial_exits_fit "X" reqs w).
  - apply handle_sane, initialWorld_sane.
  - repeat constructor.
  - reflexivity.
  - vm_compute. reflexivity.
Defined.

Lemma run_nonNegative_witness :
  let e := mkEnv None in
  let up : string -> CircuitBreaker.Call :=
    fun _ => CircuitBreaker.Responds
               (Js.JObj [("success", Js.JBool true);
                         ("data", Js.JObj [("name", Js.JStr "Widget")])]) in
  let rq q by_ := StockController.mkRequest "X" q "sale" None by_ in
  let a := Interleaved.mkTask (StockController.mkCtx e 1000 up)
             StockMovement.ENTRY (rq 5 "u1") Interleaved.Start in
  let b := Interleaved.mkTask (StockController.mkCtx e 1001 up)
             StockMovement.EXIT (rq 4 "u2") Interleaved.Start in
  let s0 := Interleaved.mkSystem (StockController.initialWorld e) [a; b] in
  Interleaved.nonNegative
    (Interleaved.world (Interleaved.run [0; 1; 0; 1; 0; 1; 0; 1]%nat s0)).
Proof.
  intros e up rq a b s0.
  apply (run_nonNegative [0; 1; 0; 1; 0; 1; 0; 1]%nat s0).
  intros pid. unfold StockLevel.quantityOf. simpl. rewrite lookup_empty. lia.
Defined.
